(** * TaskFlow: the authenticated task synchronisation layer

    A shallow embedding of the server side of the task tracker
    (routes, storage, shared schema) together with the small part of the
    client that formats due dates, followed by the properties the
    specification states about them.

    Layout:
    - [Js]       values and engine behaviour the code relies on
                 (JSON, truthiness, [split], [Date]);
    - [Schema]   the rows and the validated request shapes of
                 shared/schema.ts;
    - [Storage]  server/storage.ts over a relational store with the
                 constraints the schema declares and the values its
                 columns take;
    - [Routes]   server/routes.ts: middleware, handlers, broadcasts;
    - [Realtime] the socket handshake;
    - [Calendar] the date key of the calendar page;
    - [Demo]     a small platform and store to run the code on.  *)

From Stdlib Require Import ZArith List String Ascii Bool Lia.
From Stdlib Require Import DecimalString.
From Stdlib Require Import Permutation Sorted.
Import ListNotations.

Set Warnings "-register-all".

Local Open Scope string_scope.
Local Open Scope Z_scope.

(* ===================================================================== *)
(** * JavaScript values and engine behaviour *)
(* ===================================================================== *)

Module Js.

(** JSON documents: what [res.json] and [io.emit] put on the wire. *)
Inductive json : Type :=
| JNull
| JBool (b : bool)
| JNum (n : Z)
| JStr (s : string)
| JArr (items : list json)
| JObj (fields : list (string * json)).

(** [mentions k j]: some object anywhere inside [j] has a field named [k]. *)
Fixpoint mentions (k : string) (j : json) : bool :=
  match j with
  | JArr items =>
      (fix any (l : list json) : bool :=
         match l with
         | [] => false
         | x :: r => mentions k x || any r
         end) items
  | JObj fields =>
      (fix any (l : list (string * json)) : bool :=
         match l with
         | [] => false
         | (name, v) :: r => String.eqb name k || mentions k v || any r
         end) fields
  | _ => false
  end.

(** Truthiness of a string: only the empty string is falsy. *)
Definition truthy (s : string) : bool :=
  negb (String.eqb s "").

(** Truthiness of [string | null | undefined] read through an option. *)
Definition truthy_opt (o : option string) : bool :=
  match o with
  | Some s => truthy s
  | None => false
  end.

(** [a || b] on possibly missing strings. *)
Definition or_else (a b : option string) : option string :=
  if truthy_opt a then a else b.

(** ** [String.prototype.split] with a non-empty separator *)

Fixpoint split_go (sep : string) (skip : nat) (cur : string) (s : string)
  : list string :=
  match s with
  | EmptyString => [cur]
  | String c rest =>
      match skip with
      | S k => split_go sep k cur rest
      | O =>
          if String.prefix sep s
          then cur :: split_go sep (Nat.pred (String.length sep)) "" rest
          else split_go sep O (cur ++ String c "") rest
      end
  end.

Definition split (sep s : string) : list string :=
  split_go sep O "" s.

(** ** Decimal digits *)

Definition digit_val (c : ascii) : option Z :=
  let n := Z.of_nat (nat_of_ascii c) in
  if (48 <=? n) && (n <=? 57) then Some (n - 48) else None.

Fixpoint digits_val (acc : Z) (l : list ascii) : option Z :=
  match l with
  | [] => Some acc
  | c :: r =>
      match digit_val c with
      | Some d => digits_val (10 * acc + d) r
      | None => None
      end
  end.

Definition decimal (n : Z) : string :=
  NilEmpty.string_of_uint (N.to_uint (Z.to_N n)).

Fixpoint zeros (k : nat) : string :=
  match k with
  | O => ""
  | S k' => String "0" (zeros k')
  end.

(** date-fns [addLeadingZeros]: at least [width] digits. *)
Definition addLeadingZeros (n : Z) (width : nat) : string :=
  let s := decimal (Z.abs n) in
  (if n <? 0 then "-" else "") ++ zeros (width - String.length s) ++ s.

(** ** Calendar arithmetic of [Date] (proleptic Gregorian, UTC) *)

Definition msPerDay : Z := 86400000.

Definition days_from_civil (y m d : Z) : Z :=
  let y' := if m <=? 2 then y - 1 else y in
  let era := y' / 400 in
  let yoe := y' - era * 400 in
  let mp := if m >? 2 then m - 3 else m + 9 in
  let doy := (153 * mp + 2) / 5 + d - 1 in
  let doe := yoe * 365 + yoe / 4 - yoe / 100 + doy in
  era * 146097 + doe - 719468.

Definition civil_from_days (z : Z) : Z * Z * Z :=
  let z' := z + 719468 in
  let era := z' / 146097 in
  let doe := z' - era * 146097 in
  let yoe := (doe - doe / 1460 + doe / 36524 - doe / 146096) / 365 in
  let doy := doe - (365 * yoe + yoe / 4 - yoe / 100) in
  let mp := (5 * doy + 2) / 153 in
  let d := doy - (153 * mp + 2) / 5 + 1 in
  let m := if mp <? 10 then mp + 3 else mp - 9 in
  let y := yoe + era * 400 in
  ((if m <=? 2 then y + 1 else y), m, d).

Definition is_leap (y : Z) : bool :=
  ((y mod 4 =? 0) && negb (y mod 100 =? 0)) || (y mod 400 =? 0).

Definition days_in_month (y m : Z) : Z :=
  if m =? 2 then (if is_leap y then 29 else 28)
  else if (m =? 4) || (m =? 6) || (m =? 9) || (m =? 11) then 30
  else 31.

(** A [Date] is its time value, milliseconds since the epoch; an
    Invalid Date is [None]. *)
Definition Date : Type := option Z.

Definition maxTime : Z := 8640000000000000.

Definition timeClip (ms : Z) : Date :=
  if Z.abs ms <=? maxTime then Some ms else None.

(** The two shapes of the ECMAScript date-time string format that occur
    here: the date-only form, which is read as UTC midnight, and the
    full form [toISOString] prints. *)
Definition parse_iso (s : string) : Date :=
  match list_ascii_of_string s with
  | [y1; y2; y3; y4; "-"%char; m1; m2; "-"%char; d1; d2] =>
      match digits_val 0 [y1; y2; y3; y4],
            digits_val 0 [m1; m2],
            digits_val 0 [d1; d2] with
      | Some y, Some m, Some d =>
          if (1 <=? m) && (m <=? 12) && (1 <=? d) && (d <=? days_in_month y m)
          then timeClip (days_from_civil y m d * msPerDay)
          else None
      | _, _, _ => None
      end
  | [y1; y2; y3; y4; "-"%char; m1; m2; "-"%char; d1; d2; "T"%char;
     h1; h2; ":"%char; n1; n2; ":"%char; s1; s2; "."%char; f1; f2; f3;
     "Z"%char] =>
      match digits_val 0 [y1; y2; y3; y4],
            digits_val 0 [m1; m2],
            digits_val 0 [d1; d2],
            digits_val 0 [h1; h2],
            digits_val 0 [n1; n2],
            digits_val 0 [s1; s2],
            digits_val 0 [f1; f2; f3] with
      | Some y, Some m, Some d, Some hh, Some mi, Some ss, Some ms =>
          if (1 <=? m) && (m <=? 12) && (1 <=? d) && (d <=? days_in_month y m)
             && (hh <=? 23) && (mi <=? 59) && (ss <=? 59)
          then timeClip (days_from_civil y m d * msPerDay
                         + hh * 3600000 + mi * 60000 + ss * 1000 + ms)
          else None
      | _, _, _, _, _, _, _ => None
      end
  | _ => None
  end.

(** [new Date(s)]: the standard format first, then whatever the engine
    makes of other strings ([host], implementation-defined). *)
Definition Date_parse (host : string -> Date) (s : string) : Date :=
  match parse_iso s with
  | Some ms => Some ms
  | None => host s
  end.

(** [Date.prototype.toISOString] on a valid time value. *)
Definition toISOString (ms : Z) : string :=
  let day := ms / msPerDay in
  let tod := ms mod msPerDay in
  let '(y, m, d) := civil_from_days day in
  let year :=
    if (0 <=? y) && (y <=? 9999) then addLeadingZeros y 4
    else (if y <? 0 then "-" else "+") ++ addLeadingZeros (Z.abs y) 6 in
  year ++ "-" ++ addLeadingZeros m 2 ++ "-" ++ addLeadingZeros d 2 ++ "T"
    ++ addLeadingZeros (tod / 3600000) 2 ++ ":"
    ++ addLeadingZeros (tod mod 3600000 / 60000) 2 ++ ":"
    ++ addLeadingZeros (tod mod 60000 / 1000) 2 ++ "."
    ++ addLeadingZeros (tod mod 1000) 3 ++ "Z".

(** date-fns [format(date, "yyyy-MM-dd")]: the calendar day of the
    instant in the zone of the formatter.  [offset] is what
    [getTimezoneOffset] returns for the instant: minutes, positive
    west of Greenwich. *)
Definition format_yyyy_MM_dd (offset : Z) (ms : Z) : string :=
  let local := ms - offset * 60000 in
  let '(y, m, d) := civil_from_days (local / msPerDay) in
  let year := if y >? 0 then y else 1 - y in
  addLeadingZeros year 4 ++ "-" ++ addLeadingZeros m 2 ++ "-"
    ++ addLeadingZeros d 2.

End Js.

Import Js.

(* ===================================================================== *)
(** * shared/schema.ts: rows and validated request shapes *)
(* ===================================================================== *)

Module Schema.

Inductive Priority : Type := low | medium | high | urgent.
Inductive Status : Type := todo | in_progress | review | completed.

Definition Priority_name (p : Priority) : string :=
  match p with
  | low => "low" | medium => "medium" | high => "high" | urgent => "urgent"
  end.

Definition Status_name (s : Status) : string :=
  match s with
  | todo => "todo" | in_progress => "in_progress"
  | review => "review" | completed => "completed"
  end.

(** A row of [users]. *)
Record User : Type := mkUser {
  u_id : string;
  u_username : string;
  u_email : string;
  u_password : string;
  u_displayName : option string;
  u_createdAt : Z
}.

(** [Omit<User, "password">]. *)
Record UserPublic : Type := mkUserPublic {
  p_id : string;
  p_username : string;
  p_email : string;
  p_displayName : option string;
  p_createdAt : Z
}.

(** A row of [tasks]. *)
Record Task : Type := mkTask {
  id : string;
  title : string;
  description : option string;
  dueDate : option Z;
  priority : Priority;
  status : Status;
  creatorId : string;
  assignedToId : option string;
  createdAt : Z;
  updatedAt : Z
}.

(** [Task & { creator; assignedTo }]. *)
Record TaskWithRelations : Type := mkTaskWithRelations {
  task : Task;
  creator : UserPublic;
  assignedTo : option UserPublic
}.

(** An optional property of a parsed object: missing ([undefined]) or
    there; a nullable one carries an [option] inside. *)
Inductive optional (A : Type) : Type :=
| undefined
| defined (a : A).
Arguments undefined {A}.
Arguments defined {A} a.

Definition or_default {A : Type} (o : optional A) (d : A) : A :=
  match o with
  | undefined => d
  | defined a => a
  end.

(** [z.infer<typeof registerSchema>]. *)
Record RegisterData : Type := mkRegisterData {
  r_username : string;
  r_email : string;
  r_password : string;
  r_displayName : optional string
}.

(** [z.infer<typeof loginSchema>]. *)
Record LoginData : Type := mkLoginData {
  l_email : string;
  l_password : string
}.

(** [InsertUser]: what [createUser] receives. *)
Record InsertUser : Type := mkInsertUser {
  iu_username : string;
  iu_email : string;
  iu_password : string;
  iu_displayName : optional string
}.

(** [InsertTask]: id, creatorId, createdAt and updatedAt are omitted from
    the schema, so a parsed body has no such properties. *)
Record InsertTask : Type := mkInsertTask {
  new_title : string;
  new_description : optional (option string);
  new_dueDate : optional (option string);
  new_priority : optional Priority;
  new_status : optional Status;
  new_assignedToId : optional (option string)
}.

(** [UpdateTask = insertTaskSchema.partial()]. *)
Record UpdateTask : Type := mkUpdateTask {
  set_title : optional string;
  set_description : optional (option string);
  set_dueDate : optional (option string);
  set_priority : optional Priority;
  set_status : optional Status;
  set_assignedToId : optional (option string)
}.

(** [Partial<Task>] as [updateTask] builds it: the patch, its due date
    turned into a [Date], and the fresh [updatedAt]. *)
Record PartialTask : Type := mkPartialTask {
  with_title : optional string;
  with_description : optional (option string);
  with_dueDate : optional (option Date);
  with_priority : optional Priority;
  with_status : optional Status;
  with_assignedToId : optional (option string);
  with_updatedAt : optional Z
}.

(** ** Wire form of the rows *)

Definition json_of_opt_string (o : option string) : json :=
  match o with
  | Some s => JStr s
  | None => JNull
  end.

Definition json_of_time (ms : Z) : json := JStr (toISOString ms).

Definition json_of_opt_time (o : option Z) : json :=
  match o with
  | Some ms => json_of_time ms
  | None => JNull
  end.

Definition fields_of_User (u : User) : list (string * json) :=
  [ ("id", JStr (u_id u));
    ("username", JStr (u_username u));
    ("email", JStr (u_email u));
    ("password", JStr (u_password u));
    ("displayName", json_of_opt_string (u_displayName u));
    ("createdAt", json_of_time (u_createdAt u)) ].

Definition fields_of_UserPublic (u : UserPublic) : list (string * json) :=
  [ ("id", JStr (p_id u));
    ("username", JStr (p_username u));
    ("email", JStr (p_email u));
    ("displayName", json_of_opt_string (p_displayName u));
    ("createdAt", json_of_time (p_createdAt u)) ].

Definition json_of_UserPublic (u : UserPublic) : json :=
  JObj (fields_of_UserPublic u).

Definition fields_of_Task (t : Task) : list (string * json) :=
  [ ("id", JStr (id t));
    ("title", JStr (title t));
    ("description", json_of_opt_string (description t));
    ("dueDate", json_of_opt_time (dueDate t));
    ("priority", JStr (Priority_name (priority t)));
    ("status", JStr (Status_name (status t)));
    ("creatorId", JStr (creatorId t));
    ("assignedToId", json_of_opt_string (assignedToId t));
    ("createdAt", json_of_time (createdAt t));
    ("updatedAt", json_of_time (updatedAt t)) ].

Definition json_of_TaskWithRelations (t : TaskWithRelations) : json :=
  JObj (fields_of_Task (task t)
        ++ [ ("creator", json_of_UserPublic (creator t));
             ("assignedTo",
              match assignedTo t with
              | Some a => json_of_UserPublic a
              | None => JNull
              end) ]).

End Schema.

Import Schema.

(* ===================================================================== *)
(** * What the server takes from its surroundings *)
(* ===================================================================== *)

(** Values a [throw] can carry, as [handleError] tells them apart. *)
Inductive Thrown : Type :=
| ZodError (errors : list string)   (* the messages of the issues, in order *)
| Error (message : string)          (* any other instance of Error *)
| NotAnError (value : json).        (* a thrown value that is no Error *)

(** [JWTPayload]. *)
Record JWTPayload : Type := mkJWTPayload {
  userId : string;
  email : string
}.

(** What the relational store can find wrong with a statement: a
    constraint it would violate, or a parameter it does not take. *)
Inductive Violation : Type :=
| UniqueViolation (constraint : string)
| ForeignKeyViolation (constraint : string)
| InvalidByteSequence                 (* a text that holds the NUL character *)
| DatetimeOutOfRange (value : string). (* a timestamp outside the calendar *)

(** Libraries and configuration: zod schemas as parsers, bcrypt,
    jsonwebtoken under the configured secret, the engine's reading of
    non-standard date strings, NODE_ENV, the text the database driver
    puts in its errors, and what a timestamp column does with an instant
    of a year before 100 or after 9999: the server refuses the text
    ([None]), or the row comes back with what the engine reads in the
    text the server prints ([Some d], where [d] is [None] when that is
    no date). *)
Record Platform : Type := mkPlatform {
  registerSchema_parse : json -> Thrown + RegisterData;
  loginSchema_parse : json -> Thrown + LoginData;
  insertTaskSchema_parse : json -> Thrown + InsertTask;
  updateTaskSchema_parse : json -> Thrown + UpdateTask;
  bcrypt_hash : string -> string -> string;
  bcrypt_compare : string -> string -> bool;
  jwt_sign : JWTPayload -> Z -> string;
  jwt_verify : string -> Z -> option JWTPayload;
  host_date : string -> Date;
  production : bool;
  driver_message : Violation -> string;
  driver_timestamp : Z -> option (option Z)
}.

(** What one request draws from the clock and the random sources. *)
Record Tick : Type := mkTick {
  now : Z;
  uuid : string;
  salt : string
}.

(* ===================================================================== *)
(** * server/storage.ts *)
(* ===================================================================== *)

(** The two tables, each row as a select returns it. *)
Record Store : Type := mkStore {
  users : list User;
  tasks : list Task
}.

(** What [emitTaskEvent] hands to [io.emit]. *)
Inductive TaskEvent : Type :=
| task_created (taskId : string) (data : TaskWithRelations)
| task_updated (taskId : string) (data : TaskWithRelations)
| task_assigned (taskId : string) (userId : string) (data : TaskWithRelations)
| task_deleted (taskId : string).

(** The server process: the database and what it has broadcast so far,
    oldest first. *)
Record World : Type := mkWorld {
  db : Store;
  sent : list TaskEvent
}.

Module Storage.

(** ** Computations that read and write the world, and may throw *)

Inductive Outcome (A : Type) : Type :=
| Ok (a : A)
| Throw (e : Thrown).
Arguments Ok {A} a.
Arguments Throw {A} e.

Definition M (A : Type) : Type := World -> Outcome A * World.

Definition ret {A : Type} (a : A) : M A := fun w => (Ok a, w).

Definition throw {A : Type} (e : Thrown) : M A := fun w => (Throw e, w).

Definition bind {A B : Type} (c : M A) (k : A -> M B) : M B :=
  fun w =>
    match c w with
    | (Ok a, w') => k a w'
    | (Throw e, w') => (Throw e, w')
    end.

Notation "x <- c ;; k" := (bind c (fun x => k))
  (at level 61, c at next level, right associativity).

(** A statement runs against the database alone. *)
Definition Stmt (A : Type) : Type := Store -> Outcome A * Store.

Definition run_stmt {A : Type} (q : Stmt A) : M A :=
  fun w => let (o, s') := q (db w) in (o, mkWorld s' (sent w)).

(** [Promise.all(rows.map(f))]. *)
Fixpoint all {A B : Type} (f : A -> M B) (l : list A) : M (list B) :=
  match l with
  | [] => ret []
  | x :: r =>
      y <- f x ;;
      ys <- all f r ;;
      ret (y :: ys)
  end.

Section WithPlatform.

Variable P : Platform.
Variable tick : Tick.

(** ** Statements *)

Definition select_users (where_ : User -> bool) : M (list User) :=
  run_stmt (fun s => (Ok (filter where_ (users s)), s)).

Definition select_tasks (where_ : Task -> bool) : M (list Task) :=
  run_stmt (fun s => (Ok (filter where_ (tasks s)), s)).

Definition violation {A : Type} (v : Violation) : Stmt A :=
  fun s => (Throw (Error (driver_message P v)), s).

Definition has_user (uid : string) (s : Store) : bool :=
  existsb (fun u => String.eqb (u_id u) uid) (users s).

Definition references_user (o : option string) (s : Store) : bool :=
  match o with
  | Some uid => has_user uid s
  | None => true
  end.

(** ** What the columns take

    The server reads the parameters of a statement in the order of the
    columns, before it looks at any constraint; the first it does not
    take fails the statement.  The values a request can choose are text
    and the due date; ids, the hash and the stamps are made by the
    server. *)

(** A text or varchar parameter is refused when it holds the NUL
    character. *)
Definition text_ok (s : string) : bool :=
  negb (existsb (Ascii.eqb "000"%char) (list_ascii_of_string s)).

Definition text_opt_ok (o : option string) : bool :=
  match o with
  | Some s => text_ok s
  | None => true
  end.

Definition unset_or {A : Type} (ok : A -> bool) (o : optional A) : bool :=
  match o with
  | undefined => true
  | defined a => ok a
  end.

(** The year [toISOString] prints for an instant. *)
Definition year_of (ms : Z) : Z :=
  fst (fst (civil_from_days (ms / msPerDay))).

(** A timestamp column: [mapToDriverValue] sends [toISOString()] and
    [mapFromDriverValue] reads the text the server prints.  An instant
    of the years 100 to 9999 comes back as it went; the server has no
    year 0 and refuses it. *)
Definition timestamp_column (ms : Z) : option (option Z) :=
  if (100 <=? year_of ms) && (year_of ms <=? 9999)
  then Some (Some ms)
  else if year_of ms =? 0
  then None
  else driver_timestamp P ms.

(** A nullable timestamp parameter: refused, or what the row holds. *)
Definition bind_timestamp (d : option Z) : Violation + option Z :=
  match d with
  | None => inr None
  | Some ms =>
      match timestamp_column ms with
      | Some back => inr back
      | None => inl (DatetimeOutOfRange (toISOString ms))
      end
  end.

Definition bind_timestamp_opt (d : optional (option Z))
  : Violation + optional (option Z) :=
  match d with
  | undefined => inr undefined
  | defined v =>
      match bind_timestamp v with
      | inl e => inl e
      | inr back => inr (defined back)
      end
  end.

(** The parameters of an insert into [users]: username, email,
    display_name. *)
Definition bind_user (row : User) : Violation + User :=
  if text_ok (u_username row) && text_ok (u_email row)
     && text_opt_ok (u_displayName row)
  then inr row
  else inl InvalidByteSequence.

(** The parameters of an insert into [tasks] that a request chooses, in
    the order of the columns: title, description, due_date,
    assigned_to_id.  What comes back is the due date the row holds. *)
Definition bind_columns (t : string) (d : option string) (due : option Z)
                        (a : option string) : Violation + option Z :=
  if text_ok t && text_opt_ok d
  then match bind_timestamp due with
       | inl e => inl e
       | inr back => if text_opt_ok a then inr back
                     else inl InvalidByteSequence
       end
  else inl InvalidByteSequence.

(** The row as the insert returns it. *)
Definition bind_task (row : Task) : Violation + Task :=
  match bind_columns (title row) (description row) (dueDate row)
                     (assignedToId row) with
  | inl e => inl e
  | inr due =>
      inr {| id := id row;
             title := title row;
             description := description row;
             dueDate := due;
             priority := priority row;
             status := status row;
             creatorId := creatorId row;
             assignedToId := assignedToId row;
             createdAt := createdAt row;
             updatedAt := updatedAt row |}
  end.

(** [insert(users).values(row).returning()], which yields the one row it
    stored: the parameters, then primary key and the two unique
    columns. *)
Definition insert_user (row : User) : M User :=
  run_stmt (fun s =>
    match bind_user row with
    | inl e => violation e s
    | inr row =>
        if existsb (fun u => String.eqb (u_id u) (u_id row)) (users s)
        then violation (UniqueViolation "users_pkey") s
        else if existsb (fun u => String.eqb (u_username u) (u_username row))
                        (users s)
        then violation (UniqueViolation "users_username_unique") s
        else if existsb (fun u => String.eqb (u_email u) (u_email row))
                        (users s)
        then violation (UniqueViolation "users_email_unique") s
        else (Ok row, mkStore (users s ++ [row]) (tasks s))
    end).

(** [insert(tasks).values(row).returning()]: the parameters, then
    primary key and the two references into [users]. *)
Definition insert_task (row : Task) : M Task :=
  run_stmt (fun s =>
    match bind_task row with
    | inl e => violation e s
    | inr row =>
        if existsb (fun t => String.eqb (id t) (id row)) (tasks s)
        then violation (UniqueViolation "tasks_pkey") s
        else if negb (references_user (assignedToId row) s)
        then violation
               (ForeignKeyViolation "tasks_assigned_to_id_users_id_fk") s
        else if negb (has_user (creatorId row) s)
        then violation (ForeignKeyViolation "tasks_creator_id_users_id_fk") s
        else (Ok row, mkStore (users s) (tasks s ++ [row]))
    end).

(** A column of [set]: a missing property is left out of the statement. *)
Definition assign {A : Type} (o : optional A) (old : A) : A :=
  or_default o old.

(** The row after [set(updateData)], once the dates are driver values. *)
Definition set_row (d : PartialTask) (due : optional (option Z)) (t : Task)
  : Task :=
  {| id := id t;
     title := assign (with_title d) (title t);
     description := assign (with_description d) (description t);
     dueDate := assign due (dueDate t);
     priority := assign (with_priority d) (priority t);
     status := assign (with_status d) (status t);
     creatorId := creatorId t;
     assignedToId := assign (with_assignedToId d) (assignedToId t);
     createdAt := createdAt t;
     updatedAt := assign (with_updatedAt d) (updatedAt t) |}.

(** The timestamp column's [mapToDriverValue] is [toISOString], which
    throws a RangeError on an Invalid Date. *)
Definition driver_date (d : option Date) : M (option Z) :=
  match d with
  | None => ret None
  | Some (Some ms) => ret (Some ms)
  | Some None => throw (Error "Invalid time value")
  end.

Definition driver_date_opt (d : optional (option Date))
  : M (optional (option Z)) :=
  match d with
  | undefined => ret undefined
  | defined x => v <- driver_date x ;; ret (defined v)
  end.

Definition same_reference (a b : option string) : bool :=
  match a, b with
  | Some x, Some y => String.eqb x y
  | None, None => true
  | _, _ => false
  end.

(** The parameters of a [set] on [tasks]: title, description, due_date,
    assigned_to_id.  The due date is the one the rows will hold. *)
Definition bind_set (d : PartialTask) (due : optional (option Z))
  : Violation + optional (option Z) :=
  if unset_or text_ok (with_title d)
     && unset_or text_opt_ok (with_description d)
  then match bind_timestamp_opt due with
       | inl e => inl e
       | inr back =>
           if unset_or text_opt_ok (with_assignedToId d)
           then inr back
           else inl InvalidByteSequence
       end
  else inl InvalidByteSequence.

(** [update(tasks).set(d).where(...).returning()]: the parameters, then
    the matching rows are rewritten in place; a row whose assignee
    column changes must reference a user. *)
Definition update_tasks (d : PartialTask) (where_ : Task -> bool)
  : M (list Task) :=
  sent_due <- driver_date_opt (with_dueDate d) ;;
  run_stmt (fun s =>
    match bind_set d sent_due with
    | inl e => violation e s
    | inr due =>
        if forallb (fun t =>
                      let t' := set_row d due t in
                      same_reference (assignedToId t') (assignedToId t)
                      || references_user (assignedToId t') s)
                   (filter where_ (tasks s))
        then (Ok (map (set_row d due) (filter where_ (tasks s))),
              mkStore (users s)
                      (map (fun t => if where_ t then set_row d due t else t)
                           (tasks s)))
        else violation
               (ForeignKeyViolation "tasks_assigned_to_id_users_id_fk") s
    end).

(** [delete(tasks).where(...).returning()]. *)
Definition delete_tasks (where_ : Task -> bool) : M (list Task) :=
  run_stmt (fun s =>
    (Ok (filter where_ (tasks s)),
     mkStore (users s) (filter (fun t => negb (where_ t)) (tasks s)))).

(** [orderBy(desc(tasks.createdAt))]; rows created at the same instant
    come in no promised order. *)
Fixpoint insert_desc (t : Task) (l : list Task) : list Task :=
  match l with
  | [] => [t]
  | x :: r =>
      if createdAt x <? createdAt t then t :: l else x :: insert_desc t r
  end.

Definition orderBy_desc_createdAt (l : list Task) : list Task :=
  fold_right insert_desc [] l.

(** ** The methods of [DatabaseStorage] *)

Definition toPublicUser (user : User) : UserPublic :=
  {| p_id := u_id user;
     p_username := u_username user;
     p_email := u_email user;
     p_displayName := u_displayName user;
     p_createdAt := u_createdAt user |}.

Definition nullable {A : Type} (o : optional (option A)) : option A :=
  or_default o None.

Definition to_null {A : Type} (o : optional A) : option A :=
  match o with
  | undefined => None
  | defined a => Some a
  end.

Definition getUser (uid : string) : M (option User) :=
  rows <- select_users (fun u => String.eqb (u_id u) uid) ;;
  ret (hd_error rows).

Definition getUserByUsername (name : string) : M (option User) :=
  rows <- select_users (fun u => String.eqb (u_username u) name) ;;
  ret (hd_error rows).

Definition getUserByEmail (mail : string) : M (option User) :=
  rows <- select_users (fun u => String.eqb (u_email u) mail) ;;
  ret (hd_error rows).

Definition createUser (insertUser : InsertUser) : M User :=
  insert_user {| u_id := uuid tick;
                 u_username := iu_username insertUser;
                 u_email := iu_email insertUser;
                 u_password := iu_password insertUser;
                 u_displayName := to_null (iu_displayName insertUser);
                 u_createdAt := now tick |}.

Definition getAllUsers : M (list UserPublic) :=
  allUsers <- select_users (fun _ => true) ;;
  ret (map toPublicUser allUsers).

(** [toPublicUser(creator)] destructures its argument, which throws a
    TypeError when no creator row came back. *)
Definition enrichTask (t : Task) : M TaskWithRelations :=
  creators <- select_users (fun u => String.eqb (u_id u) (creatorId t)) ;;
  assignee <-
    (if truthy_opt (assignedToId t)
     then
       assignees <-
         select_users
           (fun u => same_reference (Some (u_id u)) (assignedToId t)) ;;
       ret (option_map toPublicUser (hd_error assignees))
     else ret None) ;;
  match hd_error creators with
  | Some c =>
      ret {| task := t; creator := toPublicUser c; assignedTo := assignee |}
  | None =>
      throw (Error "Cannot destructure property 'password' of 'user' as it is undefined.")
  end.

Definition getTask (tid : string) : M (option TaskWithRelations) :=
  rows <- select_tasks (fun t => String.eqb (id t) tid) ;;
  match hd_error rows with
  | None => ret None
  | Some t => r <- enrichTask t ;; ret (Some r)
  end.

Definition getAllTasks : M (list TaskWithRelations) :=
  allTasks <- select_tasks (fun _ => true) ;;
  all enrichTask (orderBy_desc_createdAt allTasks).

Definition getTasksByCreator (cid : string) : M (list TaskWithRelations) :=
  creatorTasks <- select_tasks (fun t => String.eqb (creatorId t) cid) ;;
  all enrichTask (orderBy_desc_createdAt creatorTasks).

Definition getTasksByAssignee (aid : string) : M (list TaskWithRelations) :=
  assigneeTasks <-
    select_tasks (fun t => same_reference (assignedToId t) (Some aid)) ;;
  all enrichTask (orderBy_desc_createdAt assigneeTasks).

(** [d ? new Date(d) : null] on a due-date string. *)
Definition date_or_null (d : option string) : option Date :=
  match d with
  | Some s => if truthy s then Some (Date_parse (host_date P) s) else None
  | None => None
  end.

Definition createTask (insertTask : InsertTask) (cid : string)
  : M TaskWithRelations :=
  let stamp := now tick in
  due <- driver_date (date_or_null (nullable (new_dueDate insertTask))) ;;
  t <- insert_task
         {| id := uuid tick;
            title := new_title insertTask;
            description := nullable (new_description insertTask);
            dueDate := due;
            priority := or_default (new_priority insertTask) medium;
            status := or_default (new_status insertTask) todo;
            creatorId := cid;
            assignedToId := nullable (new_assignedToId insertTask);
            createdAt := stamp;
            updatedAt := stamp |} ;;
  enrichTask t.

Definition updateData (data : UpdateTask) : PartialTask :=
  {| with_title := set_title data;
     with_description := set_description data;
     with_dueDate :=
       match set_dueDate data with
       | undefined => undefined
       | defined d => defined (date_or_null d)
       end;
     with_priority := set_priority data;
     with_status := set_status data;
     with_assignedToId := set_assignedToId data;
     with_updatedAt := defined (now tick) |}.

Definition updateTask (tid : string) (data : UpdateTask)
  : M (option TaskWithRelations) :=
  rows <- update_tasks (updateData data) (fun t => String.eqb (id t) tid) ;;
  match hd_error rows with
  | None => ret None
  | Some t => r <- enrichTask t ;; ret (Some r)
  end.

Definition deleteTask (tid : string) : M bool :=
  result <- delete_tasks (fun t => String.eqb (id t) tid) ;;
  ret (Nat.ltb 0 (List.length result)).

End WithPlatform.

End Storage.

(* ===================================================================== *)
(** * server/routes.ts *)
(* ===================================================================== *)

Module Routes.

Import Storage.

Definition COOKIE_NAME : string := "taskflow_token".

(** What a handler does to the session cookie. *)
Inductive Cookie : Type :=
| cookie_untouched
| cookie_set (value : string) (httpOnly secure : bool) (sameSite : string)
             (maxAge : Z)
| cookie_cleared.

Record Response : Type := mkResponse {
  statusCode : Z;
  body : json;
  cookie : Cookie
}.

(** [res.status(code).json({ message })]. *)
Definition message_response (code : Z) (message : string) : Response :=
  mkResponse code (JObj [("message", JStr message)]) cookie_untouched.

(** [res.status(code).json(payload)]. *)
Definition json_response (code : Z) (payload : json) : Response :=
  mkResponse code payload cookie_untouched.

(** The routes that need no session, and those behind [authMiddleware]. *)
Inductive AuthRoute : Type :=
| PostRegister (body : json)
| PostLogin (body : json)
| PostLogout.

Inductive ApiRoute : Type :=
| GetMe
| GetUsers
| GetTasks
| GetTaskById (tid : string)
| PostTask (body : json)
| PatchTask (tid : string) (body : json)
| DeleteTaskById (tid : string).

Inductive Route : Type :=
| auth_route (r : AuthRoute)
| api_route (r : ApiRoute).

(** A request: its route and [req.cookies?.[COOKIE_NAME]]. *)
Record Request : Type := mkRequest {
  route : Route;
  token : option string
}.

(** What the wire carries for an event: its name and its payload. *)
Definition wire (e : TaskEvent) : string * json :=
  match e with
  | task_created tid data =>
      ("task:created",
       JObj [("taskId", JStr tid); ("data", json_of_TaskWithRelations data)])
  | task_updated tid data =>
      ("task:updated",
       JObj [("taskId", JStr tid); ("data", json_of_TaskWithRelations data)])
  | task_assigned tid uid data =>
      ("task:assigned",
       JObj [("taskId", JStr tid); ("userId", JStr uid);
             ("data", json_of_TaskWithRelations data)])
  | task_deleted tid =>
      ("task:deleted", JObj [("taskId", JStr tid)])
  end.

Definition Handler : Type := World -> Response * World.

Definition handleError (error : Thrown) (defaultMessage : string) : Response :=
  match error with
  | ZodError errors =>
      message_response 400
        (match errors with
         | m :: _ => if truthy m then m else "Validation error"
         | [] => "Validation error"
         end)
  | Error message => message_response 400 message
  | NotAnError _ => message_response 500 defaultMessage
  end.

(** [try { ... } catch (error) { return handleError(res, error, d) }]. *)
Definition try_catch (block : M Response) (defaultMessage : string) : Handler :=
  fun w =>
    match block w with
    | (Ok r, w') => (r, w')
    | (Throw e, w') => (handleError e defaultMessage, w')
    end.

(** [schema.parse(req.body)]. *)
Definition parse {A : Type} (r : Thrown + A) : M A :=
  match r with
  | inl e => throw e
  | inr a => ret a
  end.

Definition emitTaskEvent (e : TaskEvent) : M unit :=
  fun w => (Ok tt, mkWorld (db w) (sent w ++ [e])).

Section WithPlatform.

Variable P : Platform.
Variable tick : Tick.

Definition authMiddleware (tok : option string)
                          (next : JWTPayload -> Handler) : Handler :=
  match tok with
  | None => fun w => (message_response 401 "Authentication required", w)
  | Some t =>
      if negb (truthy t)
      then fun w => (message_response 401 "Authentication required", w)
      else
        match jwt_verify P t (now tick) with
        | Some decoded => next decoded
        | None => fun w => (message_response 401 "Invalid or expired token", w)
        end
  end.

Definition session_cookie (value : string) : Cookie :=
  cookie_set value true (production P) "lax" (7 * 24 * 60 * 60 * 1000).

Definition user_response (code : Z) (publicUser : UserPublic) (c : Cookie)
  : Response :=
  mkResponse code (JObj [("user", json_of_UserPublic publicUser)]) c.

(** ** The [try] blocks of the handlers *)

Definition register (reqBody : json) : M Response :=
  data <- parse (registerSchema_parse P reqBody) ;;
  existingEmail <- getUserByEmail (r_email data) ;;
  match existingEmail with
  | Some _ => ret (message_response 400 "Email already in use")
  | None =>
      existingUsername <- getUserByUsername (r_username data) ;;
      match existingUsername with
      | Some _ => ret (message_response 400 "Username already taken")
      | None =>
          let hashedPassword := bcrypt_hash P (r_password data) (salt tick) in
          user <- createUser P tick
                    {| iu_username := r_username data;
                       iu_email := r_email data;
                       iu_password := hashedPassword;
                       iu_displayName := r_displayName data |} ;;
          let tok :=
            jwt_sign P {| userId := u_id user; email := u_email user |}
                     (now tick) in
          ret (user_response 201 (toPublicUser user) (session_cookie tok))
      end
  end.

Definition login (reqBody : json) : M Response :=
  data <- parse (loginSchema_parse P reqBody) ;;
  found <- getUserByEmail (l_email data) ;;
  match found with
  | None => ret (message_response 401 "Invalid email or password")
  | Some user =>
      if negb (bcrypt_compare P (l_password data) (u_password user))
      then ret (message_response 401 "Invalid email or password")
      else
        let tok :=
          jwt_sign P {| userId := u_id user; email := u_email user |}
                   (now tick) in
        ret (user_response 200 (toPublicUser user) (session_cookie tok))
  end.

Definition logout : Handler :=
  fun w =>
    (mkResponse 200 (JObj [("message", JStr "Logged out successfully")])
                cookie_cleared, w).

Definition me (reqUser : JWTPayload) : M Response :=
  found <- getUser (userId reqUser) ;;
  match found with
  | None => ret (message_response 404 "User not found")
  | Some user => ret (user_response 200 (toPublicUser user) cookie_untouched)
  end.

Definition list_users : M Response :=
  allUsers <- getAllUsers ;;
  ret (json_response 200 (JArr (map json_of_UserPublic allUsers))).

Definition list_tasks : M Response :=
  allTasks <- getAllTasks ;;
  ret (json_response 200 (JArr (map json_of_TaskWithRelations allTasks))).

Definition get_task (tid : string) : M Response :=
  found <- getTask tid ;;
  match found with
  | None => ret (message_response 404 "Task not found")
  | Some t => ret (json_response 200 (json_of_TaskWithRelations t))
  end.

Definition post_task (reqUser : JWTPayload) (reqBody : json) : M Response :=
  data <- parse (insertTaskSchema_parse P reqBody) ;;
  t <- createTask P tick data (userId reqUser) ;;
  _ <- emitTaskEvent (task_created (id (task t)) t) ;;
  ret (json_response 201 (json_of_TaskWithRelations t)).

(** [data.assignedToId && data.assignedToId !== previousAssignee]. *)
Definition newly_assigned (data : UpdateTask) (previousAssignee : option string)
  : option string :=
  match set_assignedToId data with
  | defined (Some a) =>
      if truthy a && negb (same_reference (Some a) previousAssignee)
      then Some a
      else None
  | _ => None
  end.

Definition patch_task (tid : string) (reqBody : json) : M Response :=
  existing <- getTask tid ;;
  match existing with
  | None => ret (message_response 404 "Task not found")
  | Some existingTask =>
      data <- parse (updateTaskSchema_parse P reqBody) ;;
      let previousAssignee := assignedToId (task existingTask) in
      updated <- updateTask P tick tid data ;;
      match updated with
      | None => ret (message_response 404 "Task not found")
      | Some t =>
          _ <- emitTaskEvent (task_updated (id (task t)) t) ;;
          _ <- match newly_assigned data previousAssignee with
               | Some a => emitTaskEvent (task_assigned (id (task t)) a t)
               | None => ret tt
               end ;;
          ret (json_response 200 (json_of_TaskWithRelations t))
      end
  end.

Definition delete_task (tid : string) : M Response :=
  existing <- getTask tid ;;
  match existing with
  | None => ret (message_response 404 "Task not found")
  | Some _ =>
      deleted <- deleteTask tid ;;
      if negb deleted
      then ret (message_response 404 "Task not found")
      else
        _ <- emitTaskEvent (task_deleted tid) ;;
        ret (mkResponse 200
               (JObj [("message", JStr "Task deleted successfully")])
               cookie_untouched)
  end.

(** ** The routes *)

Definition api_try (r : ApiRoute) (reqUser : JWTPayload) : M Response :=
  match r with
  | GetMe => me reqUser
  | GetUsers => list_users
  | GetTasks => list_tasks
  | GetTaskById tid => get_task tid
  | PostTask b => post_task reqUser b
  | PatchTask tid b => patch_task tid b
  | DeleteTaskById tid => delete_task tid
  end.

Definition api_default (r : ApiRoute) : string :=
  match r with
  | GetMe => "Failed to get user"
  | GetUsers => "Failed to get users"
  | GetTasks => "Failed to get tasks"
  | GetTaskById _ => "Failed to get task"
  | PostTask _ => "Failed to create task"
  | PatchTask _ _ => "Failed to update task"
  | DeleteTaskById _ => "Failed to delete task"
  end.

Definition handle (req : Request) : Handler :=
  match route req with
  | auth_route (PostRegister b) => try_catch (register b) "Registration failed"
  | auth_route (PostLogin b) => try_catch (login b) "Login failed"
  | auth_route PostLogout => logout
  | api_route r =>
      authMiddleware (token req)
        (fun reqUser => try_catch (api_try r reqUser) (api_default r))
  end.

(** One request against a database: the response, the database after
    it, and what was broadcast. *)
Definition serve (s : Store) (req : Request)
  : Response * Store * list TaskEvent :=
  let (r, w) := handle req (mkWorld s []) in
  (r, db w, sent w).

End WithPlatform.

End Routes.

(* ===================================================================== *)
(** * The socket handshake of server/routes.ts *)
(* ===================================================================== *)

Module Realtime.

Import Routes.

(** [socket.handshake]: the explicit auth payload and the cookie header. *)
Record Handshake : Type := mkHandshake {
  auth_token : option string;
  cookie_header : option string
}.

(** What the middleware passes to [next]. *)
Inductive Next : Type :=
| proceed
| refuse (error : Thrown).

(** A socket as the server sees it: the identity attached at the
    handshake, how often its token went through [jwt.verify], and the
    lines the handlers logged. *)
Record Socket : Type := mkSocket {
  user : option JWTPayload;
  verifications : nat;
  logged : list string
}.

(** [auth.token || cookie?.split(COOKIE_NAME + "=")[1]?.split(";")[0]]. *)
Definition handshake_token (h : Handshake) : option string :=
  or_else (auth_token h)
    (match cookie_header h with
     | None => None
     | Some c =>
         match nth_error (split (COOKIE_NAME ++ "=") c) 1 with
         | None => None
         | Some rest => nth_error (split ";" rest) 0
         end
     end).

Section WithPlatform.

Variable P : Platform.

(** [io.use((socket, next) => ...)] at time [t]. *)
Definition io_use (t : Z) (h : Handshake) : Socket * Next :=
  match handshake_token h with
  | Some tok =>
      if truthy tok
      then
        match jwt_verify P tok t with
        | Some decoded => (mkSocket (Some decoded) 1 [], proceed)
        | None => (mkSocket None 1 [], proceed)
        end
      else (mkSocket None 0 [], proceed)
  | None => (mkSocket None 0 [], proceed)
  end.

End WithPlatform.

(** What happens to a socket once the middleware let it through. *)
Inductive SocketEvent : Type :=
| connection
| disconnect
| pushed (e : TaskEvent).

Definition on_event (s : Socket) (ev : SocketEvent) : Socket :=
  match ev with
  | connection =>
      mkSocket (user s) (verifications s) (logged s ++ ["Client connected:"])
  | disconnect =>
      mkSocket (user s) (verifications s)
               (logged s ++ ["Client disconnected:"])
  | pushed _ => s
  end.

Definition lifetime (s : Socket) (evs : list SocketEvent) : Socket :=
  fold_left on_event evs s.

End Realtime.

(* ===================================================================== *)
(** * The date key of the calendar page *)
(* ===================================================================== *)

Module Calendar.

(** A property of a JSON object. *)
Definition property (k : string) (j : json) : option json :=
  match j with
  | JObj fields =>
      option_map snd (find (fun kv => String.eqb (fst kv) k) fields)
  | _ => None
  end.

(** [format(new Date(task.dueDate), "yyyy-MM-dd")] for a task as it came
    over the wire, in a browser whose [getTimezoneOffset] is [offset];
    nothing when the task has no due date, or when [format] throws on an
    Invalid Date. *)
Definition dateKey (host : string -> Date) (offset : Z -> Z) (t : json)
  : option string :=
  match property "dueDate" t with
  | Some (JStr d) =>
      if truthy d
      then
        match Date_parse host d with
        | Some ms => Some (format_yyyy_MM_dd (offset ms) ms)
        | None => None
        end
      else None
  | _ => None
  end.

End Calendar.

(* ===================================================================== *)
(** * A small platform to run examples on *)
(* ===================================================================== *)

(** Stand-ins for the libraries: parsers that read the properties the
    schemas name and drop every other one, a transparent hash, and a
    token that spells out its payload and expiry.  They are one platform
    among those the theorems range over. *)
Module Demo.

Import Calendar.

Definition read_string (k : string) (j : json) : list string + string :=
  match property k j with
  | Some (JStr s) => inr s
  | None => inl ["Required"]
  | Some _ => inl ["Expected string"]
  end.

Definition read_optional_string (k : string) (j : json)
  : list string + optional string :=
  match property k j with
  | Some (JStr s) => inr (defined s)
  | None => inr undefined
  | Some _ => inl ["Expected string"]
  end.

Definition read_nullable_string (k : string) (j : json)
  : list string + optional (option string) :=
  match property k j with
  | Some (JStr s) => inr (defined (Some s))
  | Some JNull => inr (defined None)
  | None => inr undefined
  | Some _ => inl ["Expected string"]
  end.

Definition read_priority (j : json) : list string + optional Priority :=
  match property "priority" j with
  | None => inr undefined
  | Some (JStr s) =>
      if String.eqb s "low" then inr (defined low)
      else if String.eqb s "medium" then inr (defined medium)
      else if String.eqb s "high" then inr (defined high)
      else if String.eqb s "urgent" then inr (defined urgent)
      else inl ["Invalid enum value"]
  | Some _ => inl ["Invalid enum value"]
  end.

Definition read_status (j : json) : list string + optional Status :=
  match property "status" j with
  | None => inr undefined
  | Some (JStr s) =>
      if String.eqb s "todo" then inr (defined todo)
      else if String.eqb s "in_progress" then inr (defined in_progress)
      else if String.eqb s "review" then inr (defined review)
      else if String.eqb s "completed" then inr (defined completed)
      else inl ["Invalid enum value"]
  | Some _ => inl ["Invalid enum value"]
  end.

Definition issues {A : Type} (r : list string + A) : list string :=
  match r with
  | inl l => l
  | inr _ => []
  end.

Definition check (ok : bool) (message : string) : list string :=
  if ok then [] else [message].

Definition title_issues (t : string) : list string :=
  (check (Nat.leb 1 (String.length t)) "Title is required"
   ++ check (Nat.leb (String.length t) 100)
            "Title must be 100 characters or less")%list.

Definition has_at (s : string) : bool :=
  Nat.ltb 1 (List.length (split "@" s)).

Definition updateTask_parse (j : json) : Thrown + UpdateTask :=
  match read_optional_string "title" j,
        read_nullable_string "description" j,
        read_nullable_string "dueDate" j,
        read_priority j, read_status j,
        read_nullable_string "assignedToId" j with
  | inr t, inr d, inr due, inr p, inr s, inr a =>
      match t with
      | defined x =>
          match title_issues x with
          | [] => inr (mkUpdateTask t d due p s a)
          | l => inl (ZodError l)
          end
      | undefined => inr (mkUpdateTask t d due p s a)
      end
  | t, d, due, p, s, a =>
      inl (ZodError (issues t ++ issues d ++ issues due ++ issues p
                     ++ issues s ++ issues a)%list)
  end.

Definition insertTask_parse (j : json) : Thrown + InsertTask :=
  match read_string "title" j,
        read_nullable_string "description" j,
        read_nullable_string "dueDate" j,
        read_priority j, read_status j,
        read_nullable_string "assignedToId" j with
  | inr t, inr d, inr due, inr p, inr s, inr a =>
      match title_issues t with
      | [] => inr (mkInsertTask t d due p s a)
      | l => inl (ZodError l)
      end
  | t, d, due, p, s, a =>
      inl (ZodError (issues t ++ issues d ++ issues due ++ issues p
                     ++ issues s ++ issues a)%list)
  end.

Definition login_parse (j : json) : Thrown + LoginData :=
  match read_string "email" j, read_string "password" j with
  | inr e, inr p =>
      match (check (has_at e) "Invalid email address"
             ++ check (Nat.leb 1 (String.length p)) "Password is required")%list
      with
      | [] => inr (mkLoginData e p)
      | l => inl (ZodError l)
      end
  | e, p => inl (ZodError (issues e ++ issues p)%list)
  end.

Definition register_parse (j : json) : Thrown + RegisterData :=
  match read_string "username" j, read_string "email" j,
        read_string "password" j, read_optional_string "displayName" j with
  | inr u, inr e, inr p, inr d =>
      match (check (Nat.leb 3 (String.length u))
                   "Username must be at least 3 characters"
             ++ check (has_at e) "Invalid email address"
             ++ check (Nat.leb 6 (String.length p))
                      "Password must be at least 6 characters")%list
      with
      | [] => inr (mkRegisterData u e p d)
      | l => inl (ZodError l)
      end
  | u, e, p, d =>
      inl (ZodError (issues u ++ issues e ++ issues p ++ issues d)%list)
  end.

Definition hash (password salt_ : string) : string :=
  salt_ ++ "$" ++ password.

Definition compare (password hashed : string) : bool :=
  match split "$" hashed with
  | [_; p] => String.eqb p password
  | _ => false
  end.

Definition sign (p : JWTPayload) (t : Z) : string :=
  userId p ++ "|" ++ email p ++ "|" ++ decimal (t + 7 * msPerDay).

Definition verify (tok : string) (t : Z) : option JWTPayload :=
  match split "|" tok with
  | [u; e; expiry] =>
      match digits_val 0 (list_ascii_of_string expiry) with
      | Some limit => if t <? limit then Some (mkJWTPayload u e) else None
      | None => None
      end
  | _ => None
  end.

Definition message (v : Violation) : string :=
  match v with
  | UniqueViolation c =>
      "duplicate key value violates unique constraint " ++ c
  | ForeignKeyViolation c =>
      "insert or update on table violates foreign key constraint " ++ c
  | InvalidByteSequence => "invalid byte sequence for encoding UTF8: 0x00"
  | DatetimeOutOfRange v => "date/time field value out of range: " ++ v
  end.

(** A timestamp outside the years 100 to 9999.  The server takes the
    years 1 to 9999 and prints them with four digits; the engine then
    reads the three numbers of the date as month, day and year when the
    first could be a day, takes a year below 50 for 20xx and one below
    100 for 19xx, and finds no date when the month is none. *)
Definition timestamp (ms : Z) : option (option Z) :=
  let '(y, m, d) := civil_from_days (ms / msPerDay) in
  if (y <=? 0) || (9999 <? y) then None
  else
    let '(year, month, day) := if y <=? 31 then (d, y, m) else (y, m, d) in
    let year := if year <? 50 then year + 2000
                else if year <? 100 then year + 1900 else year in
    if month <=? 12
    then Some (Some ((days_from_civil year month 1 + day - 1) * msPerDay
                     + ms mod msPerDay))
    else Some None.

Definition platform : Platform :=
  {| registerSchema_parse := register_parse;
     loginSchema_parse := login_parse;
     insertTaskSchema_parse := insertTask_parse;
     updateTaskSchema_parse := updateTask_parse;
     bcrypt_hash := hash;
     bcrypt_compare := compare;
     jwt_sign := sign;
     jwt_verify := verify;
     host_date := fun _ => None;
     production := false;
     driver_message := message;
     driver_timestamp := timestamp |}.

(** Two users, one task of the first, unassigned. *)
Definition ada : User :=
  mkUser "u1" "ada" "ada@example.org" "s1$analytical" (Some "Ada") 1000.

Definition bob : User :=
  mkUser "u2" "bob" "bob@example.org" "s2$builder" None 2000.

Definition chore : Task :=
  mkTask "t1" "Write report" None None medium todo "u1" None 5000 5000.

Definition store : Store := mkStore [ada; bob] [chore].

Definition session : option string := Some "u1|ada@example.org|900000000".

Definition at_ (t : Z) (fresh : string) : Tick := mkTick t fresh "s9".

Definition world : World := mkWorld store [].

Definition ada_session : JWTPayload := mkJWTPayload "u1" "ada@example.org".

Definition request (r : Routes.ApiRoute) : Routes.Request :=
  Routes.mkRequest (Routes.api_route r) session.

(** A patch that assigns the task to the second user, one that only
    completes it, and a new task due on the first of March. *)
Definition assign_bob : json := JObj [("assignedToId", JStr "u2")].

Definition complete : UpdateTask :=
  mkUpdateTask undefined undefined undefined undefined (defined completed)
               undefined.

Definition done_body : json := JObj [("status", JStr "completed")].

Definition postpone : UpdateTask :=
  mkUpdateTask undefined undefined (defined (Some "2025-03-01")) undefined
               undefined undefined.

Definition rent : InsertTask :=
  mkInsertTask "Pay rent" undefined (defined (Some "2025-03-01")) undefined
               undefined undefined.

Definition rent_body : json :=
  JObj [("title", JStr "Pay rent"); ("dueDate", JStr "2025-03-01")].

(** A task assigned to nobody we know, and one created by nobody we
    know. *)
Definition orphan_assignee : Task :=
  mkTask "t5" "Water plants" None None low todo "u1" (Some "u9") 3000 3000.

Definition orphan_creator : Task :=
  mkTask "t6" "Feed cat" None None low todo "u9" None 3000 3000.

(** Two requests in a row, a second apart. *)
Definition afternoon : list (Tick * Routes.Request) :=
  [ (at_ 6000 "t2", request (Routes.PatchTask "t1" assign_bob));
    (at_ 7000 "t3", request (Routes.PostTask rent_body)) ].

Definition unknown_login : json :=
  JObj [("email", JStr "eve@example.org"); ("password", JStr "analytical")].

Definition wrong_password : json :=
  JObj [("email", JStr "ada@example.org"); ("password", JStr "guess")].

Definition login_request (b : json) : Routes.Request :=
  Routes.mkRequest (Routes.auth_route (Routes.PostLogin b)) None.

Definition stale_handshake : Realtime.Handshake :=
  Realtime.mkHandshake None (Some "theme=dark; taskflow_token=u1|ada@example.org|10; lang=en").

(** A newcomer registers, then logs in; the first user logs in. *)
Definition carol_body : json :=
  JObj [("username", JStr "carol"); ("email", JStr "carol@example.org");
        ("password", JStr "secret1")].

Definition carol : RegisterData :=
  mkRegisterData "carol" "carol@example.org" "secret1" undefined.

(** A username with the NUL character in it. *)
Definition nul_name : string := String "a"%char (String "000"%char "bc").

Definition nul_body : json :=
  JObj [("username", JStr nul_name); ("email", JStr "nul@example.org");
        ("password", JStr "secret1")].

Definition nul : RegisterData :=
  mkRegisterData nul_name "nul@example.org" "secret1" undefined.

(** Two bodies the store does not take: a due date in the year 0, and
    a title with the NUL character in it. *)
Definition year_zero_body : json :=
  JObj [("title", JStr "Pay rent"); ("dueDate", JStr "0000-01-01")].

Definition year_zero : InsertTask :=
  mkInsertTask "Pay rent" undefined (defined (Some "0000-01-01")) undefined
               undefined undefined.

Definition nul_title_body : json := JObj [("title", JStr nul_name)].

Definition nul_title : InsertTask :=
  mkInsertTask nul_name undefined undefined undefined undefined undefined.

Definition carol_login : json :=
  JObj [("email", JStr "carol@example.org"); ("password", JStr "secret1")].

Definition ada_login : json :=
  JObj [("email", JStr "ada@example.org"); ("password", JStr "analytical")].

(** The ids a page draws: the number of the draw, in decimal. *)
Definition draw (n : nat) : string := decimal (Z.of_nat n).

(** Two tasks as the server sends them, one due on the first of March
    2025 and one without due date; noon of the third of March. *)
Definition due_in_march : json :=
  JObj [("id", JStr "t7"); ("status", JStr "todo");
        ("dueDate", JStr "2025-03-01T00:00:00.000Z")].

Definition some_day : json :=
  JObj [("id", JStr "t8"); ("status", JStr "todo"); ("dueDate", JNull)].

Definition third_of_march : Z := 1741003200000.

End Demo.

(* ===================================================================== *)
(** * Views of the store, traces and invariants used in the statements *)
(* ===================================================================== *)

Import Storage Routes Realtime Calendar.

(** The row a primary-key select returns. *)
Definition lookup_user (s : Store) (uid : string) : option User :=
  hd_error (filter (fun u => String.eqb (u_id u) uid) (users s)).

Definition lookup_task (s : Store) (tid : string) : option Task :=
  hd_error (filter (fun t => String.eqb (id t) tid) (tasks s)).

(** What [enrichTask] computes from the users table. *)
Definition enriched (s : Store) (t : Task) : Outcome TaskWithRelations :=
  match lookup_user s (creatorId t) with
  | Some c =>
      Ok {| task := t;
            creator := toPublicUser c;
            assignedTo :=
              if truthy_opt (assignedToId t)
              then option_map toPublicUser
                     (hd_error
                        (filter
                           (fun u =>
                              same_reference (Some (u_id u)) (assignedToId t))
                           (users s)))
              else None |}
  | None =>
      Throw (Error "Cannot destructure property 'password' of 'user' as it is undefined.")
  end.

Fixpoint enriched_all (s : Store) (l : list Task)
  : Outcome (list TaskWithRelations) :=
  match l with
  | [] => Ok []
  | t :: r =>
      match enriched s t with
      | Ok x =>
          match enriched_all s r with
          | Ok xs => Ok (x :: xs)
          | Throw e => Throw e
          end
      | Throw e => Throw e
      end
  end.

Definition found (s : Store) (tid : string)
  : Outcome (option TaskWithRelations) :=
  match lookup_task s tid with
  | None => Ok None
  | Some t =>
      match enriched s t with
      | Ok x => Ok (Some x)
      | Throw e => Throw e
      end
  end.

(** What a timestamp column holds for a date: nothing for an Invalid
    Date and for an instant the server refuses. *)
Definition kept_date (P : Platform) (d : option Date) : option (option Z) :=
  match d with
  | None => Some None
  | Some None => None
  | Some (Some ms) => timestamp_column P ms
  end.

(** No text of the body holds the NUL character. *)
Definition user_texts_ok (data : RegisterData) : bool :=
  text_ok (r_username data) && text_ok (r_email data)
  && unset_or text_ok (r_displayName data).

Definition task_texts_ok (data : InsertTask) : bool :=
  text_ok (new_title data)
  && text_opt_ok (nullable (new_description data))
  && text_opt_ok (nullable (new_assignedToId data)).

Definition patch_texts_ok (data : UpdateTask) : bool :=
  unset_or text_ok (set_title data)
  && unset_or text_opt_ok (set_description data)
  && unset_or text_opt_ok (set_assignedToId data).

(** What the driver makes of the due date of a [set]. *)
Definition due_value (d : optional (option Date))
  : Outcome (optional (option Z)) :=
  match d with
  | undefined => Ok undefined
  | defined None => Ok (defined None)
  | defined (Some (Some ms)) => Ok (defined (Some ms))
  | defined (Some None) => Throw (Error "Invalid time value")
  end.

(** The due date the rows of an update will hold, once the driver and
    the server have read the parameters of the [set]. *)
Definition set_value (P : Platform) (d : PartialTask)
  : Outcome (optional (option Z)) :=
  match due_value (with_dueDate d) with
  | Throw e => Throw e
  | Ok sent_due =>
      match bind_set P d sent_due with
      | inl v => Throw (Error (driver_message P v))
      | inr due => Ok due
      end
  end.

(** The assignee column of an updated row changed, so it is checked. *)
Definition assignee_checked (s : Store) (d : PartialTask)
                            (due : optional (option Z)) (t : Task) : bool :=
  same_reference (assignedToId (set_row d due t)) (assignedToId t)
  || references_user (assignedToId (set_row d due t)) s.

(** The tasks table after an update of the rows with id [tid]. *)
Definition rewritten (d : PartialTask) (due : optional (option Z))
                     (tid : string) (l : list Task) : list Task :=
  map (fun t => if String.eqb (id t) tid then set_row d due t else t) l.

(** What the driver makes of one date. *)
Definition date_value (d : option Date) : Outcome (option Z) :=
  match d with
  | None => Ok None
  | Some (Some ms) => Ok (Some ms)
  | Some None => Throw (Error "Invalid time value")
  end.

(** The due date the row of a new task will hold, once the driver and
    the server have read the parameters of the insert. *)
Definition created_due (P : Platform) (data : InsertTask)
  : Outcome (option Z) :=
  match date_value (date_or_null P (nullable (new_dueDate data))) with
  | Throw e => Throw e
  | Ok sent_due =>
      match bind_columns P (new_title data)
                         (nullable (new_description data)) sent_due
                         (nullable (new_assignedToId data)) with
      | inl v => Throw (Error (driver_message P v))
      | inr due => Ok due
      end
  end.

(** The row of a new task, as the insert returns it. *)
Definition new_row (tick : Tick) (insertTask : InsertTask) (cid : string)
                   (due : option Z) : Task :=
  {| id := uuid tick;
     title := new_title insertTask;
     description := nullable (new_description insertTask);
     dueDate := due;
     priority := or_default (new_priority insertTask) medium;
     status := or_default (new_status insertTask) todo;
     creatorId := cid;
     assignedToId := nullable (new_assignedToId insertTask);
     createdAt := now tick;
     updatedAt := now tick |}.

(** A computation, or a handler, that re-establishes a property of the
    store whenever it starts from one that has it. *)
Definition keeps (I : Store -> Prop) {A : Type} (c : M A) : Prop :=
  forall w o w', c w = (o, w') -> I (db w) -> I (db w').

Definition handler_keeps (I : Store -> Prop) (h : Handler) : Prop :=
  forall w r w', h w = (r, w') -> I (db w) -> I (db w').

(** No field named password anywhere in a document. *)
Definition password_free (j : json) : Prop :=
  mentions "password" j = false.

(** Whatever the [try] block answers has no password field. *)
Definition discreet (c : M Response) : Prop :=
  forall w r w', c w = (Ok r, w') -> password_free (body r).

(** [const { password, ...rest } = object] on the properties of an
    object. *)
Definition rest_without (k : string) (fields : list (string * json))
  : list (string * json) :=
  filter (fun kv => negb (String.eqb (fst kv) k)) fields.

(** Ids come from [randomUUID], so none is the empty string. *)
Definition ids_nonempty (s : Store) : Prop :=
  forall u, In u (users s) -> u_id u <> "".

(** Every task was stamped in order, and not after [clock]. *)
Definition stamped_by (clock : Z) (s : Store) : Prop :=
  forall t, In t (tasks s) -> createdAt t <= updatedAt t /\ updatedAt t <= clock.

(** A run of the server: requests one after the other, each with what
    it draws from the clock and the random sources. *)
Fixpoint run (P : Platform) (s : Store) (trace : list (Tick * Request))
  : Store :=
  match trace with
  | [] => s
  | (tick, req) :: rest => run P (snd (fst (serve P tick s req))) rest
  end.

(** The clock does not go back along a trace that starts at [t0]. *)
Fixpoint clock_advances (t0 : Z) (trace : list (Tick * Request)) : Prop :=
  match trace with
  | [] => True
  | (tick, _) :: rest => t0 <= now tick /\ clock_advances (now tick) rest
  end.

(** The patch of a successful update names a new assignee: a non-null
    one that is not the one the task had. *)
Definition sets_new_assignee (data : UpdateTask) (previous : option string)
                             (a : string) : Prop :=
  set_assignedToId data = defined (Some a) /\ previous <> Some a.

(** The request carries a session that [authMiddleware] accepts, for
    the user [u]. *)
Definition signed_in (P : Platform) (tick : Tick) (tok : option string)
                     (u : JWTPayload) : Prop :=
  exists t, tok = Some t /\ truthy t = true
            /\ jwt_verify P t (now tick) = Some u.


(** A 2xx answer. *)
Definition success (r : Response) : Prop :=
  200 <= statusCode r < 300.

(** ** What one request does *)

(** The routes that write. *)
Definition writes (r : Route) : bool :=
  match r with
  | auth_route (PostRegister _) => true
  | api_route (PostTask _) => true
  | api_route (PatchTask _ _) => true
  | api_route (DeleteTaskById _) => true
  | _ => false
  end.

(** The row [register] stores for the parsed body [data]. *)
Definition registered_row (P : Platform) (tick : Tick) (data : RegisterData)
  : User :=
  {| u_id := uuid tick;
     u_username := r_username data;
     u_email := r_email data;
     u_password := bcrypt_hash P (r_password data) (salt tick);
     u_displayName := to_null (r_displayName data);
     u_createdAt := now tick |}.

(** The token the auth routes put in the cookie for a user. *)
Definition issued (P : Platform) (tick : Tick) (u : User) : string :=
  jwt_sign P {| userId := u_id u; email := u_email u |} (now tick).

(** No stored user has the id, the username or the email of [row]. *)
Definition unused (s : Store) (row : User) : Prop :=
  existsb (fun u => String.eqb (u_id u) (u_id row)) (users s) = false
  /\ existsb (fun u => String.eqb (u_username u) (u_username row)) (users s)
     = false
  /\ existsb (fun u => String.eqb (u_email u) (u_email row)) (users s) = false.

(** What the patch of a task broadcasts. *)
Definition patch_events (data : UpdateTask) (row : Task)
                        (x : TaskWithRelations) : list TaskEvent :=
  task_updated (id (task x)) x
  :: match newly_assigned data (assignedToId row) with
     | Some a => [task_assigned (id (task x)) a x]
     | None => []
     end.

Definition task_is (tid : string) (t : Task) : bool := String.eqb (id t) tid.

(** The five things a request can come to: nothing (a read, or an
    answer that is no success), a user registered, a task created, a
    task patched, a task deleted. *)
Inductive effect (P : Platform) (tick : Tick) (s : Store) (req : Request)
  : Response -> Store -> list TaskEvent -> Prop :=
| nothing_written (resp : Response) :
    ~ success resp \/ writes (route req) = false ->
    effect P tick s req resp s []
| user_registered (b : json) (data : RegisterData) :
    route req = auth_route (PostRegister b) ->
    registerSchema_parse P b = inr data ->
    user_texts_ok data = true ->
    unused s (registered_row P tick data) ->
    effect P tick s req
      (user_response 201 (toPublicUser (registered_row P tick data))
         (session_cookie P (issued P tick (registered_row P tick data))))
      (mkStore (users s ++ [registered_row P tick data]) (tasks s))
      []
| task_was_created (b : json) (u : JWTPayload) (data : InsertTask)
                   (due : option Z) (x : TaskWithRelations) :
    route req = api_route (PostTask b) ->
    signed_in P tick (token req) u ->
    insertTaskSchema_parse P b = inr data ->
    created_due P data = Ok due ->
    task x = new_row tick data (userId u) due ->
    lookup_task s (uuid tick) = None ->
    has_user (userId u) s = true ->
    references_user (nullable (new_assignedToId data)) s = true ->
    enriched s (task x) = Ok x ->
    effect P tick s req
      (json_response 201 (json_of_TaskWithRelations x))
      (mkStore (users s) (tasks s ++ [task x]))
      [task_created (id (task x)) x]
| task_was_patched (tid : string) (b : json) (u : JWTPayload)
                   (data : UpdateTask) (due : optional (option Z))
                   (row : Task) (x : TaskWithRelations) :
    route req = api_route (PatchTask tid b) ->
    signed_in P tick (token req) u ->
    updateTaskSchema_parse P b = inr data ->
    lookup_task s tid = Some row ->
    set_value P (updateData P tick data) = Ok due ->
    forallb (assignee_checked s (updateData P tick data) due)
            (filter (task_is tid) (tasks s)) = true ->
    task x = set_row (updateData P tick data) due row ->
    enriched s (task x) = Ok x ->
    effect P tick s req
      (json_response 200 (json_of_TaskWithRelations x))
      (mkStore (users s)
               (rewritten (updateData P tick data) due tid (tasks s)))
      (patch_events data row x)
| task_was_deleted (tid : string) (u : JWTPayload) (row : Task) :
    route req = api_route (DeleteTaskById tid) ->
    signed_in P tick (token req) u ->
    lookup_task s tid = Some row ->
    effect P tick s req
      (mkResponse 200 (JObj [("message", JStr "Task deleted successfully")])
                  cookie_untouched)
      (mkStore (users s)
               (filter (fun t => negb (task_is tid t)) (tasks s)))
      [task_deleted tid].

(** Requests by route. *)
Definition register_request (b : json) (tok : option string) : Request :=
  mkRequest (auth_route (PostRegister b)) tok.

Definition login_request (b : json) (tok : option string) : Request :=
  mkRequest (auth_route (PostLogin b)) tok.

Definition api_request (r : ApiRoute) (tok : option string) : Request :=
  mkRequest (api_route r) tok.

Definition email_taken (s : Store) (mail : string) : bool :=
  existsb (fun u => String.eqb (u_email u) mail) (users s).

Definition username_taken (s : Store) (name : string) : bool :=
  existsb (fun u => String.eqb (u_username u) name) (users s).

(** Newest first. *)
Definition not_older (a b : Task) : Prop := createdAt b <= createdAt a.

(** The constraints the schema declares on the two tables. *)
Record store_ok (s : Store) : Prop := mk_store_ok {
  user_ids_unique : NoDup (map u_id (users s));
  usernames_unique : NoDup (map u_username (users s));
  emails_unique : NoDup (map u_email (users s));
  task_ids_unique : NoDup (map id (tasks s));
  creators_exist :
    forall t, In t (tasks s) -> has_user (creatorId t) s = true;
  assignees_exist :
    forall t, In t (tasks s) -> references_user (assignedToId t) s = true
}.

(** ** client/src/lib/socket.ts *)

Module SocketClient.

(** The socket.io client object, as far as this module touches it:
    where it points, the auth payload, whether the transport is up, and
    how often [connect] and [disconnect] were called on it. *)
Record Socket : Type := mkSocket {
  url : string;
  path : string;
  auth : optional string;
  connected : bool;
  connects : nat;
  disconnects : nat
}.

(** The module variable [socket], and how often [io] was called. *)
Record Module_ : Type := mkModule {
  socket : option Socket;
  created : nat
}.

Definition initial : Module_ := mkModule None 0.

(** [window.location]. *)
Record Location : Type := mkLocation {
  protocol : string;
  host : string
}.

Definition wsUrl (l : Location) : string :=
  (if String.eqb (protocol l) "https:" then "wss:" else "ws:")
    ++ "//" ++ host l.

Definition getSocket (l : Location) (m : Module_) : Socket * Module_ :=
  match socket m with
  | Some s => (s, m)
  | None =>
      let s := mkSocket (wsUrl l) "/ws" undefined false 0 0 in
      (s, mkModule (Some s) (S (created m)))
  end.

(** [if (token) s.auth = { token }; if (!s.connected) s.connect()]. *)
Definition connectSocket (l : Location) (token : optional string)
                         (m : Module_) : Module_ :=
  let (s, m1) := getSocket l m in
  let s1 :=
    match token with
    | defined t =>
        if truthy t
        then mkSocket (url s) (path s) (defined t) (connected s) (connects s)
                      (disconnects s)
        else s
    | undefined => s
    end in
  let s2 :=
    if negb (connected s1)
    then mkSocket (url s1) (path s1) (auth s1) (connected s1)
                  (S (connects s1)) (disconnects s1)
    else s1 in
  mkModule (Some s2) (created m1).

Definition disconnectSocket (m : Module_) : Module_ :=
  match socket m with
  | Some s =>
      mkModule (Some (mkSocket (url s) (path s) (auth s) (connected s)
                               (connects s) (S (disconnects s))))
               (created m)
  | None => m
  end.

(** What can happen to the module: calls from the pages, and the
    transport coming up or going down. *)
Inductive Step : Type :=
| call_getSocket
| call_connectSocket (token : optional string)
| call_disconnectSocket
| transport (up : bool).

Definition step (l : Location) (m : Module_) (st : Step) : Module_ :=
  match st with
  | call_getSocket => snd (getSocket l m)
  | call_connectSocket token => connectSocket l token m
  | call_disconnectSocket => disconnectSocket m
  | transport up =>
      match socket m with
      | Some s =>
          mkModule (Some (mkSocket (url s) (path s) (auth s) up (connects s)
                                   (disconnects s)))
                   (created m)
      | None => m
      end
  end.

(** The location may differ from call to call (the page navigates). *)
Definition steps (m : Module_) (l : list (Location * Step)) : Module_ :=
  fold_left (fun m' ls => step (fst ls) m' (snd ls)) l m.

(** The last truthy token handed to [connectSocket], if any. *)
Fixpoint last_token (l : list (Location * Step)) (acc : optional string)
  : optional string :=
  match l with
  | [] => acc
  | (_, call_connectSocket (defined t)) :: r =>
      last_token r (if truthy t then defined t else acc)
  | _ :: r => last_token r acc
  end.

End SocketClient.

(** ** The pages: what they do with pushed events *)

Module Pages.

Record Notification : Type := mkNotification {
  n_id : string;
  n_type : string;
  n_title : string;
  n_message : string
}.

(** The event object [socket.on] hands to [handleTaskEvent]:
    [{ type, ...payload }]. *)
Record PushedEvent : Type := mkPushedEvent {
  e_type : string;
  e_taskId : string;
  e_userId : optional string;
  e_data : optional TaskWithRelations
}.

(** What reaches the page for an event the server broadcast. *)
Definition pushed (e : TaskEvent) : PushedEvent :=
  match e with
  | task_created tid x => mkPushedEvent "task:created" tid undefined (defined x)
  | task_updated tid x => mkPushedEvent "task:updated" tid undefined (defined x)
  | task_assigned tid uid x =>
      mkPushedEvent "task:assigned" tid (defined uid) (defined x)
  | task_deleted tid => mkPushedEvent "task:deleted" tid undefined undefined
  end.

(** A page: how often it invalidated the task list, the notifications
    on screen, and how many ids it drew from [crypto.randomUUID]. *)
Record Page : Type := mkPage {
  refetches : nat;
  notifications : list Notification;
  drawn : nat
}.

Definition blank : Page := mkPage 0 [] 0.

Section WithIds.

(** [crypto.randomUUID], by the number of the draw. *)
Variable randomUUID : nat -> string.

Definition addNotification (type title message : string) (p : Page) : Page :=
  mkPage (refetches p)
         (notifications p
          ++ [mkNotification (randomUUID (drawn p)) type title message])
         (S (drawn p)).

Definition dismissNotification (nid : string) (p : Page) : Page :=
  mkPage (refetches p)
         (filter (fun n => negb (String.eqb (n_id n) nid)) (notifications p))
         (drawn p).

Definition invalidateQueries (p : Page) : Page :=
  mkPage (S (refetches p)) (notifications p) (drawn p).

(** [a === b] on [string | undefined]. *)
Definition same_optional (a b : optional string) : bool :=
  match a, b with
  | undefined, undefined => true
  | defined x, defined y => String.eqb x y
  | _, _ => false
  end.

Definition quote : string := String "034"%char "".

(** The text of the assignment notice, with the title in quotes, or
    "a task" when the title is missing or empty. *)
Definition assigned_message (data : optional TaskWithRelations) : string :=
  "You've been assigned to " ++ quote
    ++ match data with
       | defined x => if truthy (title (task x)) then title (task x)
                      else "a task"
       | undefined => "a task"
       end
    ++ quote.

Definition notify_assignment (me : optional string) (event : PushedEvent)
                             (p : Page) : Page :=
  if String.eqb (e_type event) "task:assigned"
     && same_optional (e_userId event) me
  then addNotification "info" "New task assigned"
                       (assigned_message (e_data event)) p
  else p.

(** [handleTaskEvent] of the dashboard; [me] is [user?.id]. *)
Definition dashboard_handleTaskEvent (me : optional string)
                                     (event : PushedEvent) (p : Page) : Page :=
  let p1 := notify_assignment me event (invalidateQueries p) in
  if String.eqb (e_type event) "task:updated"
  then addNotification "success" "Task updated"
                       "A task has been updated in real-time" p1
  else p1.

(** [handleTaskEvent] of the tasks page. *)
Definition tasks_handleTaskEvent (me : optional string)
                                 (event : PushedEvent) (p : Page) : Page :=
  notify_assignment me event (invalidateQueries p).

(** A page receiving what one request broadcast, in order. *)
Definition receive (handler : optional string -> PushedEvent -> Page -> Page)
                   (me : optional string) (evs : list TaskEvent) (p : Page)
  : Page :=
  fold_left (fun q e => handler me (pushed e) q) evs p.

End WithIds.

(** ** The overdue test of the dashboard *)

(** The local calendar day of an instant, counted in days. *)
Definition local_day (offset : Z -> Z) (ms : Z) : Z :=
  (ms - offset ms * 60000) / msPerDay.

(** date-fns [isPast] and [isToday], at the instant [Date.now()] gave
    each of them. *)
Definition isPast (nowMs : Z) (d : Date) : bool :=
  match d with
  | Some ms => ms <? nowMs
  | None => false
  end.

Definition isToday (offset : Z -> Z) (nowMs : Z) (d : Date) : bool :=
  match d with
  | Some ms => local_day offset ms =? local_day offset nowMs
  | None => false
  end.

(** [t.dueDate && isPast(new Date(t.dueDate)) &&
    !isToday(new Date(t.dueDate)) && t.status !== "completed"] on a task
    as the server sends it; [now1] and [now2] are the two readings of
    the clock. *)
Definition overdue (host : string -> Date) (offset : Z -> Z) (now1 now2 : Z)
                   (t : json) : bool :=
  match property "dueDate" t with
  | Some (JStr d) =>
      truthy d
      && isPast now1 (Date_parse host d)
      && negb (isToday offset now2 (Date_parse host d))
      && negb (match property "status" t with
               | Some (JStr st) => String.eqb st "completed"
               | _ => false
               end)
  | _ => false
  end.

(** ** The buckets of the calendar page *)

(** What [format(new Date(task.dueDate), "yyyy-MM-dd")] comes to for a
    task: nothing to format, a key, or a RangeError. *)
Inductive Bucket : Type :=
| no_due_date
| due_on (key : string)
| unformattable.

Definition bucket_of (host : string -> Date) (offset : Z -> Z) (t : json)
  : Bucket :=
  match property "dueDate" t with
  | Some (JStr d) =>
      if truthy d
      then
        match Date_parse host d with
        | Some ms => due_on (format_yyyy_MM_dd (offset ms) ms)
        | None => unformattable
        end
      else no_due_date
  | _ => no_due_date
  end.

(** A [Map<string, T[]>], in insertion order. *)
Definition DateMap : Type := list (string * list json).

Definition Map_get (k : string) (m : DateMap) : option (list json) :=
  option_map snd (find (fun kv => String.eqb (fst kv) k) m).

Fixpoint Map_set (k : string) (v : list json) (m : DateMap) : DateMap :=
  match m with
  | [] => [(k, v)]
  | (k', v') :: r =>
      if String.eqb k' k then (k, v) :: r else (k', v') :: Map_set k v r
  end.

(** [map.get(key) || []]. *)
Definition get_or_empty (k : string) (m : DateMap) : list json :=
  match Map_get k m with
  | Some l => l
  | None => []
  end.

(** The [forEach] of [tasksByDate], from the map built so far; [None]
    when [format] throws. *)
Fixpoint collect (host : string -> Date) (offset : Z -> Z)
                 (tasks_ : list json) (m : DateMap) : option DateMap :=
  match tasks_ with
  | [] => Some m
  | t :: r =>
      match bucket_of host offset t with
      | no_due_date => collect host offset r m
      | due_on k =>
          collect host offset r (Map_set k (get_or_empty k m ++ [t]) m)
      | unformattable => None
      end
  end.

Definition tasksByDate (host : string -> Date) (offset : Z -> Z)
                       (tasks_ : list json) : option DateMap :=
  collect host offset tasks_ [].

(** [selectedDateTasks]: nothing without a selected date, else the
    bucket of its key. *)
Definition selectedDateTasks (offset : Z -> Z) (selectedDate : option Z)
                             (m : DateMap) : list json :=
  match selectedDate with
  | None => []
  | Some ms => get_or_empty (format_yyyy_MM_dd (offset ms) ms) m
  end.

End Pages.

(** ** client/src/App.tsx: which screen a location gets *)

Module App.

Inductive Screen : Type :=
| LoadingScreen
| Redirect (to : string)
| LoginPage
| RegisterPage
| DashboardPage
| TasksPage
| CalendarPage
| TeamPage
| NotFound.

Section Routing.

(** wouter's test of a location against the path of a [Route]. *)
Variable matches : string -> string -> bool.

(** [useAuth()]. *)
Variable user : option UserPublic.
Variable isLoading : bool.

Definition ProtectedRoute (component : Screen) : Screen :=
  if isLoading then LoadingScreen
  else match user with
       | None => Redirect "/login"
       | Some _ => component
       end.

Definition PublicRoute (component : Screen) : Screen :=
  if isLoading then LoadingScreen
  else match user with
       | Some _ => Redirect "/"
       | None => component
       end.

Definition AuthenticatedLayout (location : string) : Screen :=
  if matches "/" location then ProtectedRoute DashboardPage
  else if matches "/tasks" location then ProtectedRoute TasksPage
  else if matches "/calendar" location then ProtectedRoute CalendarPage
  else if matches "/team" location then ProtectedRoute TeamPage
  else NotFound.

Definition Router (location : string) : Screen :=
  if isLoading then LoadingScreen
  else if matches "/login" location then PublicRoute LoginPage
  else if matches "/register" location then PublicRoute RegisterPage
  else match user with
       | Some _ => AuthenticatedLayout location
       | None => Redirect "/login"
       end.

(** The screens that show tasks and people. *)
Definition protected (s : Screen) : bool :=
  match s with
  | DashboardPage | TasksPage | CalendarPage | TeamPage => true
  | _ => false
  end.

End Routing.

End App.

(** ** Reading the cookie header at the handshake *)

(** [sep] does not start anywhere inside [pre] when [pre] is followed by
    [tail]. *)
Fixpoint starts_nowhere (sep pre tail : string) : bool :=
  match pre with
  | EmptyString => true
  | String a pre' =>
      negb (String.prefix sep (pre ++ tail)) && starts_nowhere sep pre' tail
  end.


(** Events by kind, for counting notices. *)
Definition is_update (e : TaskEvent) : bool :=
  match e with
  | task_updated _ _ => true
  | _ => false
  end.

Definition assigns_to (me : optional string) (e : TaskEvent) : bool :=
  match e with
  | task_assigned _ uid _ => Pages.same_optional (defined uid) me
  | _ => false
  end.

(** The two notices of the pages. *)
Definition update_notice (nid : string) : Pages.Notification :=
  Pages.mkNotification nid "success" "Task updated"
                       "A task has been updated in real-time".

Definition assignment_notice (nid : string) (x : TaskWithRelations)
  : Pages.Notification :=
  Pages.mkNotification nid "info" "New task assigned"
                       (Pages.assigned_message (defined x)).


(** The task falls on the day with key [k]. *)
Definition due_on_key (host : string -> Date) (offset : Z -> Z) (k : string)
                      (t : json) : bool :=
  match Pages.bucket_of host offset t with
  | Pages.due_on k' => String.eqb k' k
  | _ => false
  end.


(** ** A browser session on the small platform *)

Module Scene.

Import SocketClient.

(** The page is opened over https, then moves to plain http. *)
Definition secure : Location :=
  mkLocation "https:" "tasks.example.org".

Definition plain : Location :=
  mkLocation "http:" "localhost:5000".

Definition evening : list (Location * Step) :=
  [ (secure, call_connectSocket (defined "tok1"));
    (plain, transport true);
    (plain, call_connectSocket undefined);
    (plain, call_disconnectSocket) ].

End Scene.


(* ===================================================================== *)
(** * Properties *)
(* ===================================================================== *)

(** ** Engine behaviour on the inputs used below *)

Example split_cookie :
  split "taskflow_token=" "a=1; taskflow_token=abc.def; b=2"
  = ["a=1; "; "abc.def; b=2"].
Proof. reflexivity. Qed.

Example iso_print : toISOString 1740787200000 = "2025-03-01T00:00:00.000Z".
Proof. vm_compute. reflexivity. Qed.

Example iso_parse : parse_iso "2025-03-01" = Some 1740787200000.
Proof. vm_compute. reflexivity. Qed.

Example iso_parse_full :
  parse_iso "2025-03-01T00:00:00.000Z" = Some 1740787200000.
Proof. vm_compute. reflexivity. Qed.

(** ** Reads leave the world alone *)

Lemma world_eta (w : World) : mkWorld (db w) (sent w) = w.
Proof. destruct w; reflexivity. Qed.

Lemma select_users_run (f : User -> bool) (w : World) :
  select_users f w = (Ok (filter f (users (db w))), w).
Proof. unfold select_users, run_stmt. now rewrite world_eta. Qed.

Lemma select_tasks_run (f : Task -> bool) (w : World) :
  select_tasks f w = (Ok (filter f (tasks (db w))), w).
Proof. unfold select_tasks, run_stmt. now rewrite world_eta. Qed.

Lemma getUser_run (uid : string) (w : World) :
  getUser uid w = (Ok (lookup_user (db w) uid), w).
Proof. unfold getUser, bind. now rewrite select_users_run. Qed.

Lemma getUserByEmail_run (mail : string) (w : World) :
  getUserByEmail mail w
  = (Ok (hd_error (filter (fun u => String.eqb (u_email u) mail)
                          (users (db w)))), w).
Proof. unfold getUserByEmail, bind. now rewrite select_users_run. Qed.

Lemma getUserByUsername_run (name : string) (w : World) :
  getUserByUsername name w
  = (Ok (hd_error (filter (fun u => String.eqb (u_username u) name)
                          (users (db w)))), w).
Proof. unfold getUserByUsername, bind. now rewrite select_users_run. Qed.

Lemma getAllUsers_run (w : World) :
  getAllUsers w = (Ok (map toPublicUser (users (db w))), w).
Proof.
  unfold getAllUsers, bind. rewrite select_users_run.
  unfold ret. do 2 f_equal. f_equal.
  induction (users (db w)) as [|u l IH]; simpl; congruence.
Qed.

Lemma enrichTask_run (t : Task) (w : World) :
  enrichTask t w = (enriched (db w) t, w).
Proof.
  unfold enrichTask, enriched, lookup_user, bind.
  rewrite select_users_run.
  destruct (truthy_opt (assignedToId t)).
  - rewrite select_users_run. unfold ret.
    now destruct (hd_error (filter _ (users (db w)))).
  - unfold ret. now destruct (hd_error (filter _ (users (db w)))).
Qed.

Lemma all_enrichTask_run (l : list Task) (w : World) :
  all enrichTask l w = (enriched_all (db w) l, w).
Proof.
  induction l as [|t r IH]; simpl; [reflexivity|].
  unfold bind. rewrite enrichTask_run.
  destruct (enriched (db w) t); [|reflexivity].
  rewrite IH. now destruct (enriched_all (db w) r).
Qed.

Lemma getTask_run (tid : string) (w : World) :
  getTask tid w = (found (db w) tid, w).
Proof.
  unfold getTask, found, lookup_task, bind. rewrite select_tasks_run.
  destruct (hd_error (filter _ (tasks (db w)))) as [t|]; [|reflexivity].
  rewrite enrichTask_run. now destruct (enriched (db w) t).
Qed.

Lemma getAllTasks_run (w : World) :
  getAllTasks w
  = (enriched_all (db w)
       (orderBy_desc_createdAt (filter (fun _ => true) (tasks (db w)))), w).
Proof.
  unfold getAllTasks, bind. rewrite select_tasks_run.
  apply all_enrichTask_run.
Qed.

(** ** Enrichment *)

Lemma enriched_Ok (s : Store) (t : Task) (x : TaskWithRelations) :
  enriched s t = Ok x ->
  task x = t /\
  exists c, lookup_user s (creatorId t) = Some c /\ creator x = toPublicUser c.
Proof.
  unfold enriched. destruct (lookup_user s (creatorId t)) as [c|]; [|discriminate].
  intros H. injection H as <-. split; [reflexivity|]. now exists c.
Qed.

Lemma enriched_all_Ok (s : Store) (l : list Task) (xs : list TaskWithRelations) :
  enriched_all s l = Ok xs ->
  forall x, In x xs -> enriched s (task x) = Ok x.
Proof.
  revert xs. induction l as [|t r IH]; simpl; intros xs H x Hx.
  - injection H as <-. destruct Hx.
  - destruct (enriched s t) as [y|] eqn:Ey; [|discriminate].
    destruct (enriched_all s r) as [ys|]; [|discriminate].
    injection H as <-. destruct Hx as [<-|Hx].
    + destruct (enriched_Ok _ _ _ Ey) as [-> _]. exact Ey.
    + now apply (IH ys).
Qed.

Lemma same_reference_Some (x : string) (o : option string) :
  same_reference (Some x) o = true <-> o = Some x.
Proof.
  destruct o as [y|]; simpl; [|split; discriminate].
  rewrite String.eqb_eq. split; congruence.
Qed.

(** C10. Enrichment treats the two references differently.  A task whose
    assignee refers to no user is still enriched, with [assignedTo]
    null, as long as its creator row is there.  A task whose creator
    refers to no user is not enriched at all: [enrichTask] throws, and
    so whatever getTask, getAllTasks, createTask and updateTask return
    has a creator that resolves to a row of [users]. *)
Theorem C10_enrichment_presupposes_creator
  (P : Platform) (tick : Tick) (w : World) :
  (forall t c,
      lookup_user (db w) (creatorId t) = Some c ->
      (forall a, assignedToId t = Some a -> lookup_user (db w) a = None) ->
      enrichTask t w
      = (Ok {| task := t; creator := toPublicUser c; assignedTo := None |}, w))
  /\ (forall t,
      lookup_user (db w) (creatorId t) = None ->
      exists e, enrichTask t w = (Throw e, w))
  /\ (forall tid x w',
      getTask tid w = (Ok (Some x), w') ->
      exists c, lookup_user (db w') (creatorId (task x)) = Some c
                /\ creator x = toPublicUser c)
  /\ (forall xs w',
      getAllTasks w = (Ok xs, w') ->
      forall x, In x xs ->
      exists c, lookup_user (db w') (creatorId (task x)) = Some c
                /\ creator x = toPublicUser c)
  /\ (forall data cid x w',
      createTask P tick data cid w = (Ok x, w') ->
      exists c, lookup_user (db w') (creatorId (task x)) = Some c
                /\ creator x = toPublicUser c)
  /\ (forall tid data x w',
      updateTask P tick tid data w = (Ok (Some x), w') ->
      exists c, lookup_user (db w') (creatorId (task x)) = Some c
                /\ creator x = toPublicUser c).
Proof.
  repeat split.
  - intros t c Hc Ha. rewrite enrichTask_run. unfold enriched. rewrite Hc.
    do 3 f_equal.
    destruct (assignedToId t) as [a|] eqn:Ea; simpl; [|reflexivity].
    destruct (truthy a); [|reflexivity].
    pose proof (Ha a eq_refl) as Hn. unfold lookup_user in Hn.
    simpl. rewrite Hn. reflexivity.
  - intros t Hc. rewrite enrichTask_run. unfold enriched. rewrite Hc.
    eexists. reflexivity.
  - intros tid x w'. rewrite getTask_run. unfold found.
    destruct (lookup_task (db w) tid) as [t|]; [|discriminate].
    destruct (enriched (db w) t) as [y|] eqn:Ey; [|discriminate].
    intros H. injection H as -> <-.
    destruct (enriched_Ok _ _ _ Ey) as [-> Hc]. exact Hc.
  - intros xs w'. rewrite getAllTasks_run. intros H. injection H as H <-.
    intros x Hx. pose proof (enriched_all_Ok _ _ _ H x Hx) as Ex.
    destruct (enriched_Ok _ _ _ Ex) as [_ Hc]. exact Hc.
  - intros data cid x w'. unfold createTask, bind.
    destruct (driver_date _ w) as [[due|e] w1]; [|discriminate].
    destruct (insert_task P _ w1) as [[t|e] w2]; [|discriminate].
    rewrite enrichTask_run. intros H. injection H as H <-.
    destruct (enriched_Ok _ _ _ H) as [-> Hc]. exact Hc.
  - intros tid data x w'. unfold updateTask, bind.
    destruct (update_tasks P _ _ w) as [[rows|e] w1]; [|discriminate].
    destruct (hd_error rows) as [t|]; [|discriminate].
    rewrite enrichTask_run.
    destruct (enriched (db w1) t) as [y|] eqn:Ey; [|discriminate].
    intros H. injection H as -> <-.
    destruct (enriched_Ok _ _ _ Ey) as [-> Hc]. exact Hc.
Qed.

(** ** The session check *)

Lemma authMiddleware_inv (P : Platform) (tick : Tick) (tok : option string)
      (next : JWTPayload -> Handler) (w w' : World) (resp : Response) :
  authMiddleware P tick tok next w = (resp, w') ->
  (statusCode resp = 401 /\ w' = w /\ body resp <> JNull
   /\ password_free (body resp))
  \/ (exists u, signed_in P tick tok u /\ next u w = (resp, w')).
Proof.
  unfold authMiddleware.
  destruct tok as [t|].
  - destruct (truthy t) eqn:Et; simpl.
    + destruct (jwt_verify P t (now tick)) as [u|] eqn:Ev.
      * intros H. right. exists u. split; [|exact H]. now exists t.
      * intros H. injection H as <- <-. left. repeat split. discriminate.
    + intros H. injection H as <- <-. left. repeat split. discriminate.
  - intros H. injection H as <- <-. left. repeat split. discriminate.
Qed.

Lemma authMiddleware_signed_in (P : Platform) (tick : Tick)
      (tok : option string) (next : JWTPayload -> Handler) (u : JWTPayload) :
  signed_in P tick tok u ->
  authMiddleware P tick tok next = next u.
Proof.
  intros (t & -> & Et & Ev). unfold authMiddleware. now rewrite Et, Ev.
Qed.

(** ** Deleting *)

Lemma filter_nonempty {A : Type} (f : A -> bool) (l : list A) :
  Nat.ltb 0 (List.length (filter f l)) = existsb f l.
Proof.
  induction l as [|x r IH]; simpl; [reflexivity|].
  destruct (f x); simpl; [reflexivity|exact IH].
Qed.

Lemma hd_filter_None {A : Type} (f : A -> bool) (l : list A) :
  hd_error (filter f l) = None <-> existsb f l = false.
Proof.
  induction l as [|x r IH]; simpl; [tauto|].
  destruct (f x); simpl; [split; discriminate|exact IH].
Qed.

Lemma hd_filter_Some {A : Type} (f : A -> bool) (l : list A) (x : A) :
  hd_error (filter f l) = Some x -> In x l /\ f x = true.
Proof.
  intros H. apply filter_In.
  destruct (filter f l) as [|y r]; [discriminate|].
  injection H as ->. now left.
Qed.

Lemma deleteTask_run (tid : string) (w : World) :
  deleteTask tid w
  = (Ok (existsb (fun t => String.eqb (id t) tid) (tasks (db w))),
     mkWorld (mkStore (users (db w))
                      (filter (fun t => negb (String.eqb (id t) tid))
                              (tasks (db w))))
             (sent w)).
Proof.
  unfold deleteTask, delete_tasks, bind, run_stmt, ret.
  now rewrite filter_nonempty.
Qed.


(** ** Updating *)

Lemma driver_date_opt_run (d : optional (option Date)) (w : World) :
  driver_date_opt d w = (due_value d, w).
Proof.
  destruct d as [|[[ms|]|]]; reflexivity.
Qed.

Lemma update_tasks_run (P : Platform) (d : PartialTask) (tid : string)
      (w : World) :
  update_tasks P d (fun t => String.eqb (id t) tid) w
  = match set_value P d with
    | Ok due =>
        if forallb (assignee_checked (db w) d due)
                   (filter (fun t => String.eqb (id t) tid) (tasks (db w)))
        then (Ok (map (set_row d due)
                      (filter (fun t => String.eqb (id t) tid)
                              (tasks (db w)))),
              mkWorld (mkStore (users (db w))
                               (rewritten d due tid (tasks (db w))))
                      (sent w))
        else (Throw (Error (driver_message P
                (ForeignKeyViolation "tasks_assigned_to_id_users_id_fk"))), w)
    | Throw e => (Throw e, w)
    end.
Proof.
  unfold update_tasks, bind, set_value. rewrite driver_date_opt_run.
  destruct (due_value (with_dueDate d)) as [sent_due|e]; [|reflexivity].
  unfold run_stmt, violation, assignee_checked, rewritten.
  destruct (bind_set P d sent_due) as [v|due]; [now rewrite world_eta|].
  destruct (forallb _ _); [reflexivity|].
  now rewrite world_eta.
Qed.

Lemma hd_error_map {A B : Type} (g : A -> B) (l : list A) :
  hd_error (map g l) = option_map g (hd_error l).
Proof. destruct l; reflexivity. Qed.

Lemma rewritten_lookup (d : PartialTask) (due : optional (option Z))
      (tid : string) (l : list Task) :
  hd_error (filter (fun t => String.eqb (id t) tid) (rewritten d due tid l))
  = option_map (set_row d due)
      (hd_error (filter (fun t => String.eqb (id t) tid) l)).
Proof.
  unfold rewritten. induction l as [|t r IH]; simpl; [reflexivity|].
  destruct (String.eqb (id t) tid) eqn:E; simpl; rewrite E; simpl;
    [reflexivity|exact IH].
Qed.

Lemma rewritten_others (d : PartialTask) (due : optional (option Z))
      (tid : string) (l : list Task) (r : Task) :
  id r <> tid -> (In r (rewritten d due tid l) <-> In r l).
Proof.
  intros Hr. unfold rewritten. rewrite in_map_iff. split.
  - intros (t & Ht & Hin). destruct (String.eqb (id t) tid) eqn:E.
    + apply String.eqb_eq in E. subst r. simpl in Hr. contradiction.
    + now subst r.
  - intros Hin. exists r. split; [|exact Hin].
    apply String.eqb_neq in Hr. now rewrite Hr.
Qed.

(** The parameters of a [set] are taken exactly when no text holds the
    NUL character and the column keeps the date; the rows then hold what
    the column keeps. *)
Lemma set_value_Ok (P : Platform) (d : PartialTask)
      (due : optional (option Z)) :
  set_value P d = Ok due
  <-> unset_or text_ok (with_title d) = true
      /\ unset_or text_opt_ok (with_description d) = true
      /\ unset_or text_opt_ok (with_assignedToId d) = true
      /\ match with_dueDate d with
         | undefined => due = undefined
         | defined x => exists v, kept_date P x = Some v /\ due = defined v
         end.
Proof.
  unfold set_value, bind_set.
  destruct (unset_or text_ok (with_title d));
    [|split; [destruct (due_value _); discriminate
             |intros (H & _); discriminate H]].
  destruct (unset_or text_opt_ok (with_description d));
    [|split; [destruct (due_value _); discriminate
             |intros (_ & H & _); discriminate H]].
  cbn [andb].
  destruct (with_dueDate d) as [|[[ms|]|]];
    cbn [due_value bind_timestamp_opt bind_timestamp kept_date].
  - destruct (unset_or text_opt_ok (with_assignedToId d)).
    + split; [intros [= <-]; now repeat split|].
      intros (_ & _ & _ & ->). reflexivity.
    + split; [discriminate|]. intros (_ & _ & H & _). discriminate H.
  - destruct (timestamp_column P ms) as [back|].
    + destruct (unset_or text_opt_ok (with_assignedToId d)).
      * split; [intros [= <-]; repeat split; now exists back|].
        intros (_ & _ & _ & v & [= <-] & ->). reflexivity.
      * split; [discriminate|]. intros (_ & _ & H & _). discriminate H.
    + split; [discriminate|]. intros (_ & _ & _ & v & H & _). discriminate H.
  - split; [discriminate|]. intros (_ & _ & _ & v & H & _). discriminate H.
  - destruct (unset_or text_opt_ok (with_assignedToId d)).
    + split; [intros [= <-]; repeat split; now exists None|].
      intros (_ & _ & _ & v & [= <-] & ->). reflexivity.
    + split; [discriminate|]. intros (_ & _ & H & _). discriminate H.
Qed.

Lemma set_value_updateData (P : Platform) (tick : Tick) (data : UpdateTask)
      (due : optional (option Z)) :
  set_value P (updateData P tick data) = Ok due
  <-> patch_texts_ok data = true
      /\ match set_dueDate data with
         | undefined => due = undefined
         | defined x =>
             exists v, kept_date P (date_or_null P x) = Some v
                       /\ due = defined v
         end.
Proof.
  rewrite set_value_Ok. unfold patch_texts_ok. cbn [updateData with_title
    with_description with_assignedToId with_dueDate].
  rewrite !andb_true_iff.
  destruct (set_dueDate data); tauto.
Qed.

(** An instant of the years 100 to 9999 is kept as it is. *)
Lemma timestamp_column_kept (P : Platform) (ms : Z) :
  100 <= year_of ms <= 9999 -> timestamp_column P ms = Some (Some ms).
Proof.
  intros [H1 H2]. unfold timestamp_column.
  apply Z.leb_le in H1, H2. now rewrite H1, H2.
Qed.

(** An instant of the year 0 is refused. *)
Lemma timestamp_column_year_zero (P : Platform) (ms : Z) :
  year_of ms = 0 -> timestamp_column P ms = None.
Proof. intros H. unfold timestamp_column. now rewrite H. Qed.

(** What a successful [updateTask] did. *)
Lemma updateTask_Ok (P : Platform) (tick : Tick) (tid : string)
      (data : UpdateTask) (w w' : World) (x : TaskWithRelations) :
  updateTask P tick tid data w = (Ok (Some x), w') ->
  exists due row,
    set_value P (updateData P tick data) = Ok due
    /\ lookup_task (db w) tid = Some row
    /\ assignee_checked (db w) (updateData P tick data) due row = true
    /\ task x = set_row (updateData P tick data) due row
    /\ enriched (db w') (task x) = Ok x
    /\ db w' = mkStore (users (db w))
                       (rewritten (updateData P tick data) due tid
                                  (tasks (db w)))
    /\ sent w' = sent w.
Proof.
  unfold updateTask, bind. rewrite update_tasks_run.
  destruct (set_value _ _) as [due|e]; [|discriminate].
  destruct (forallb _ _) eqn:Hfk; [|discriminate].
  rewrite hd_error_map.
  destruct (hd_error (filter _ (tasks (db w)))) as [row|] eqn:Hrow;
    [|discriminate].
  simpl. rewrite enrichTask_run. cbn [db sent].
  destruct (enriched _ _) as [y|] eqn:Ey; [|discriminate].
  intros H. injection H as -> <-.
  exists due, row. cbn [db sent].
  destruct (enriched_Ok _ _ _ Ey) as [Ht _].
  repeat split; try assumption; try reflexivity.
  - rewrite forallb_forall in Hfk. apply Hfk.
    destruct (filter _ (tasks (db w))) as [|r0 rs]; [discriminate|].
    injection Hrow as ->. now left.
  - now rewrite Ht.
Qed.

Lemma same_reference_refl (o : option string) : same_reference o o = true.
Proof. destruct o; simpl; [apply String.eqb_refl|reflexivity]. Qed.

Lemma updateTask_succeeds (P : Platform) (tick : Tick) (tid : string)
      (data : UpdateTask) (w : World) (row : Task) :
  lookup_task (db w) tid = Some row ->
  patch_texts_ok data = true ->
  (forall d, set_dueDate data = defined d ->
             kept_date P (date_or_null P d) <> None) ->
  (forall a, set_assignedToId data = defined (Some a) ->
             has_user a (db w) = true) ->
  lookup_user (db w) (creatorId row) <> None ->
  exists x w', updateTask P tick tid data w = (Ok (Some x), w').
Proof.
  intros Hrow Htext Hdate Hassignee Hcreator.
  unfold updateTask, bind. rewrite update_tasks_run.
  assert (Hdue : exists due,
             set_value P (updateData P tick data) = Ok due).
  { destruct (set_dueDate data) as [|d] eqn:Ed.
    - exists undefined. apply set_value_updateData. rewrite Ed. now split.
    - destruct (kept_date P (date_or_null P d)) as [v|] eqn:Ek;
        [|now destruct (Hdate d eq_refl)].
      exists (defined v). apply set_value_updateData. rewrite Ed.
      split; [exact Htext|]. now exists v. }
  destruct Hdue as [due ->].
  assert (Hfk : forallb (assignee_checked (db w) (updateData P tick data) due)
                  (filter (fun t => String.eqb (id t) tid) (tasks (db w)))
                = true).
  { apply forallb_forall. intros t _. unfold assignee_checked. simpl.
    unfold assign.
    destruct (set_assignedToId data) as [|[a|]] eqn:Ea; simpl.
    - now rewrite same_reference_refl.
    - rewrite (Hassignee a eq_refl). apply orb_true_r.
    - apply orb_true_r. }
  rewrite Hfk, hd_error_map. unfold lookup_task in Hrow. rewrite Hrow.
  simpl. rewrite enrichTask_run. unfold enriched, lookup_user in *.
  cbn [db users creatorId set_row].
  destruct (hd_error (filter _ (users (db w)))) as [c|]; [|contradiction].
  eexists. eexists. reflexivity.
Qed.

(** A [set] the server does not take writes nothing. *)
Lemma updateTask_refused (P : Platform) (tick : Tick) (tid : string)
      (data : UpdateTask) (w : World) :
  (forall d, set_dueDate data = defined d ->
             date_or_null P d <> Some None) ->
  patch_texts_ok data = false
  \/ (exists d, set_dueDate data = defined d
                /\ kept_date P (date_or_null P d) = None) ->
  exists v, updateTask P tick tid data w
            = (Throw (Error (driver_message P v)), w).
Proof.
  intros Hreadable Hno.
  unfold updateTask, bind. rewrite update_tasks_run.
  unfold set_value.
  destruct (due_value (with_dueDate (updateData P tick data)))
    as [sent_due|e] eqn:Esent.
  - destruct (bind_set P (updateData P tick data) sent_due) as [v|due] eqn:Eb;
      [now exists v|].
    exfalso.
    assert (Hok : set_value P (updateData P tick data) = Ok due).
    { unfold set_value. now rewrite Esent, Eb. }
    apply set_value_updateData in Hok. destruct Hok as [Htext Hdue].
    destruct Hno as [Hno|(d & Ed & Hk)]; [congruence|].
    rewrite Ed in Hdue. destruct Hdue as (v & Hv & _). congruence.
  - exfalso. cbn [updateData with_dueDate] in Esent.
    destruct (set_dueDate data) as [|d] eqn:Ed; [discriminate|].
    specialize (Hreadable d eq_refl). cbn [due_value] in Esent.
    destruct (date_or_null P d) as [[ms|]|]; try discriminate.
    now destruct Hreadable.
Qed.

(** C6. A successful update of an existing task writes the properties
    the patch has and no other: id, creator and createdAt stay, every
    column whose property is missing keeps its value, updatedAt becomes
    the time of the update.  For the due date, a missing property keeps
    the stored one, null clears it (the empty string as well), and a
    string leaves in the row what the timestamp column keeps of the
    date it spells: the date itself when its year is one of 100 to
    9999.  The other rows, the users and the broadcasts are untouched.
    The update does succeed when no text of the patch holds the NUL
    character, the column keeps the due date, the new assignee exists
    and the creator row is there; a patch of the status alone is such a
    patch.  A patch with a text or a readable date that the server does
    not take, a date of the year 0 for one, writes nothing. *)
Theorem C6_update_writes_only_the_patch
  (P : Platform) (tick : Tick) (tid : string) (data : UpdateTask)
  (w : World) (row : Task) :
  lookup_task (db w) tid = Some row ->
  (forall x w',
      updateTask P tick tid data w = (Ok (Some x), w') ->
      let t := task x in
      id t = id row /\ creatorId t = creatorId row
      /\ createdAt t = createdAt row
      /\ updatedAt t = now tick
      /\ title t = or_default (set_title data) (title row)
      /\ description t = or_default (set_description data) (description row)
      /\ priority t = or_default (set_priority data) (priority row)
      /\ status t = or_default (set_status data) (status row)
      /\ assignedToId t
         = or_default (set_assignedToId data) (assignedToId row)
      /\ (set_dueDate data = undefined -> dueDate t = dueDate row)
      /\ (set_dueDate data = defined None -> dueDate t = None)
      /\ (forall str, set_dueDate data = defined (Some str) ->
            kept_date P (date_or_null P (Some str)) = Some (dueDate t))
      /\ (forall str, set_dueDate data = defined (Some str) ->
            truthy str = false -> dueDate t = None)
      /\ (forall str ms, set_dueDate data = defined (Some str) ->
            truthy str = true ->
            Date_parse (host_date P) str = Some ms ->
            100 <= year_of ms <= 9999 ->
            dueDate t = Some ms)
      /\ lookup_task (db w') tid = Some t
      /\ (forall r, id r <> tid ->
            (In r (tasks (db w')) <-> In r (tasks (db w))))
      /\ users (db w') = users (db w)
      /\ sent w' = sent w)
  /\ (patch_texts_ok data = true ->
      (forall d, set_dueDate data = defined d ->
         kept_date P (date_or_null P d) <> None) ->
      (forall a, set_assignedToId data = defined (Some a) ->
         has_user a (db w) = true) ->
      lookup_user (db w) (creatorId row) <> None ->
      exists x w', updateTask P tick tid data w = (Ok (Some x), w'))
  /\ ((forall str, set_dueDate data = defined (Some str) ->
         truthy str = true -> Date_parse (host_date P) str <> None) ->
      patch_texts_ok data = false
      \/ (exists d, set_dueDate data = defined d
                    /\ kept_date P (date_or_null P d) = None) ->
      exists v, updateTask P tick tid data w
                = (Throw (Error (driver_message P v)), w))
  /\ (forall str ms, set_dueDate data = defined (Some str) ->
        truthy str = true ->
        Date_parse (host_date P) str = Some ms ->
        year_of ms = 0 ->
        exists v, updateTask P tick tid data w
                  = (Throw (Error (driver_message P v)), w)).
Proof.
  intros Hrow. split; [|split; [|split]].
  - intros x w' Hup t.
    destruct (updateTask_Ok _ _ _ _ _ _ _ Hup)
      as (due & row' & Hdue & Hrow' & _ & Ht & _ & Hdb & Hsent).
    assert (row' = row) by congruence. subst row'.
    apply set_value_updateData in Hdue. destruct Hdue as [_ Hdue].
    assert (Hkept : forall str, set_dueDate data = defined (Some str) ->
              kept_date P (date_or_null P (Some str))
              = Some (dueDate (task x))).
    { intros str E. rewrite E in Hdue. destruct Hdue as (v & Hv & ->).
      rewrite Ht. exact Hv. }
    subst t. rewrite Hdb. cbn [db tasks users].
    split; [now rewrite Ht|]. split; [now rewrite Ht|].
    split; [now rewrite Ht|]. split; [now rewrite Ht|].
    split; [now rewrite Ht|]. split; [now rewrite Ht|].
    split; [now rewrite Ht|]. split; [now rewrite Ht|].
    split; [now rewrite Ht|].
    split.
    { intros E. rewrite E in Hdue. subst due. now rewrite Ht. }
    split.
    { intros E. rewrite E in Hdue. destruct Hdue as (v & Hv & ->).
      rewrite Ht. cbn [set_row dueDate assign or_default].
      cbn [date_or_null kept_date] in Hv. now injection Hv as <-. }
    split; [exact Hkept|].
    split.
    { intros str E Hstr. specialize (Hkept str E).
      cbn [date_or_null] in Hkept. rewrite Hstr in Hkept.
      cbn [kept_date] in Hkept. now injection Hkept as <-. }
    split.
    { intros str ms E Hstr Hms Hyear. specialize (Hkept str E).
      cbn [date_or_null] in Hkept. rewrite Hstr, Hms in Hkept.
      cbn [kept_date] in Hkept.
      rewrite (timestamp_column_kept P ms Hyear) in Hkept.
      now injection Hkept as <-. }
    split.
    { unfold lookup_task. cbn [tasks]. rewrite rewritten_lookup.
      unfold lookup_task in Hrow. rewrite Hrow. now rewrite Ht. }
    split; [intros r Hr; now apply rewritten_others|].
    split; [reflexivity|exact Hsent].
  - apply updateTask_succeeds. exact Hrow.
  - intros Hreadable. apply updateTask_refused.
    intros [str|] E; cbn [date_or_null]; [|discriminate].
    destruct (truthy str) eqn:Hstr; [|discriminate].
    specialize (Hreadable str E Hstr).
    destruct (Date_parse (host_date P) str); [discriminate|].
    now destruct Hreadable.
  - intros str ms E Hstr Hms Hyear. apply updateTask_refused.
    + intros d Ed. rewrite E in Ed. injection Ed as <-.
      cbn [date_or_null]. rewrite Hstr, Hms. discriminate.
    + right. exists (Some str). split; [exact E|].
      cbn [date_or_null]. rewrite Hstr, Hms. cbn [kept_date].
      now apply timestamp_column_year_zero.
Qed.


(** ** Creating *)

Lemma driver_date_run (d : option Date) (w : World) :
  driver_date d w = (date_value d, w).
Proof. destruct d as [[ms|]|]; reflexivity. Qed.

Lemma lookup_task_None (s : Store) (tid : string) :
  lookup_task s tid = None
  <-> existsb (fun t => String.eqb (id t) tid) (tasks s) = false.
Proof. apply hd_filter_None. Qed.

Lemma lookup_user_None (s : Store) (uid : string) :
  lookup_user s uid = None <-> has_user uid s = false.
Proof. apply hd_filter_None. Qed.

Lemma createTask_run (P : Platform) (tick : Tick) (data : InsertTask)
      (cid : string) (w : World) :
  createTask P tick data cid w
  = match created_due P data with
    | Throw e => (Throw e, w)
    | Ok due =>
        let row := new_row tick data cid due in
        if existsb (fun t => String.eqb (id t) (uuid tick)) (tasks (db w))
        then (Throw (Error (driver_message P (UniqueViolation "tasks_pkey"))),
              w)
        else if negb (references_user (assignedToId row) (db w))
        then (Throw (Error (driver_message P
                (ForeignKeyViolation "tasks_assigned_to_id_users_id_fk"))), w)
        else if negb (has_user cid (db w))
        then (Throw (Error (driver_message P
                (ForeignKeyViolation "tasks_creator_id_users_id_fk"))), w)
        else
          let w' := mkWorld (mkStore (users (db w)) (tasks (db w) ++ [row]))
                            (sent w) in
          (enriched (db w') row, w')
    end.
Proof.
  unfold createTask, bind, created_due. rewrite driver_date_run.
  destruct (date_value _) as [sent_due|e]; [|reflexivity].
  unfold insert_task, run_stmt, violation, bind_task.
  cbn [title description dueDate assignedToId].
  destruct (bind_columns P _ _ sent_due _) as [v|due];
    [now rewrite world_eta|].
  unfold new_row. cbn [id assignedToId creatorId].
  destruct (existsb _ (tasks (db w))); [now rewrite world_eta|].
  destruct (negb (references_user _ _)); [now rewrite world_eta|].
  destruct (negb (has_user cid (db w))); [now rewrite world_eta|].
  now rewrite enrichTask_run.
Qed.

(** What a successful [createTask] did. *)
Lemma createTask_Ok (P : Platform) (tick : Tick) (data : InsertTask)
      (cid : string) (w w' : World) (x : TaskWithRelations) :
  createTask P tick data cid w = (Ok x, w') ->
  exists due,
    created_due P data = Ok due
    /\ task x = new_row tick data cid due
    /\ lookup_task (db w) (uuid tick) = None
    /\ enriched (db w') (task x) = Ok x
    /\ db w' = mkStore (users (db w)) (tasks (db w) ++ [task x])
    /\ sent w' = sent w.
Proof.
  rewrite createTask_run.
  destruct (created_due P data) as [due|e]; [|discriminate].
  cbv zeta.
  destruct (existsb _ (tasks (db w))) eqn:Epk; [discriminate|].
  destruct (negb (references_user _ _)); [discriminate|].
  destruct (negb (has_user cid (db w))); [discriminate|].
  destruct (enriched _ _) as [y|] eqn:Ey; [|discriminate].
  intros H. injection H as -> <-. cbn [db sent].
  destruct (enriched_Ok _ _ _ Ey) as [Ht _].
  exists due. rewrite Ht. repeat split; try reflexivity.
  - apply (proj2 (lookup_task_None _ _)). exact Epk.
  - cbn [db] in Ey. exact Ey.
Qed.

(** The parameters of an insert are taken exactly when no text holds
    the NUL character and the column keeps the date; the row then holds
    what the column keeps. *)
Lemma created_due_Ok (P : Platform) (data : InsertTask) (due : option Z) :
  created_due P data = Ok due
  <-> task_texts_ok data = true
      /\ kept_date P (date_or_null P (nullable (new_dueDate data))) = Some due.
Proof.
  unfold created_due, task_texts_ok, bind_columns.
  destruct (text_ok (new_title data));
    [|split; [destruct (date_value _); discriminate
             |intros (H & _); discriminate H]].
  destruct (text_opt_ok (nullable (new_description data)));
    [|split; [destruct (date_value _); discriminate
             |intros (H & _); discriminate H]].
  cbn [andb].
  destruct (date_or_null P (nullable (new_dueDate data))) as [[ms|]|];
    cbn [date_value bind_timestamp kept_date].
  - destruct (timestamp_column P ms) as [back|].
    + destruct (text_opt_ok (nullable (new_assignedToId data))).
      * split; [intros [= <-]; now split|].
        intros (_ & [= <-]). reflexivity.
      * split; [discriminate|]. intros (H & _). discriminate H.
    + split; [discriminate|]. intros (_ & H). discriminate H.
  - split; [discriminate|]. intros (_ & H). discriminate H.
  - destruct (text_opt_ok (nullable (new_assignedToId data))).
    + split; [intros [= <-]; now split|].
      intros (_ & [= <-]). reflexivity.
    + split; [discriminate|]. intros (H & _). discriminate H.
Qed.

Lemma lookup_user_grows (s : Store) (l : list Task) (uid : string) :
  lookup_user (mkStore (users s) l) uid = lookup_user s uid.
Proof. reflexivity. Qed.

Lemma createTask_succeeds (P : Platform) (tick : Tick) (data : InsertTask)
      (cid : string) (w : World) (due : option Z) :
  created_due P data = Ok due ->
  lookup_task (db w) (uuid tick) = None ->
  references_user (nullable (new_assignedToId data)) (db w) = true ->
  has_user cid (db w) = true ->
  exists x w',
    createTask P tick data cid w = (Ok x, w')
    /\ task x = new_row tick data cid due.
Proof.
  intros Hdue Hpk Ha Hc. rewrite createTask_run, Hdue. cbv zeta.
  apply (proj1 (lookup_task_None _ _)) in Hpk. rewrite Hpk.
  cbn [assignedToId new_row]. rewrite Ha, Hc. cbn [negb].
  cbn [db]. unfold enriched. rewrite lookup_user_grows.
  cbn [creatorId new_row].
  destruct (lookup_user (db w) cid) as [c|] eqn:Ec.
  - eexists. eexists. split; reflexivity.
  - apply (proj1 (lookup_user_None _ _)) in Ec. congruence.
Qed.

(** ** Properties of the store that every request re-establishes *)

Section Keeping.

Variable P : Platform.
Variable tick : Tick.
Variable I : Store -> Prop.

(** The four ways a request changes a table. *)
Hypothesis I_user_added :
  forall s row, I s -> u_id row = uuid tick ->
                I (mkStore (users s ++ [row]) (tasks s)).
Hypothesis I_task_added :
  forall s row, I s -> createdAt row = now tick -> updatedAt row = now tick ->
                I (mkStore (users s) (tasks s ++ [row])).
Hypothesis I_tasks_rewritten :
  forall s d due tid, I s -> with_updatedAt d = defined (now tick) ->
                      I (mkStore (users s) (rewritten d due tid (tasks s))).
Hypothesis I_tasks_filtered :
  forall s f, I s -> I (mkStore (users s) (filter f (tasks s))).

Lemma keeps_ret {A : Type} (a : A) : keeps I (ret a).
Proof. intros w o w' H. injection H as _ <-. auto. Qed.

Lemma keeps_throw {A : Type} (e : Thrown) : keeps I (@throw A e).
Proof. intros w o w' H. injection H as _ <-. auto. Qed.

Lemma keeps_bind {A B : Type} (c : M A) (k : A -> M B) :
  keeps I c -> (forall a, keeps I (k a)) -> keeps I (bind c k).
Proof.
  intros Hc Hk w o w'. unfold bind.
  destruct (c w) as [[a|e] w1] eqn:Ec; intros H Hw.
  - apply (Hk a w1 o w' H). apply (Hc w _ w1 Ec Hw).
  - injection H as _ <-. apply (Hc w _ w1 Ec Hw).
Qed.

Lemma keeps_read {A : Type} (c : M A) (f : World -> Outcome A) :
  (forall w, c w = (f w, w)) -> keeps I c.
Proof. intros Hc w o w'. rewrite Hc. intros H. injection H as _ <-. auto. Qed.

Lemma keeps_parse {A : Type} (r : Thrown + A) : keeps I (parse r).
Proof. destruct r; [apply keeps_throw|apply keeps_ret]. Qed.

Lemma keeps_emit (e : TaskEvent) : keeps I (emitTaskEvent e).
Proof. intros w o w' H. injection H as _ <-. auto. Qed.

Lemma keeps_getTask (tid : string) : keeps I (getTask tid).
Proof. apply (keeps_read _ (fun w => found (db w) tid)), getTask_run. Qed.

Lemma keeps_createUser (u : InsertUser) : keeps I (createUser P tick u).
Proof.
  intros w o w'. unfold createUser, insert_user, run_stmt, violation.
  destruct (bind_user _) as [v|row] eqn:Eb;
    [intros H; injection H as _ <-; auto|].
  assert (Hid : u_id row = uuid tick).
  { unfold bind_user in Eb. destruct (_ && _); [|discriminate].
    now injection Eb as <-. }
  destruct (existsb _ _); [intros H; injection H as _ <-; auto|].
  destruct (existsb _ _); [intros H; injection H as _ <-; auto|].
  destruct (existsb _ _); [intros H; injection H as _ <-; auto|].
  intros H Hw. injection H as _ <-. cbn [db]. now apply I_user_added.
Qed.

Lemma keeps_createTask (data : InsertTask) (cid : string) :
  keeps I (createTask P tick data cid).
Proof.
  intros w o w'. rewrite createTask_run.
  destruct (created_due _ _); [|intros H; injection H as _ <-; auto].
  cbv zeta.
  destruct (existsb _ _); [intros H; injection H as _ <-; auto|].
  destruct (negb _); [intros H; injection H as _ <-; auto|].
  destruct (negb _); [intros H; injection H as _ <-; auto|].
  intros H Hw. injection H as _ <-. cbn [db]. now apply I_task_added.
Qed.

Lemma keeps_updateTask (tid : string) (data : UpdateTask) :
  keeps I (updateTask P tick tid data).
Proof.
  unfold updateTask. apply keeps_bind.
  - intros w o w'. rewrite update_tasks_run.
    destruct (set_value _ _); [|intros H; injection H as _ <-; auto].
    destruct (forallb _ _); [|intros H; injection H as _ <-; auto].
    intros H Hw. injection H as _ <-. cbn [db]. now apply I_tasks_rewritten.
  - intros rows. destruct (hd_error rows); [|apply keeps_ret].
    apply keeps_bind; [|intros; apply keeps_ret].
    apply (keeps_read _ (fun w => enriched (db w) t)), enrichTask_run.
Qed.

Lemma keeps_deleteTask (tid : string) : keeps I (deleteTask tid).
Proof.
  intros w o w'. rewrite deleteTask_run. intros H Hw.
  injection H as _ <-. cbn [db]. now apply I_tasks_filtered.
Qed.

Lemma keeps_try_catch (c : M Response) (d : string) :
  keeps I c -> handler_keeps I (try_catch c d).
Proof.
  intros Hc w r w'. unfold try_catch.
  destruct (c w) as [[x|e] w1] eqn:Ec; intros H Hw;
    injection H as _ <-; apply (Hc w _ w1 Ec Hw).
Qed.

Lemma keeps_authMiddleware (tok : option string)
      (next : JWTPayload -> Handler) :
  (forall u, handler_keeps I (next u)) ->
  handler_keeps I (authMiddleware P tick tok next).
Proof.
  intros Hn w r w' H Hw. apply authMiddleware_inv in H.
  destruct H as [(_ & -> & _)|(u & _ & H)]; [exact Hw|].
  apply (Hn u w r w' H Hw).
Qed.

Lemma keeps_api_try (r : ApiRoute) (u : JWTPayload) :
  keeps I (api_try P tick r u).
Proof.
  destruct r; simpl.
  - unfold me. apply keeps_bind.
    + apply (keeps_read _ (fun w => Ok (lookup_user (db w) (userId u)))),
        getUser_run.
    + intros [x|]; apply keeps_ret.
  - unfold list_users. apply keeps_bind; [|intros; apply keeps_ret].
    apply (keeps_read _ (fun w => Ok (map toPublicUser (users (db w))))),
      getAllUsers_run.
  - unfold list_tasks. apply keeps_bind; [|intros; apply keeps_ret].
    eapply keeps_read. intros w. apply getAllTasks_run.
  - unfold get_task. apply keeps_bind; [apply keeps_getTask|].
    intros [x|]; apply keeps_ret.
  - unfold post_task. apply keeps_bind; [apply keeps_parse|]. intros data.
    apply keeps_bind; [apply keeps_createTask|]. intros t.
    apply keeps_bind; [apply keeps_emit|]. intros _. apply keeps_ret.
  - unfold patch_task. apply keeps_bind; [apply keeps_getTask|].
    intros [x|]; [|apply keeps_ret].
    apply keeps_bind; [apply keeps_parse|]. intros data.
    apply keeps_bind; [apply keeps_updateTask|].
    intros [t|]; [|apply keeps_ret].
    apply keeps_bind; [apply keeps_emit|]. intros _.
    apply keeps_bind; [|intros; apply keeps_ret].
    destruct (newly_assigned _ _); [apply keeps_emit|apply keeps_ret].
  - unfold delete_task. apply keeps_bind; [apply keeps_getTask|].
    intros [x|]; [|apply keeps_ret].
    apply keeps_bind; [apply keeps_deleteTask|]. intros b.
    destruct (negb b); [apply keeps_ret|].
    apply keeps_bind; [apply keeps_emit|]. intros _. apply keeps_ret.
Qed.

Lemma keeps_register (b : json) : keeps I (register P tick b).
Proof.
  unfold register. apply keeps_bind; [apply keeps_parse|]. intros data.
  apply keeps_bind.
  { eapply keeps_read. intros w. apply getUserByEmail_run. }
  intros [x|]; [apply keeps_ret|].
  apply keeps_bind.
  { eapply keeps_read. intros w. apply getUserByUsername_run. }
  intros [y|]; [apply keeps_ret|].
  apply keeps_bind; [apply keeps_createUser|]. intros u. apply keeps_ret.
Qed.

Lemma keeps_login (b : json) : keeps I (login P tick b).
Proof.
  unfold login. apply keeps_bind; [apply keeps_parse|]. intros data.
  apply keeps_bind.
  { eapply keeps_read. intros w. apply getUserByEmail_run. }
  intros [x|]; [|apply keeps_ret].
  destruct (negb _); apply keeps_ret.
Qed.

Lemma handle_keeps (req : Request) : handler_keeps I (handle P tick req).
Proof.
  unfold handle. destruct (route req) as [[b|b|]|r].
  - apply keeps_try_catch, keeps_register.
  - apply keeps_try_catch, keeps_login.
  - intros w r w' H. injection H as _ <-. auto.
  - apply keeps_authMiddleware. intros u.
    apply keeps_try_catch, keeps_api_try.
Qed.

Lemma serve_keeps (s : Store) (req : Request) :
  I s -> I (snd (fst (serve P tick s req))).
Proof.
  intros Hs. unfold serve.
  destruct (handle P tick req (mkWorld s [])) as [r w] eqn:Eh.
  simpl. apply (handle_keeps req _ _ _ Eh). exact Hs.
Qed.

End Keeping.

(** ** Timestamps *)

Lemma stamped_by_later (t0 t1 : Z) (s : Store) :
  stamped_by t0 s -> t0 <= t1 -> stamped_by t1 s.
Proof. intros H Hle t Ht. destruct (H t Ht). lia. Qed.

Lemma serve_stamped (P : Platform) (tick : Tick) (s : Store) (req : Request) :
  stamped_by (now tick) s ->
  stamped_by (now tick) (snd (fst (serve P tick s req))).
Proof.
  apply serve_keeps.
  - intros s0 row H _. exact H.
  - intros s0 row H Hc Hu t Ht. cbn [tasks] in Ht.
    apply in_app_or in Ht. destruct Ht as [Ht|[<-|[]]]; [now apply H|lia].
  - intros s0 d due tid H Hd t Ht. cbn [tasks] in Ht.
    unfold rewritten in Ht. apply in_map_iff in Ht.
    destruct Ht as (t1 & <- & Hin). destruct (H t1 Hin) as [H1 H2].
    destruct (String.eqb (id t1) tid); [|lia].
    unfold set_row, assign. simpl. rewrite Hd. simpl. lia.
  - intros s0 f H t Ht. cbn [tasks] in Ht. apply filter_In in Ht.
    apply H. tauto.
Qed.

Lemma run_stamped (P : Platform) (trace : list (Tick * Request)) :
  forall t0 s,
    stamped_by t0 s -> clock_advances t0 trace ->
    exists t1, stamped_by t1 (run P s trace).
Proof.
  induction trace as [|[tick req] rest IH]; simpl; intros t0 s Hs Hc.
  - now exists t0.
  - destruct Hc as [Hle Hrest].
    apply (IH (now tick)); [|exact Hrest].
    apply serve_stamped. now apply (stamped_by_later t0).
Qed.

(** ** What goes over the wire *)

Lemma password_free_UserPublic (u : UserPublic) :
  password_free (json_of_UserPublic u).
Proof.
  unfold password_free, json_of_UserPublic, fields_of_UserPublic.
  destruct (p_displayName u); reflexivity.
Qed.

Lemma password_free_TaskWithRelations (t : TaskWithRelations) :
  password_free (json_of_TaskWithRelations t).
Proof.
  unfold password_free, json_of_TaskWithRelations, fields_of_Task,
    json_of_UserPublic, fields_of_UserPublic.
  destruct (description (task t)), (dueDate (task t)),
    (assignedToId (task t)), (p_displayName (creator t)),
    (assignedTo t) as [a|]; try destruct (p_displayName a); reflexivity.
Qed.

Lemma password_free_array {A : Type} (f : A -> json) (l : list A) :
  (forall x, password_free (f x)) -> password_free (JArr (map f l)).
Proof.
  intros Hf. unfold password_free.
  induction l as [|x r IH]; [reflexivity|].
  simpl in *. rewrite (Hf x). exact IH.
Qed.

Lemma password_free_handleError (e : Thrown) (d : string) :
  password_free (body (handleError e d)).
Proof. destruct e; reflexivity. Qed.

Lemma mentions_property (k name : string) (v : json)
      (r : list (string * json)) :
  mentions k (JObj ((name, v) :: r))
  = String.eqb name k || mentions k v || mentions k (JObj r).
Proof. reflexivity. Qed.

Lemma password_free_wire (e : TaskEvent) : password_free (snd (wire e)).
Proof.
  destruct e as [tid t|tid t|tid uid t|tid]; unfold password_free, wire;
    cbn [snd]; rewrite !mentions_property;
    try (pose proof (password_free_TaskWithRelations t) as H;
         unfold password_free in H; rewrite H);
    reflexivity.
Qed.

Lemma discreet_ret (r : Response) :
  password_free (body r) -> discreet (ret r).
Proof. intros H w r' w' E. injection E as <- _. exact H. Qed.

Lemma discreet_bind {A : Type} (c : M A) (k : A -> M Response) :
  (forall a, discreet (k a)) -> discreet (bind c k).
Proof.
  intros Hk w r w'. unfold bind.
  destruct (c w) as [[a|e] w1]; [apply Hk|discriminate].
Qed.

Lemma discreet_user (code : Z) (u : UserPublic) (c : Cookie) :
  discreet (ret (user_response code u c)).
Proof.
  apply discreet_ret. unfold password_free, user_response. cbn [body].
  rewrite mentions_property.
  pose proof (password_free_UserPublic u) as H.
  unfold password_free in H. rewrite H. reflexivity.
Qed.

Lemma discreet_task (code : Z) (t : TaskWithRelations) :
  discreet (ret (json_response code (json_of_TaskWithRelations t))).
Proof. apply discreet_ret, password_free_TaskWithRelations. Qed.

Lemma discreet_api_try (P : Platform) (tick : Tick) (r : ApiRoute)
      (u : JWTPayload) :
  discreet (api_try P tick r u).
Proof.
  destruct r; simpl.
  - apply discreet_bind. intros [x|];
      [apply discreet_user|apply discreet_ret; reflexivity].
  - apply discreet_bind. intros l. apply discreet_ret.
    apply password_free_array, password_free_UserPublic.
  - apply discreet_bind. intros l. apply discreet_ret.
    apply password_free_array, password_free_TaskWithRelations.
  - apply discreet_bind. intros [x|];
      [apply discreet_task|apply discreet_ret; reflexivity].
  - apply discreet_bind. intros data. apply discreet_bind. intros t.
    apply discreet_bind. intros _. apply discreet_task.
  - apply discreet_bind. intros [x|]; [|apply discreet_ret; reflexivity].
    apply discreet_bind. intros data. apply discreet_bind.
    intros [t|]; [|apply discreet_ret; reflexivity].
    apply discreet_bind. intros _. apply discreet_bind. intros _.
    apply discreet_task.
  - apply discreet_bind. intros [x|]; [|apply discreet_ret; reflexivity].
    apply discreet_bind. intros b.
    destruct (negb b); [apply discreet_ret; reflexivity|].
    apply discreet_bind. intros _. apply discreet_ret. reflexivity.
Qed.

Lemma discreet_register (P : Platform) (tick : Tick) (b : json) :
  discreet (register P tick b).
Proof.
  apply discreet_bind. intros data. apply discreet_bind.
  intros [x|]; [apply discreet_ret; reflexivity|].
  apply discreet_bind. intros [y|]; [apply discreet_ret; reflexivity|].
  apply discreet_bind. intros u. apply discreet_user.
Qed.

Lemma discreet_login (P : Platform) (tick : Tick) (b : json) :
  discreet (login P tick b).
Proof.
  apply discreet_bind. intros data. apply discreet_bind.
  intros [x|]; [|apply discreet_ret; reflexivity].
  destruct (negb _); [apply discreet_ret; reflexivity|apply discreet_user].
Qed.

Lemma try_catch_password_free (c : M Response) (d : string) (w : World) :
  discreet c -> password_free (body (fst (try_catch c d w))).
Proof.
  intros Hc. unfold try_catch.
  destruct (c w) as [[r|e] w'] eqn:E; simpl.
  - apply (Hc w r w' E).
  - apply password_free_handleError.
Qed.

Lemma handle_password_free (P : Platform) (tick : Tick) (req : Request)
      (w : World) :
  password_free (body (fst (handle P tick req w))).
Proof.
  unfold handle. destruct (route req) as [[b|b|]|r].
  - apply try_catch_password_free, discreet_register.
  - apply try_catch_password_free, discreet_login.
  - reflexivity.
  - destruct (authMiddleware P tick (token req) _ w) as [resp w'] eqn:Ea.
    apply authMiddleware_inv in Ea.
    destruct Ea as [(_ & _ & _ & Hb)|(u & _ & Hn)]; [exact Hb|].
    simpl. change resp with (fst (resp, w')). rewrite <- Hn.
    apply try_catch_password_free, discreet_api_try.
Qed.

(** C1. No answer of any route and no broadcast payload has a field
    named password, at any depth; and the public projection of a user is
    the stored row without that one property. *)
Theorem C1_no_password_on_the_wire
  (P : Platform) (tick : Tick) (s : Store) (req : Request) :
  password_free (body (fst (fst (serve P tick s req))))
  /\ Forall (fun e => password_free (snd (wire e))) (snd (serve P tick s req))
  /\ (forall e, password_free (snd (wire e)))
  /\ (forall u,
        fields_of_UserPublic (toPublicUser u)
        = rest_without "password" (fields_of_User u)).
Proof.
  repeat split.
  - unfold serve.
    pose proof (handle_password_free P tick req (mkWorld s [])) as H.
    destruct (handle P tick req (mkWorld s [])) as [r w]. exact H.
  - apply Forall_forall. intros e _. apply password_free_wire.
  - apply password_free_wire.
Qed.

(** ** Events of a PATCH *)

Lemma handleError_not_ok (e : Thrown) (d : string) :
  statusCode (handleError e d) <> 200.
Proof. destruct e; discriminate. Qed.

Lemma newly_assigned_Some (data : UpdateTask) (prev : option string)
      (a : string) :
  newly_assigned data prev = Some a ->
  sets_new_assignee data prev a /\ truthy a = true.
Proof.
  unfold newly_assigned, sets_new_assignee.
  destruct (set_assignedToId data) as [|[a'|]]; try discriminate.
  destruct (truthy a') eqn:Et; cbn [andb]; [|discriminate].
  destruct (same_reference (Some a') prev) eqn:Es; cbn [negb];
    [discriminate|].
  intros H. injection H as ->. repeat split; try assumption.
  intros Hp. apply (proj2 (same_reference_Some _ _)) in Hp. congruence.
Qed.

Lemma newly_assigned_None (data : UpdateTask) (prev : option string)
      (a : string) :
  newly_assigned data prev = None ->
  sets_new_assignee data prev a -> a = "".
Proof.
  unfold newly_assigned, sets_new_assignee. intros H [Hs Hp].
  rewrite Hs in H.
  destruct (truthy a) eqn:Et.
  - cbn [andb] in H.
    destruct (same_reference (Some a) prev) eqn:Es; cbn [negb] in H;
      [|discriminate].
    apply (proj1 (same_reference_Some _ _)) in Es. congruence.
  - unfold truthy in Et. apply negb_false_iff in Et.
    now apply String.eqb_eq in Et.
Qed.

Lemma has_user_In (s : Store) (uid : string) :
  has_user uid s = true -> exists u, In u (users s) /\ u_id u = uid.
Proof.
  unfold has_user. rewrite existsb_exists.
  intros (u & Hin & He). exists u. split; [exact Hin|].
  now apply String.eqb_eq.
Qed.

Lemma assignedToId_set_row (P : Platform) (tick : Tick) (data : UpdateTask)
      (due : optional (option Z)) (row : Task) :
  assignedToId (set_row (updateData P tick data) due row)
  = or_default (set_assignedToId data) (assignedToId row).
Proof. reflexivity. Qed.

(** C2. A PATCH answered with 200 broadcast task:updated for the task it
    changed, and after it task:assigned for the same task exactly when
    the patch named an assignee that is not null and not the one the task
    had; nothing else.  So a patch that repeats the assignee, or sets it
    to null, broadcasts task:updated alone.  User ids are never empty
    in the store the request meets. *)
Theorem C2_patch_broadcasts
  (P : Platform) (tick : Tick) (s : Store) (tid : string) (b : json)
  (tok : option string) (resp : Response) (s' : Store)
  (evs : list TaskEvent) :
  ids_nonempty s ->
  serve P tick s (mkRequest (api_route (PatchTask tid b)) tok)
  = (resp, s', evs) ->
  statusCode resp = 200 ->
  exists data row x,
    updateTaskSchema_parse P b = inr data
    /\ lookup_task s tid = Some row
    /\ id (task x) = id row
    /\ body resp = json_of_TaskWithRelations x
    /\ ((exists a,
           sets_new_assignee data (assignedToId row) a
           /\ evs = [task_updated (id (task x)) x;
                     task_assigned (id (task x)) a x])
        \/ ((forall a, ~ sets_new_assignee data (assignedToId row) a)
            /\ evs = [task_updated (id (task x)) x]))
    /\ (set_assignedToId data = defined (assignedToId row) ->
        evs = [task_updated (id (task x)) x])
    /\ (set_assignedToId data = defined None ->
        evs = [task_updated (id (task x)) x]).
Proof.
  intros Hids Hserve Hok. unfold serve, handle in Hserve. simpl in Hserve.
  destruct (authMiddleware _ _ _ _ _) as [r0 w0] eqn:Ea.
  injection Hserve as -> <- <-.
  apply authMiddleware_inv in Ea.
  destruct Ea as [(Hc & _)|(u & _ & Hn)]; [congruence|].
  revert Hn. unfold try_catch. cbn [api_try api_default].
  unfold patch_task, bind. rewrite getTask_run. unfold found. cbn [db sent].
  destruct (lookup_task s tid) as [row|] eqn:Hrow;
    [|intros H; injection H as <- _; discriminate].
  destruct (enriched s row) as [existing|e] eqn:Hex;
    [|intros H; injection H as <- _;
      now destruct (handleError_not_ok e "Failed to update task")].
  destruct (enriched_Ok _ _ _ Hex) as [Hexisting _].
  destruct (updateTaskSchema_parse P b) as [e|data] eqn:Hparse; simpl;
    [intros H; injection H as <- _;
     now destruct (handleError_not_ok e "Failed to update task")|].
  destruct (updateTask P tick tid data (mkWorld s [])) as [[[x|]|e] w1]
    eqn:Hup;
    [| intros H; injection H as <- _; discriminate
     | intros H; injection H as <- _;
       now destruct (handleError_not_ok e "Failed to update task")].
  destruct (updateTask_Ok _ _ _ _ _ _ _ Hup)
    as (due & row' & _ & Hrow' & Hfk & Hx & _ & _ & Hsent).
  cbn [db sent] in Hrow', Hfk, Hsent.
  assert (row' = row) by congruence. subst row'.
  rewrite Hexisting.
  unfold emitTaskEvent, ret. rewrite Hsent. cbn [app db sent].
  assert (Hid : id (task x) = id row) by (rewrite Hx; reflexivity).
  destruct (newly_assigned data (assignedToId row)) as [a|] eqn:Hnew.
  - intros H. injection H as <- <-. cbn [sent body json_response app].
    apply newly_assigned_Some in Hnew. destruct Hnew as [Hnew Ht].
    exists data, row, x. repeat split; try assumption; try reflexivity.
    + left. exists a. split; [exact Hnew|reflexivity].
    + intros Hsame. destruct Hnew as [Hs Hp]. congruence.
    + intros Hnull. destruct Hnew as [Hs Hp]. congruence.
  - intros H. injection H as <- <-. cbn [sent body json_response app].
    assert (Hnever : forall a, ~ sets_new_assignee data (assignedToId row) a).
    { intros a Hsets.
      pose proof (newly_assigned_None _ _ _ Hnew Hsets) as ->.
      destruct Hsets as [Hs Hp].
      unfold assignee_checked in Hfk.
      rewrite assignedToId_set_row, Hs in Hfk.
      cbn [or_default references_user] in Hfk.
      apply orb_true_iff in Hfk. destruct Hfk as [Hfk|Hfk].
      - apply (proj1 (same_reference_Some _ _)) in Hfk. congruence.
      - apply has_user_In in Hfk. destruct Hfk as (v & Hin & Hv).
        apply (Hids v Hin Hv). }
    exists data, row, x. repeat split; try assumption; try reflexivity.
    right. split; [exact Hnever|reflexivity].
Qed.

Lemma serve_ids_nonempty (P : Platform) (tick : Tick) (s : Store)
      (req : Request) :
  uuid tick <> "" ->
  ids_nonempty s -> ids_nonempty (snd (fst (serve P tick s req))).
Proof.
  intros Hu. apply serve_keeps.
  - intros s0 row H Hrow v Hv. cbn [users] in Hv.
    apply in_app_or in Hv. destruct Hv as [Hv|[<-|[]]]; [now apply H|].
    congruence.
  - intros s0 row H _ _. exact H.
  - intros s0 d due tid H _. exact H.
  - intros s0 f H. exact H.
Qed.

(** ** Failed logins *)

Lemma handleError_not_401 (e : Thrown) (d : string) :
  statusCode (handleError e d) <> 401.
Proof. destruct e; discriminate. Qed.

(** C3. A login that fails because no user has the email and a login
    that fails because the password does not match get the same answer,
    status, body and cookie alike: 401 "Invalid email or password";
    neither changes the store or broadcasts.  Every login answered with
    401 gets exactly this answer. *)
Theorem C3_login_failures_look_alike
  (P : Platform) (tick1 tick2 : Tick) (s1 s2 : Store) (b1 b2 : json)
  (tok1 tok2 : option string) (d1 d2 : LoginData) (u2 : User) :
  loginSchema_parse P b1 = inr d1 ->
  hd_error (filter (fun u => String.eqb (u_email u) (l_email d1)) (users s1))
  = None ->
  loginSchema_parse P b2 = inr d2 ->
  hd_error (filter (fun u => String.eqb (u_email u) (l_email d2)) (users s2))
  = Some u2 ->
  bcrypt_compare P (l_password d2) (u_password u2) = false ->
  serve P tick1 s1 (mkRequest (auth_route (PostLogin b1)) tok1)
  = (message_response 401 "Invalid email or password", s1, [])
  /\ serve P tick2 s2 (mkRequest (auth_route (PostLogin b2)) tok2)
     = (message_response 401 "Invalid email or password", s2, [])
  /\ fst (fst (serve P tick1 s1 (mkRequest (auth_route (PostLogin b1)) tok1)))
     = fst (fst (serve P tick2 s2 (mkRequest (auth_route (PostLogin b2)) tok2)))
  /\ (forall tick s b tok,
        statusCode
          (fst (fst (serve P tick s (mkRequest (auth_route (PostLogin b)) tok))))
        = 401 ->
        fst (fst (serve P tick s (mkRequest (auth_route (PostLogin b)) tok)))
        = message_response 401 "Invalid email or password").
Proof.
  intros Hp1 Hnone Hp2 Hsome Hcmp.
  assert (E1 : serve P tick1 s1 (mkRequest (auth_route (PostLogin b1)) tok1)
               = (message_response 401 "Invalid email or password", s1, [])).
  { unfold serve, handle, try_catch, login, bind. cbn [route].
    rewrite Hp1. cbn [parse ret]. rewrite getUserByEmail_run. cbn [db].
    rewrite Hnone. reflexivity. }
  assert (E2 : serve P tick2 s2 (mkRequest (auth_route (PostLogin b2)) tok2)
               = (message_response 401 "Invalid email or password", s2, [])).
  { unfold serve, handle, try_catch, login, bind. cbn [route].
    rewrite Hp2. cbn [parse ret]. rewrite getUserByEmail_run. cbn [db].
    rewrite Hsome, Hcmp. reflexivity. }
  repeat split; try assumption.
  - now rewrite E1, E2.
  - clear. intros tick s b tok.
    unfold serve, handle, try_catch, login, bind. cbn [route].
    destruct (loginSchema_parse P b) as [e|d]; cbn [parse ret throw].
    + cbn [fst]. intros H. now destruct (handleError_not_401 e "Login failed").
    + rewrite getUserByEmail_run. cbn [db].
      destruct (hd_error (filter _ (users s))) as [u|]; [|reflexivity].
      destruct (bcrypt_compare P (l_password d) (u_password u));
        cbn [negb ret fst]; [|reflexivity].
      discriminate.
Qed.

(** ** Errors at the boundary of a route *)

(** C4 does not hold as stated.  A patch that names an assignee nobody
    has: the driver's foreign-key error is no validation failure and no
    domain error, yet it is answered with 400 and the driver's own text,
    not with 500 and the route's default message; and so is any other
    Error. *)
Lemma C4_driver_error_is_answered_400 :
  let req :=
    mkRequest
      (api_route (PatchTask "t1" (JObj [("assignedToId", JStr "u7")])))
      Demo.session in
  let resp :=
    fst (fst (serve Demo.platform (Demo.at_ 6000 "t2") Demo.store req)) in
  statusCode resp = 400
  /\ statusCode resp <> 500
  /\ body resp
     = JObj [("message",
              JStr (Demo.message
                      (ForeignKeyViolation "tasks_assigned_to_id_users_id_fk")))]
  /\ body resp <> JObj [("message", JStr "Failed to update task")]
  /\ handleError (Error "connect ECONNREFUSED 127.0.0.1:5432")
                 "Failed to get tasks"
     = message_response 400 "connect ECONNREFUSED 127.0.0.1:5432".
Proof.
  vm_compute. repeat split; discriminate.
Qed.

(** C4, as the code has it.  Whatever the [try] block of a route throws
    is answered by [handleError] with the default message of that route.
    A ZodError is answered with 400 and the message of its first issue
    (with "Validation error" when there is no issue or its message is
    empty); any other Error is answered with 400 and its own message;
    only a thrown value that is no Error is answered with 500 and the
    default message of the route. *)
Theorem C4_thrown_values_at_the_boundary (P : Platform) (tick : Tick) :
  (forall m ms d,
      m <> "" -> handleError (ZodError (m :: ms)) d = message_response 400 m)
  /\ (forall ms d,
      handleError (ZodError ("" :: ms)) d
      = message_response 400 "Validation error")
  /\ (forall d,
      handleError (ZodError []) d = message_response 400 "Validation error")
  /\ (forall m d, handleError (Error m) d = message_response 400 m)
  /\ (forall v d, handleError (NotAnError v) d = message_response 500 d)
  /\ (forall e d,
      statusCode (handleError e d) = 500 <-> exists v, e = NotAnError v)
  /\ (forall r u tok w e w1,
      signed_in P tick tok u ->
      api_try P tick r u w = (Throw e, w1) ->
      handle P tick (mkRequest (api_route r) tok) w
      = (handleError e (api_default r), w1))
  /\ (forall b tok w e w1,
      register P tick b w = (Throw e, w1) ->
      handle P tick (mkRequest (auth_route (PostRegister b)) tok) w
      = (handleError e "Registration failed", w1))
  /\ (forall b tok w e w1,
      login P tick b w = (Throw e, w1) ->
      handle P tick (mkRequest (auth_route (PostLogin b)) tok) w
      = (handleError e "Login failed", w1)).
Proof.
  split; [|split; [|split; [|split; [|split; [|split; [|split; [|split]]]]]]].
  - intros m ms d H. unfold handleError.
    destruct (truthy m) eqn:Et; [reflexivity|].
    unfold truthy in Et. apply negb_false_iff, String.eqb_eq in Et.
    contradiction.
  - reflexivity.
  - reflexivity.
  - reflexivity.
  - reflexivity.
  - intros e d. split.
    + destruct e as [l|m|v]; simpl; try discriminate. intros _. now exists v.
    + intros [v ->]. reflexivity.
  - intros r u tok w e w1 Hu He. unfold handle. cbn [route token].
    rewrite (authMiddleware_signed_in _ _ _ _ u Hu).
    unfold try_catch. now rewrite He.
  - intros b tok w e w1 He. unfold handle, try_catch. cbn [route].
    now rewrite He.
  - intros b tok w e w1 He. unfold handle, try_catch. cbn [route].
    now rewrite He.
Qed.

(** ** The handshake *)

Lemma lifetime_keeps_identity (s : Socket) (evs : list SocketEvent) :
  user (lifetime s evs) = user s
  /\ verifications (lifetime s evs) = verifications s.
Proof.
  unfold lifetime. revert s.
  induction evs as [|ev r IH]; intros s; simpl; [split; reflexivity|].
  destruct (IH (on_event s ev)) as [-> ->]. destruct ev; split; reflexivity.
Qed.

(** C8. The handshake middleware always lets the connection through.
    With no token, with an empty one, or with one that [jwt.verify]
    rejects, the socket simply carries no user.  The token goes through
    [jwt.verify] at most once, in the middleware, and nothing that
    happens on the socket afterwards verifies again or changes the
    identity. *)
Theorem C8_handshake_never_refuses (P : Platform) (t : Z) (h : Handshake) :
  snd (io_use P t h) = proceed
  /\ (handshake_token h = None -> user (fst (io_use P t h)) = None)
  /\ (handshake_token h = Some "" -> user (fst (io_use P t h)) = None)
  /\ (forall tok, handshake_token h = Some tok -> jwt_verify P tok t = None ->
                  user (fst (io_use P t h)) = None)
  /\ (verifications (fst (io_use P t h)) <= 1)%nat
  /\ (forall evs,
        user (lifetime (fst (io_use P t h)) evs) = user (fst (io_use P t h))
        /\ verifications (lifetime (fst (io_use P t h)) evs)
           = verifications (fst (io_use P t h))).
Proof.
  unfold io_use. split; [|split; [|split; [|split; [|split]]]].
  - destruct (handshake_token h) as [tok|]; [|reflexivity].
    destruct (truthy tok); [|reflexivity].
    destruct (jwt_verify P tok t); reflexivity.
  - intros ->. reflexivity.
  - intros ->. reflexivity.
  - intros tok -> Hv. rewrite Hv. destruct (truthy tok); reflexivity.
  - destruct (handshake_token h) as [tok|]; [|simpl; lia].
    destruct (truthy tok); [|simpl; lia].
    destruct (jwt_verify P tok t); simpl; lia.
  - intros evs. apply lifetime_keeps_identity.
Qed.

(** ** The due date, there and back *)

Lemma format_east_of_Greenwich (offset : Z) :
  -1440 < offset <= 0 ->
  format_yyyy_MM_dd offset 1740787200000 = "2025-03-01".
Proof.
  intros H. unfold format_yyyy_MM_dd. cbv zeta.
  assert (E : (1740787200000 - offset * 60000) / msPerDay = 20148).
  { unfold msPerDay. symmetry.
    apply Z.div_unique with (r := - offset * 60000); lia. }
  rewrite E. vm_compute. reflexivity.
Qed.

Lemma property_here (k : string) (v : json) (r : list (string * json)) :
  property k (JObj ((k, v) :: r)) = Some v.
Proof. unfold property. simpl. now rewrite String.eqb_refl. Qed.

Lemma property_next (k name : string) (v : json) (r : list (string * json)) :
  String.eqb name k = false ->
  property k (JObj ((name, v) :: r)) = property k (JObj r).
Proof. intros H. unfold property. simpl. now rewrite H. Qed.

Lemma dueDate_on_the_wire (x : TaskWithRelations) :
  property "dueDate" (json_of_TaskWithRelations x)
  = Some (json_of_opt_time (dueDate (task x))).
Proof.
  unfold json_of_TaskWithRelations, fields_of_Task. cbn [app].
  rewrite !property_next by reflexivity. apply property_here.
Qed.

Lemma lookup_task_added (s : Store) (row : Task) :
  lookup_task s (id row) = None ->
  lookup_task (mkStore (users s) (tasks s ++ [row])) (id row) = Some row.
Proof.
  unfold lookup_task. cbn [tasks]. intros H. rewrite filter_app.
  destruct (filter _ (tasks s)) as [|t r]; [|discriminate].
  simpl. now rewrite String.eqb_refl.
Qed.

(** C9 does not hold in a browser west of Greenwich: with the offset of
    New York in winter the task created with "2025-03-01" and fetched
    again is keyed under the day before. *)
Lemma C9_key_west_of_Greenwich :
  let created :=
    serve Demo.platform (Demo.at_ 6000 "t2") Demo.store
      (mkRequest
         (api_route
            (PostTask (JObj [("title", JStr "Pay rent");
                             ("dueDate", JStr "2025-03-01")])))
         Demo.session) in
  let fetched :=
    serve Demo.platform (Demo.at_ 7000 "t3") (snd (fst created))
      (mkRequest (api_route (GetTaskById "t2")) Demo.session) in
  statusCode (fst (fst created)) = 201
  /\ statusCode (fst (fst fetched)) = 200
  /\ dateKey (host_date Demo.platform) (fun _ => 300)
             (body (fst (fst fetched)))
     = Some "2025-02-28"
  /\ dateKey (host_date Demo.platform) (fun _ => 300)
             (body (fst (fst fetched)))
     <> Some "2025-03-01".
Proof.
  vm_compute. repeat split. discriminate.
Qed.

(** C9, as the code has it.  A task created with the due-date string
    "2025-03-01" (and with a title, description and assignee the store
    takes: no NUL character) is stored with the instant
    2025-03-01T00:00:00Z, which the timestamp column keeps as it is, is
    fetched with that due date, and travels as
    "2025-03-01T00:00:00.000Z".  Formatted as yyyy-MM-dd it gives
    "2025-03-01" in every browser whose local time is UTC or ahead of it
    ([getTimezoneOffset] in (-1440, 0] at that instant). *)
Theorem C9_due_date_round_trip
  (P : Platform) (tick : Tick) (data : InsertTask) (cid : string)
  (w : World) :
  new_dueDate data = defined (Some "2025-03-01") ->
  task_texts_ok data = true ->
  lookup_task (db w) (uuid tick) = None ->
  references_user (nullable (new_assignedToId data)) (db w) = true ->
  has_user cid (db w) = true ->
  exists x w',
    createTask P tick data cid w = (Ok x, w')
    /\ getTask (uuid tick) w' = (Ok (Some x), w')
    /\ dueDate (task x) = Some 1740787200000
    /\ property "dueDate" (json_of_TaskWithRelations x)
       = Some (JStr "2025-03-01T00:00:00.000Z")
    /\ (forall host offset,
          -1440 < offset 1740787200000 <= 0 ->
          dateKey host offset (json_of_TaskWithRelations x)
          = Some "2025-03-01").
Proof.
  intros Hdue Htext Hpk Ha Hc.
  assert (Hdate : created_due P data
                  = Ok (Some 1740787200000)).
  { apply created_due_Ok. split; [exact Htext|].
    rewrite Hdue. unfold nullable, or_default, date_or_null.
    cbn [truthy String.eqb Ascii.eqb Bool.eqb negb].
    unfold Date_parse. rewrite iso_parse. cbn [kept_date].
    apply timestamp_column_kept. vm_compute. split; discriminate. }
  destruct (createTask_succeeds P tick data cid w _ Hdate Hpk Ha Hc)
    as (x & w' & Hcreate & Hx).
  destruct (createTask_Ok _ _ _ _ _ _ _ Hcreate)
    as (due & _ & _ & _ & Hen & Hdb & _).
  assert (Hstored : dueDate (task x) = Some 1740787200000)
    by (rewrite Hx; reflexivity).
  assert (Hwire : property "dueDate" (json_of_TaskWithRelations x)
                  = Some (JStr "2025-03-01T00:00:00.000Z")).
  { rewrite dueDate_on_the_wire, Hstored. unfold json_of_opt_time, json_of_time.
    now rewrite iso_print. }
  exists x, w'. repeat split; try assumption.
  - rewrite getTask_run. unfold found.
    assert (Hl : lookup_task (db w') (uuid tick) = Some (task x)).
    { rewrite Hdb.
      replace (uuid tick) with (id (task x)) by (rewrite Hx; reflexivity).
      apply lookup_task_added.
      replace (id (task x)) with (uuid tick) by (rewrite Hx; reflexivity).
      exact Hpk. }
    rewrite Hl, Hen. reflexivity.
  - intros host offset Ho. unfold dateKey. rewrite Hwire.
    cbn [truthy String.eqb Ascii.eqb Bool.eqb negb].
    unfold Date_parse. rewrite iso_parse_full.
    now rewrite format_east_of_Greenwich.
Qed.

(* ===================================================================== *)
(** * The properties at work on the small platform *)
(* ===================================================================== *)

Lemma ada_signed_in (t : Z) (fresh : string) :
  t < 900000000 ->
  signed_in Demo.platform (Demo.at_ t fresh) Demo.session Demo.ada_session.
Proof.
  intros H. exists "u1|ada@example.org|900000000".
  split; [reflexivity|]. split; [reflexivity|].
  cbn [jwt_verify Demo.platform now Demo.at_].
  assert (E : Demo.verify "u1|ada@example.org|900000000" t
              = if t <? 900000000 then Some Demo.ada_session else None)
    by reflexivity.
  rewrite E. apply Z.ltb_lt in H. now rewrite H.
Qed.

Lemma C10_witness :
  enrichTask Demo.orphan_assignee Demo.world
  = (Ok {| task := Demo.orphan_assignee;
           creator := toPublicUser Demo.ada;
           assignedTo := None |}, Demo.world)
  /\ exists e, enrichTask Demo.orphan_creator Demo.world
               = (Throw e, Demo.world).
Proof.
  destruct (C10_enrichment_presupposes_creator
              Demo.platform (Demo.at_ 6000 "t2") Demo.world)
    as (Hassignee & Hcreator & _).
  split.
  - apply Hassignee; [reflexivity|].
    intros a Ha. injection Ha as <-. reflexivity.
  - apply Hcreator. reflexivity.
Defined.


Lemma C6_witness :
  lookup_task (db Demo.world) "t1" = Some Demo.chore
  /\ (exists x w',
        updateTask Demo.platform (Demo.at_ 6000 "t2") "t1" Demo.complete
                   Demo.world
        = (Ok (Some x), w')
        /\ status (task x) = completed
        /\ title (task x) = "Write report"
        /\ priority (task x) = medium
        /\ assignedToId (task x) = None
        /\ dueDate (task x) = None
        /\ updatedAt (task x) = 6000)
  /\ (exists x w',
        updateTask Demo.platform (Demo.at_ 6000 "t2") "t1" Demo.postpone
                   Demo.world
        = (Ok (Some x), w')
        /\ status (task x) = todo
        /\ dueDate (task x) = Some 1740787200000).
Proof.
  split; [reflexivity|]. split.
  - destruct (C6_update_writes_only_the_patch
                Demo.platform (Demo.at_ 6000 "t2") "t1" Demo.complete
                Demo.world Demo.chore eq_refl)
      as (Hframe & Hsucceeds & _).
    destruct Hsucceeds as (x & w' & Hup).
    + reflexivity.
    + intros d H. discriminate H.
    + intros a H. discriminate H.
    + discriminate.
    + exists x, w'. split; [exact Hup|].
      destruct (Hframe x w' Hup)
        as (_ & _ & _ & Hu & Ht & _ & Hp & Hs & Ha & Hd & _).
      repeat split; try assumption. now apply Hd.
  - destruct (C6_update_writes_only_the_patch
                Demo.platform (Demo.at_ 6000 "t2") "t1" Demo.postpone
                Demo.world Demo.chore eq_refl)
      as (Hframe & Hsucceeds & _).
    destruct Hsucceeds as (x & w' & Hup).
    + reflexivity.
    + intros d H. injection H as <-. discriminate.
    + intros a H. discriminate H.
    + discriminate.
    + exists x, w'. split; [exact Hup|].
      destruct (Hframe x w' Hup)
        as (_ & _ & _ & _ & _ & _ & _ & Hs & _ & _ & _ & _ & _ & Hd & _).
      split; [exact Hs|].
      apply (Hd "2025-03-01" 1740787200000); try reflexivity.
      vm_compute. split; discriminate.
Defined.

Lemma C2_witness :
  ids_nonempty Demo.store
  /\ statusCode
       (fst (fst (serve Demo.platform (Demo.at_ 6000 "t2") Demo.store
                        (Demo.request (PatchTask "t1" Demo.assign_bob)))))
     = 200
  /\ exists x,
       snd (serve Demo.platform (Demo.at_ 6000 "t2") Demo.store
                  (Demo.request (PatchTask "t1" Demo.assign_bob)))
       = [task_updated (id (task x)) x; task_assigned (id (task x)) "u2" x].
Proof.
  assert (Hids : ids_nonempty Demo.store).
  { intros u [<-|[<-|[]]]; discriminate. }
  split; [exact Hids|]. split; [reflexivity|].
  destruct (serve Demo.platform (Demo.at_ 6000 "t2") Demo.store
                  (Demo.request (PatchTask "t1" Demo.assign_bob)))
    as [[resp s'] evs] eqn:Hserve.
  assert (Hok : statusCode resp = 200).
  { change resp with (fst (fst (resp, s', evs))). rewrite <- Hserve.
    reflexivity. }
  destruct (C2_patch_broadcasts
              Demo.platform (Demo.at_ 6000 "t2") Demo.store "t1"
              Demo.assign_bob Demo.session resp s' evs Hids Hserve Hok)
    as (data & row & x & Hparse & Hrow & _ & _ & Hevs & _).
  exists x. cbn [snd].
  assert (Hdata : set_assignedToId data = defined (Some "u2")).
  { assert (E : updateTaskSchema_parse Demo.platform Demo.assign_bob
                = inr (mkUpdateTask undefined undefined undefined undefined
                                    undefined (defined (Some "u2"))))
      by reflexivity.
    rewrite E in Hparse. injection Hparse as <-. reflexivity. }
  assert (Hprev : assignedToId row = None).
  { assert (E : lookup_task Demo.store "t1" = Some Demo.chore) by reflexivity.
    rewrite E in Hrow. injection Hrow as <-. reflexivity. }
  destruct Hevs as [(a & [Ha _] & ->)|[Hnever _]].
  - rewrite Hdata in Ha. injection Ha as <-. reflexivity.
  - exfalso. apply (Hnever "u2"). split; [exact Hdata|].
    rewrite Hprev. discriminate.
Defined.

Lemma C3_witness :
  fst (fst (serve Demo.platform (Demo.at_ 6000 "t2") Demo.store
                  (Demo.login_request Demo.unknown_login)))
  = fst (fst (serve Demo.platform (Demo.at_ 7000 "t3") Demo.store
                    (Demo.login_request Demo.wrong_password))).
Proof.
  destruct (C3_login_failures_look_alike
              Demo.platform (Demo.at_ 6000 "t2") (Demo.at_ 7000 "t3")
              Demo.store Demo.store Demo.unknown_login Demo.wrong_password
              None None
              (mkLoginData "eve@example.org" "analytical")
              (mkLoginData "ada@example.org" "guess")
              Demo.ada)
    as (_ & _ & Hsame & _);
    [reflexivity | reflexivity | reflexivity | reflexivity | reflexivity |].
  exact Hsame.
Defined.

Lemma C4_witness :
  "Title is required" <> ""
  /\ handleError (ZodError ["Title is required"; "Invalid enum value"])
                 "Failed to create task"
     = message_response 400 "Title is required".
Proof.
  assert (H : "Title is required" <> "") by discriminate.
  split; [exact H|].
  destruct (C4_thrown_values_at_the_boundary
              Demo.platform (Demo.at_ 6000 "t2")) as (Hfirst & _).
  apply Hfirst. exact H.
Defined.

Lemma C8_witness :
  handshake_token Demo.stale_handshake = Some "u1|ada@example.org|10"
  /\ jwt_verify Demo.platform "u1|ada@example.org|10" 6000 = None
  /\ snd (io_use Demo.platform 6000 Demo.stale_handshake) = proceed
  /\ user (fst (io_use Demo.platform 6000 Demo.stale_handshake)) = None.
Proof.
  assert (Ht : handshake_token Demo.stale_handshake
               = Some "u1|ada@example.org|10") by reflexivity.
  assert (Hv : jwt_verify Demo.platform "u1|ada@example.org|10" 6000 = None)
    by reflexivity.
  destruct (C8_handshake_never_refuses
              Demo.platform 6000 Demo.stale_handshake)
    as (Hproceed & _ & _ & Hrejected & _).
  split; [exact Ht|]. split; [exact Hv|]. split; [exact Hproceed|].
  apply (Hrejected _ Ht Hv).
Defined.

Lemma C9_witness :
  new_dueDate Demo.rent = defined (Some "2025-03-01")
  /\ exists x w',
       createTask Demo.platform (Demo.at_ 6000 "t2") Demo.rent "u1" Demo.world
       = (Ok x, w')
       /\ getTask "t2" w' = (Ok (Some x), w')
       /\ dateKey (host_date Demo.platform) (fun _ => -60)
                  (json_of_TaskWithRelations x)
          = Some "2025-03-01".
Proof.
  split; [reflexivity|].
  destruct (C9_due_date_round_trip
              Demo.platform (Demo.at_ 6000 "t2") Demo.rent "u1" Demo.world)
    as (x & w' & Hcreate & Hget & _ & _ & Hkey);
    [reflexivity | reflexivity | reflexivity | reflexivity | reflexivity |].
  exists x, w'. split; [exact Hcreate|]. split; [exact Hget|].
  apply Hkey. lia.
Defined.

(* ===================================================================== *)
(** * More of the server: what one request does *)
(* ===================================================================== *)

Lemma handleError_no_success (e : Thrown) (d : string) :
  ~ success (handleError e d).
Proof. destruct e; unfold success; simpl; lia. Qed.

Lemma message_no_success (code : Z) (m : string) :
  300 <= code -> ~ success (message_response code m).
Proof. unfold success. simpl. lia. Qed.

Lemma enriched_same_users (s1 s2 : Store) (t : Task) :
  users s1 = users s2 -> enriched s1 t = enriched s2 t.
Proof. intros H. unfold enriched, lookup_user. now rewrite H. Qed.

Lemma text_opt_to_null (o : optional string) :
  text_opt_ok (to_null o) = unset_or text_ok o.
Proof. now destruct o. Qed.

Ltac fails :=
  apply nothing_written; left;
  first [ apply handleError_no_success
        | apply message_no_success; lia ].

Lemma register_effect (P : Platform) (tick : Tick) (s : Store) (req : Request)
      (b : json) :
  route req = auth_route (PostRegister b) ->
  effect P tick s req
    (fst (try_catch (register P tick b) "Registration failed" (mkWorld s [])))
    (db (snd (try_catch (register P tick b) "Registration failed"
                        (mkWorld s []))))
    (sent (snd (try_catch (register P tick b) "Registration failed"
                          (mkWorld s [])))).
Proof.
  intros Hroute. unfold try_catch, register, bind.
  destruct (registerSchema_parse P b) as [e|data] eqn:Hparse;
    cbn [parse throw ret fst snd db sent]; [fails|].
  rewrite getUserByEmail_run. cbn [db].
  destruct (hd_error (filter _ (users s))) as [u1|] eqn:Hmail;
    cbn [ret fst snd db sent]; [fails|].
  rewrite getUserByUsername_run. cbn [db].
  destruct (hd_error (filter (fun u => String.eqb (u_username u) _) (users s)))
    as [u2|] eqn:Hname;
    cbn [ret fst snd db sent]; [fails|].
  unfold createUser, insert_user, run_stmt, violation, bind_user.
  cbn [db sent u_id u_username u_email u_displayName iu_username iu_email
       iu_displayName].
  rewrite text_opt_to_null.
  destruct (text_ok (r_username data) && text_ok (r_email data)
            && unset_or text_ok (r_displayName data)) eqn:Htext;
    cbn [fst snd db sent]; [|fails].
  cbn [u_id u_username u_email].
  destruct (existsb (fun u => String.eqb (u_id u) (uuid tick)) (users s))
    eqn:Hid; cbn [fst snd db sent]; [fails|].
  apply hd_filter_None in Hmail, Hname.
  rewrite Hname, Hmail. cbn [fst snd db sent ret].
  apply (user_registered P tick s req b data Hroute Hparse Htext).
  unfold unused, registered_row. cbn [u_id u_username u_email]. auto.
Qed.

Ltac reads Hroute :=
  apply nothing_written; right; rewrite Hroute; reflexivity.

Lemma login_effect (P : Platform) (tick : Tick) (s : Store) (req : Request)
      (b : json) :
  route req = auth_route (PostLogin b) ->
  effect P tick s req
    (fst (try_catch (login P tick b) "Login failed" (mkWorld s [])))
    (db (snd (try_catch (login P tick b) "Login failed" (mkWorld s []))))
    (sent (snd (try_catch (login P tick b) "Login failed" (mkWorld s [])))).
Proof.
  intros Hroute. unfold try_catch, login, bind.
  destruct (loginSchema_parse P b) as [e|data];
    cbn [parse throw ret fst snd db sent]; [reads Hroute|].
  rewrite getUserByEmail_run. cbn [db].
  destruct (hd_error (filter _ (users s))) as [u|];
    cbn [ret fst snd db sent]; [|reads Hroute].
  destruct (bcrypt_compare P (l_password data) (u_password u));
    cbn [negb ret fst snd db sent]; reads Hroute.
Qed.

Lemma read_effect (P : Platform) (tick : Tick) (s : Store) (req : Request)
      (c : M Response) (d : string) (f : Store -> Outcome Response) :
  writes (route req) = false ->
  (forall w, c w = (f (db w), w)) ->
  effect P tick s req
    (fst (try_catch c d (mkWorld s [])))
    (db (snd (try_catch c d (mkWorld s []))))
    (sent (snd (try_catch c d (mkWorld s [])))).
Proof.
  intros Hr Hc. unfold try_catch. rewrite Hc. cbn [db].
  destruct (f s); cbn [fst snd db sent]; apply nothing_written; now right.
Qed.

Lemma me_run (u : JWTPayload) (w : World) :
  me u w
  = (match lookup_user (db w) (userId u) with
     | None => Ok (message_response 404 "User not found")
     | Some user => Ok (user_response 200 (toPublicUser user) cookie_untouched)
     end, w).
Proof.
  unfold me, bind. rewrite getUser_run.
  now destruct (lookup_user (db w) (userId u)).
Qed.

Lemma list_users_run (w : World) :
  list_users w
  = (Ok (json_response 200
           (JArr (map json_of_UserPublic (map toPublicUser (users (db w)))))),
     w).
Proof. unfold list_users, bind. now rewrite getAllUsers_run. Qed.

Lemma list_tasks_run (w : World) :
  list_tasks w
  = (match enriched_all (db w)
             (orderBy_desc_createdAt
                (filter (fun _ => true) (tasks (db w)))) with
     | Ok xs =>
         Ok (json_response 200 (JArr (map json_of_TaskWithRelations xs)))
     | Throw e => Throw e
     end, w).
Proof.
  unfold list_tasks, bind. rewrite getAllTasks_run.
  now destruct (enriched_all _ _).
Qed.

Lemma get_task_run (tid : string) (w : World) :
  get_task tid w
  = (match found (db w) tid with
     | Ok None => Ok (message_response 404 "Task not found")
     | Ok (Some x) => Ok (json_response 200 (json_of_TaskWithRelations x))
     | Throw e => Throw e
     end, w).
Proof.
  unfold get_task, bind. rewrite getTask_run.
  now destruct (found (db w) tid) as [[x|]|e].
Qed.

Lemma post_task_effect (P : Platform) (tick : Tick) (s : Store)
      (req : Request) (b : json) (u : JWTPayload) :
  route req = api_route (PostTask b) ->
  signed_in P tick (token req) u ->
  effect P tick s req
    (fst (try_catch (post_task P tick u b) "Failed to create task"
                    (mkWorld s [])))
    (db (snd (try_catch (post_task P tick u b) "Failed to create task"
                        (mkWorld s []))))
    (sent (snd (try_catch (post_task P tick u b) "Failed to create task"
                          (mkWorld s [])))).
Proof.
  intros Hroute Hu. unfold try_catch, post_task, bind.
  destruct (insertTaskSchema_parse P b) as [e|data] eqn:Hparse;
    cbn [parse throw ret fst snd db sent]; [fails|].
  rewrite createTask_run. cbn [db sent].
  destruct (created_due _ _) as [due|e] eqn:Hdue;
    cbn [fst snd db sent]; [|fails].
  cbv zeta.
  destruct (existsb _ (tasks s)) eqn:Hpk; cbn [fst snd db sent]; [fails|].
  cbn [assignedToId new_row].
  destruct (references_user _ s) eqn:Ha; cbn [negb fst snd db sent]; [|fails].
  destruct (has_user (userId u) s) eqn:Hc; cbn [negb fst snd db sent];
    [|fails].
  destruct (enriched _ (new_row tick data (userId u) due)) as [x|e] eqn:Hx;
    cbn [fst snd db sent].
  - destruct (enriched_Ok _ _ _ Hx) as [Ht _].
    unfold emitTaskEvent, ret. cbn [fst snd db sent app].
    rewrite <- Ht.
    apply (task_was_created P tick s req b u data due x); try assumption.
    + apply (proj2 (lookup_task_None _ _)). exact Hpk.
    + rewrite Ht. rewrite <- Hx. now apply enriched_same_users.
  - exfalso. unfold enriched in Hx. rewrite lookup_user_grows in Hx.
    cbn [creatorId new_row] in Hx.
    destruct (lookup_user s (userId u)) eqn:El; [discriminate|].
    apply (proj1 (lookup_user_None _ _)) in El. congruence.
Qed.

Lemma patch_task_effect (P : Platform) (tick : Tick) (s : Store)
      (req : Request) (tid : string) (b : json) (u : JWTPayload) :
  route req = api_route (PatchTask tid b) ->
  signed_in P tick (token req) u ->
  effect P tick s req
    (fst (try_catch (patch_task P tick tid b) "Failed to update task"
                    (mkWorld s [])))
    (db (snd (try_catch (patch_task P tick tid b) "Failed to update task"
                        (mkWorld s []))))
    (sent (snd (try_catch (patch_task P tick tid b) "Failed to update task"
                          (mkWorld s [])))).
Proof.
  intros Hroute Hu. unfold try_catch, patch_task, bind.
  rewrite getTask_run. unfold found. cbn [db sent].
  destruct (lookup_task s tid) as [row|] eqn:Hrow;
    cbn [ret fst snd db sent]; [|fails].
  destruct (enriched s row) as [existing|e] eqn:Hex;
    cbn [fst snd db sent]; [|fails].
  destruct (enriched_Ok _ _ _ Hex) as [Hexisting (c & Hc & _)].
  destruct (updateTaskSchema_parse P b) as [e|data] eqn:Hparse;
    cbn [parse throw ret fst snd db sent]; [fails|].
  unfold updateTask, bind. rewrite update_tasks_run. cbn [db sent].
  destruct (set_value _ _) as [due|e] eqn:Hdue; cbn [fst snd db sent]; [|fails].
  destruct (forallb _ _) eqn:Hfk; cbn [fst snd db sent]; [|fails].
  rewrite hd_error_map. unfold lookup_task in Hrow. rewrite Hrow.
  cbn [option_map]. rewrite enrichTask_run. cbn [db sent].
  destruct (enriched _ (set_row (updateData P tick data) due row))
    as [x|e] eqn:Hx; cbn [fst snd db sent].
  - destruct (enriched_Ok _ _ _ Hx) as [Ht _].
    rewrite Hexisting. unfold emitTaskEvent, ret.
    assert (Hgoal : forall evs,
               evs = patch_events data row x ->
               effect P tick s req
                 (json_response 200 (json_of_TaskWithRelations x))
                 (mkStore (users s)
                    (rewritten (updateData P tick data) due tid (tasks s)))
                 evs).
    { intros evs ->.
      apply (task_was_patched P tick s req tid b u data due row x);
        try assumption; now rewrite Ht. }
    destruct (newly_assigned data (assignedToId row)) as [a|] eqn:Hnew;
      cbn [fst snd db sent app]; apply Hgoal; unfold patch_events;
      rewrite Hnew; reflexivity.
  - exfalso. unfold enriched in Hx. rewrite lookup_user_grows in Hx.
    cbn [creatorId set_row] in Hx. now rewrite Hc in Hx.
Qed.

Lemma delete_task_effect (P : Platform) (tick : Tick) (s : Store)
      (req : Request) (tid : string) (u : JWTPayload) :
  route req = api_route (DeleteTaskById tid) ->
  signed_in P tick (token req) u ->
  effect P tick s req
    (fst (try_catch (delete_task tid) "Failed to delete task" (mkWorld s [])))
    (db (snd (try_catch (delete_task tid) "Failed to delete task"
                        (mkWorld s []))))
    (sent (snd (try_catch (delete_task tid) "Failed to delete task"
                          (mkWorld s [])))).
Proof.
  intros Hroute Hu. unfold try_catch, delete_task, bind.
  rewrite getTask_run. unfold found. cbn [db sent].
  destruct (lookup_task s tid) as [row|] eqn:Hrow;
    cbn [ret fst snd db sent]; [|fails].
  destruct (enriched s row) as [existing|e];
    cbn [fst snd db sent]; [|fails].
  rewrite deleteTask_run. cbn [db sent tasks users].
  assert (Hthere : existsb (fun t => String.eqb (id t) tid) (tasks s) = true).
  { pose proof Hrow as H. unfold lookup_task in H.
    apply hd_filter_Some in H. destruct H as [Hin He].
    apply existsb_exists. now exists row. }
  rewrite Hthere. cbn [negb]. unfold emitTaskEvent, ret.
  cbn [fst snd db sent app].
  apply (task_was_deleted P tick s req tid u row); assumption.
Qed.

Lemma handle_effect (P : Platform) (tick : Tick) (s : Store) (req : Request) :
  effect P tick s req
    (fst (handle P tick req (mkWorld s [])))
    (db (snd (handle P tick req (mkWorld s []))))
    (sent (snd (handle P tick req (mkWorld s [])))).
Proof.
  unfold handle. destruct (route req) as [[b|b|]|r] eqn:Hroute.
  - now apply register_effect.
  - now apply login_effect.
  - unfold logout. cbn [fst snd db sent]. reads Hroute.
  - destruct (authMiddleware P tick (token req) _ (mkWorld s []))
      as [resp w] eqn:Ea.
    pose proof Ea as Hinv. apply authMiddleware_inv in Hinv.
    destruct Hinv as [(Hc & -> & _)|(u & Hu & Hn)].
    + cbn [fst snd db sent]. apply nothing_written. left.
      unfold success. rewrite Hc. lia.
    + rewrite <- Hn. clear Ea Hn resp w. cbv beta.
      destruct r as [| | |tid|b|tid b|tid]; cbn [api_try api_default].
      * apply (read_effect P tick s req _ _
                 (fun s0 =>
                    match lookup_user s0 (userId u) with
                    | None => Ok (message_response 404 "User not found")
                    | Some user =>
                        Ok (user_response 200 (toPublicUser user)
                                          cookie_untouched)
                    end)); [now rewrite Hroute|apply me_run].
      * apply (read_effect P tick s req _ _
                 (fun s0 =>
                    Ok (json_response 200
                          (JArr (map json_of_UserPublic
                                     (map toPublicUser (users s0)))))));
          [now rewrite Hroute|apply list_users_run].
      * apply (read_effect P tick s req _ _
                 (fun s0 =>
                    match enriched_all s0
                            (orderBy_desc_createdAt
                               (filter (fun _ => true) (tasks s0))) with
                    | Ok xs =>
                        Ok (json_response 200
                              (JArr (map json_of_TaskWithRelations xs)))
                    | Throw e => Throw e
                    end)); [now rewrite Hroute|apply list_tasks_run].
      * apply (read_effect P tick s req _ _
                 (fun s0 =>
                    match found s0 tid with
                    | Ok None => Ok (message_response 404 "Task not found")
                    | Ok (Some x) =>
                        Ok (json_response 200 (json_of_TaskWithRelations x))
                    | Throw e => Throw e
                    end)); [now rewrite Hroute|apply get_task_run].
      * now apply (post_task_effect P tick s req b u).
      * now apply (patch_task_effect P tick s req tid b u).
      * now apply (delete_task_effect P tick s req tid u).
Qed.

(** Every request comes to one of the five effects. *)
Lemma serve_effect (P : Platform) (tick : Tick) (s : Store) (req : Request) :
  effect P tick s req
    (fst (fst (serve P tick s req)))
    (snd (fst (serve P tick s req)))
    (snd (serve P tick s req)).
Proof.
  unfold serve. pose proof (handle_effect P tick s req) as H.
  destruct (handle P tick req (mkWorld s [])) as [resp w]. exact H.
Qed.

(** ** Timestamps along a run *)

(** C7 fails when the clock of the server is set back between two
    requests: a task created at 7000 and completed when the clock reads
    6000 is left with updatedAt before createdAt. *)
Lemma C7_clock_set_back :
  let created :=
    serve Demo.platform (Demo.at_ 7000 "t2") Demo.store
          (Demo.request (PostTask Demo.rent_body)) in
  let patched :=
    serve Demo.platform (Demo.at_ 6000 "t3") (snd (fst created))
          (Demo.request (PatchTask "t2" Demo.done_body)) in
  statusCode (fst (fst created)) = 201
  /\ statusCode (fst (fst patched)) = 200
  /\ exists t,
       lookup_task (snd (fst patched)) "t2" = Some t
       /\ createdAt t = 7000
       /\ updatedAt t = 6000
       /\ ~ createdAt t <= updatedAt t.
Proof.
  cbv zeta. split; [reflexivity|]. split; [reflexivity|].
  eexists. split; [vm_compute; reflexivity|].
  cbn [createdAt updatedAt]. repeat split. lia.
Qed.

(** C7, as the code has it.  [createTask] succeeds on values the store
    takes and stamps createdAt and updatedAt with the one time it read
    from the clock; [updateTask] succeeds on such values, keeps
    createdAt and sets updatedAt to the time it read, which is not
    before the stored one when the clock has not gone back.  Whatever a
    request says, every task in the store after it is a task that was
    there, a new one with both stamps equal to the time read, or a
    stored one with its createdAt and with updatedAt the time read: no
    stamp comes from the request.  Along any run of requests during
    which the clock does not go back, from a store whose tasks are
    stamped in order (the empty one, say), every task has
    createdAt <= updatedAt. *)
Theorem C7_updatedAt_not_before_createdAt (P : Platform) :
  (forall tick data cid w,
      task_texts_ok data = true ->
      kept_date P (date_or_null P (nullable (new_dueDate data))) <> None ->
      lookup_task (db w) (uuid tick) = None ->
      references_user (nullable (new_assignedToId data)) (db w) = true ->
      has_user cid (db w) = true ->
      exists x w',
        createTask P tick data cid w = (Ok x, w')
        /\ lookup_task (db w') (uuid tick) = Some (task x)
        /\ createdAt (task x) = now tick
        /\ updatedAt (task x) = now tick)
  /\ (forall tick data cid w x w',
      createTask P tick data cid w = (Ok x, w') ->
      createdAt (task x) = now tick /\ updatedAt (task x) = now tick)
  /\ (forall tick tid data w row,
      lookup_task (db w) tid = Some row ->
      patch_texts_ok data = true ->
      (forall d, set_dueDate data = defined d ->
         kept_date P (date_or_null P d) <> None) ->
      (forall a, set_assignedToId data = defined (Some a) ->
         has_user a (db w) = true) ->
      lookup_user (db w) (creatorId row) <> None ->
      exists x w',
        updateTask P tick tid data w = (Ok (Some x), w')
        /\ lookup_task (db w') tid = Some (task x)
        /\ createdAt (task x) = createdAt row
        /\ updatedAt (task x) = now tick)
  /\ (forall tick tid data w x w' row,
      lookup_task (db w) tid = Some row ->
      updateTask P tick tid data w = (Ok (Some x), w') ->
      createdAt (task x) = createdAt row
      /\ updatedAt (task x) = now tick
      /\ (forall t0, stamped_by t0 (db w) -> t0 <= now tick ->
            updatedAt row <= updatedAt (task x)
            /\ createdAt (task x) <= updatedAt (task x)))
  /\ (forall tick s req t',
      In t' (tasks (snd (fst (serve P tick s req)))) ->
      In t' (tasks s)
      \/ (createdAt t' = now tick /\ updatedAt t' = now tick)
      \/ (exists t, In t (tasks s) /\ id t' = id t
                    /\ createdAt t' = createdAt t
                    /\ updatedAt t' = now tick))
  /\ (forall t0 s trace,
      stamped_by t0 s -> clock_advances t0 trace ->
      forall t, In t (tasks (run P s trace)) -> createdAt t <= updatedAt t)
  /\ (forall t0 trace,
      clock_advances t0 trace ->
      forall t, In t (tasks (run P (mkStore [] []) trace)) ->
                createdAt t <= updatedAt t).
Proof.
  assert (Hupdated : forall tick tid data w x w' row,
            lookup_task (db w) tid = Some row ->
            updateTask P tick tid data w = (Ok (Some x), w') ->
            lookup_task (db w') tid = Some (task x)
            /\ createdAt (task x) = createdAt row
            /\ updatedAt (task x) = now tick).
  { intros tick tid data w x w' row Hrow H.
    destruct (updateTask_Ok _ _ _ _ _ _ _ H)
      as (due & row' & _ & Hrow' & _ & Ht & _ & Hdb & _).
    assert (row' = row) by congruence. subst row'.
    split.
    - rewrite Hdb. unfold lookup_task. cbn [tasks]. rewrite rewritten_lookup.
      unfold lookup_task in Hrow. rewrite Hrow. now rewrite Ht.
    - rewrite Ht. split; reflexivity. }
  split; [|split; [|split; [|split; [|split; [|split]]]]].
  - intros tick data cid w Htext Hdate Hpk Ha Hc.
    destruct (kept_date P (date_or_null P (nullable (new_dueDate data))))
      as [due|] eqn:Ek; [|now destruct Hdate].
    assert (Hdue : created_due P data = Ok due)
      by (apply created_due_Ok; now split).
    destruct (createTask_succeeds P tick data cid w due Hdue Hpk Ha Hc)
      as (x & w' & Hcreate & Hx).
    destruct (createTask_Ok _ _ _ _ _ _ _ Hcreate)
      as (_ & _ & _ & _ & _ & Hdb & _).
    exists x, w'. split; [exact Hcreate|]. split.
    + rewrite Hdb.
      replace (uuid tick) with (id (task x)) by (rewrite Hx; reflexivity).
      apply lookup_task_added.
      replace (id (task x)) with (uuid tick) by (rewrite Hx; reflexivity).
      exact Hpk.
    + rewrite Hx. split; reflexivity.
  - intros tick data cid w x w' H.
    destruct (createTask_Ok _ _ _ _ _ _ _ H) as (due & _ & -> & _).
    split; reflexivity.
  - intros tick tid data w row Hrow Htext Hdate Ha Hc.
    destruct (updateTask_succeeds P tick tid data w row Hrow Htext Hdate Ha Hc)
      as (x & w' & Hup).
    exists x, w'. split; [exact Hup|].
    exact (Hupdated tick tid data w x w' row Hrow Hup).
  - intros tick tid data w x w' row Hrow H.
    destruct (Hupdated tick tid data w x w' row Hrow H) as (_ & Hc & Hu).
    split; [exact Hc|]. split; [exact Hu|].
    intros t0 Hstamped Hle.
    unfold lookup_task in Hrow. apply hd_filter_Some in Hrow.
    destruct Hrow as [Hin _]. destruct (Hstamped row Hin). lia.
  - intros tick s req t'.
    pose proof (serve_effect P tick s req) as Heff.
    destruct (serve P tick s req) as [[resp s'] evs]. cbn [fst snd] in *.
    destruct Heff
      as [resp _
         | b data _ _ _ _
         | b u data due x _ _ _ _ Hrow _ _ _ _
         | tid b u data due row x _ _ _ _ _ _ _ _
         | tid u row _ _ _]; cbn [tasks]; intros Hin.
    + now left.
    + now left.
    + apply in_app_or in Hin. destruct Hin as [Hin|[<-|[]]]; [now left|].
      right. left. rewrite Hrow. split; reflexivity.
    + unfold rewritten in Hin. apply in_map_iff in Hin.
      destruct Hin as (t0 & <- & Hin).
      destruct (String.eqb (id t0) tid); [|now left].
      right. right. exists t0. repeat split; assumption.
    + apply filter_In in Hin. now left.
  - intros t0 s trace Hs Hc t Ht.
    destruct (run_stamped P trace t0 s Hs Hc) as [t1 H1].
    now destruct (H1 t Ht).
  - intros t0 trace Hc t Ht.
    assert (Hs : stamped_by t0 (mkStore [] [])) by (intros x []).
    destruct (run_stamped P trace t0 _ Hs Hc) as [t1 H1].
    now destruct (H1 t Ht).
Qed.

Lemma C7_witness :
  (exists x w',
     createTask Demo.platform (Demo.at_ 6000 "t2") Demo.rent "u1" Demo.world
     = (Ok x, w')
     /\ createdAt (task x) = 6000 /\ updatedAt (task x) = 6000)
  /\ (exists x w',
        updateTask Demo.platform (Demo.at_ 6000 "t2") "t1" Demo.complete
                   Demo.world
        = (Ok (Some x), w')
        /\ createdAt (task x) = 5000 /\ updatedAt (task x) = 6000)
  /\ stamped_by 5000 Demo.store
  /\ clock_advances 5000 Demo.afternoon
  /\ forall t, In t (tasks (run Demo.platform Demo.store Demo.afternoon)) ->
               createdAt t <= updatedAt t.
Proof.
  assert (Hs : stamped_by 5000 Demo.store).
  { intros t [<-|[]]. simpl. lia. }
  assert (Hc : clock_advances 5000 Demo.afternoon).
  { simpl. lia. }
  destruct (C7_updatedAt_not_before_createdAt Demo.platform)
    as (Hcreate & _ & Hupdate & _ & _ & Hrun & _).
  split; [|split; [|split; [exact Hs|split; [exact Hc|]]]].
  - destruct (Hcreate (Demo.at_ 6000 "t2") Demo.rent "u1" Demo.world)
      as (x & w' & Hx & _ & Hca & Hua);
      [reflexivity | discriminate | reflexivity | reflexivity | reflexivity |].
    exists x, w'. repeat split; assumption.
  - destruct (Hupdate (Demo.at_ 6000 "t2") "t1" Demo.complete Demo.world
                      Demo.chore)
      as (x & w' & Hx & _ & Hca & Hua);
      [reflexivity | reflexivity | intros d H; discriminate H
       | intros a H; discriminate H | discriminate |].
    exists x, w'. repeat split; assumption.
  - apply (Hrun 5000 Demo.store Demo.afternoon Hs Hc).
Defined.

(** ** The constraints of the schema hold in every store a run reaches *)

Lemma missing_key {A : Type} (f : A -> string) (k : string) (l : list A) :
  existsb (fun x => String.eqb (f x) k) l = false -> ~ In k (map f l).
Proof.
  intros H Hin. apply in_map_iff in Hin. destruct Hin as (x & Hx & Hin).
  assert (existsb (fun y => String.eqb (f y) k) l = true).
  { apply existsb_exists. exists x. split; [exact Hin|].
    now apply String.eqb_eq. }
  congruence.
Qed.

Lemma NoDup_one_more {A : Type} (f : A -> string) (l : list A) (x : A) :
  NoDup (map f l) ->
  existsb (fun y => String.eqb (f y) (f x)) l = false ->
  NoDup (map f (l ++ [x])).
Proof.
  intros Hl Hx. rewrite map_app. apply NoDup_app.
  - exact Hl.
  - constructor; [intros []|constructor].
  - intros k Hk [<-|[]]. now apply (missing_key f (f x) l).
Qed.

Lemma NoDup_map_filter {A : Type} (f : A -> string) (g : A -> bool)
      (l : list A) :
  NoDup (map f l) -> NoDup (map f (filter g l)).
Proof.
  induction l as [|x r IH]; simpl; intros H; [constructor|].
  inversion H as [|k ks Hn Hr]; subst.
  destruct (g x); simpl; [|now apply IH].
  constructor; [|now apply IH].
  intros Hin. apply Hn. apply in_map_iff in Hin.
  destruct Hin as (y & Hy & Hin). apply filter_In in Hin.
  apply in_map_iff. exists y. tauto.
Qed.

Lemma rewritten_ids (d : PartialTask) (due : optional (option Z))
      (tid : string) (l : list Task) :
  map id (rewritten d due tid l) = map id l.
Proof.
  unfold rewritten. rewrite map_map. apply map_ext.
  intros t. now destruct (String.eqb (id t) tid).
Qed.

Lemma has_user_more (s : Store) (row : User) (l : list Task) (k : string) :
  has_user k s = true ->
  has_user k (mkStore (users s ++ [row]) l) = true.
Proof.
  unfold has_user. cbn [users]. rewrite existsb_app. intros ->. reflexivity.
Qed.

Lemma references_user_more (s : Store) (row : User) (l : list Task)
      (o : option string) :
  references_user o s = true ->
  references_user o (mkStore (users s ++ [row]) l) = true.
Proof. destruct o; simpl; [apply has_user_more|auto]. Qed.

Lemma same_reference_eq (a b : option string) :
  same_reference a b = true -> a = b.
Proof.
  destruct a, b; simpl; try discriminate; try reflexivity.
  intros H. apply String.eqb_eq in H. now subst.
Qed.

Lemma effect_store_ok (P : Platform) (tick : Tick) (s : Store) (req : Request)
      (resp : Response) (s' : Store) (evs : list TaskEvent) :
  effect P tick s req resp s' evs -> store_ok s -> store_ok s'.
Proof.
  intros Heff Hs. destruct Hs as [Hu Hn He Ht Hc Ha].
  destruct Heff
    as [resp _
       | b data _ _ _ (Hid & Hname & Hmail)
       | b u data due x _ _ _ _ Hrow Hpk Hcreator Hassignee _
       | tid b u data due row x _ _ _ Hrow _ Hfk _ _
       | tid u row _ _ _].
  - now constructor.
  - constructor; cbn [users tasks].
    + now apply NoDup_one_more.
    + now apply NoDup_one_more.
    + now apply NoDup_one_more.
    + exact Ht.
    + intros t Hin. apply has_user_more. now apply Hc.
    + intros t Hin. apply references_user_more. now apply Ha.
  - constructor; cbn [users tasks]; try assumption.
    + apply NoDup_one_more; [exact Ht|].
      rewrite Hrow. cbn [id new_row].
      now apply (proj1 (lookup_task_None _ _)).
    + intros t Hin. apply in_app_or in Hin.
      destruct Hin as [Hin|[<-|[]]]; [now apply Hc|].
      rewrite Hrow. exact Hcreator.
    + intros t Hin. apply in_app_or in Hin.
      destruct Hin as [Hin|[<-|[]]]; [now apply Ha|].
      rewrite Hrow. exact Hassignee.
  - constructor; cbn [users tasks]; try assumption.
    + now rewrite rewritten_ids.
    + intros t Hin. unfold rewritten in Hin. apply in_map_iff in Hin.
      destruct Hin as (t0 & <- & Hin).
      destruct (String.eqb (id t0) tid); [|now apply Hc].
      cbn [creatorId set_row]. now apply Hc.
    + intros t Hin. unfold rewritten in Hin. apply in_map_iff in Hin.
      destruct Hin as (t0 & <- & Hin).
      destruct (String.eqb (id t0) tid) eqn:E; [|now apply Ha].
      rewrite forallb_forall in Hfk.
      assert (Hin' : In t0 (filter (task_is tid) (tasks s)))
        by (apply filter_In; split; assumption).
      specialize (Hfk t0 Hin'). unfold assignee_checked in Hfk.
      apply orb_true_iff in Hfk. destruct Hfk as [Hsame|Href].
      * apply same_reference_eq in Hsame. rewrite Hsame. now apply Ha.
      * exact Href.
  - constructor; cbn [users tasks]; try assumption.
    + now apply NoDup_map_filter.
    + intros t Hin. apply filter_In in Hin. now apply Hc.
    + intros t Hin. apply filter_In in Hin. now apply Ha.
Qed.

(** X1. A request that is not answered with a 2xx has changed nothing
    and broadcast nothing, whatever the route and whatever failed:
    validation, the session check, a missing row, or an error of the
    store. *)
Theorem X1_failed_request_leaves_no_trace
  (P : Platform) (tick : Tick) (s : Store) (req : Request)
  (resp : Response) (s' : Store) (evs : list TaskEvent) :
  serve P tick s req = (resp, s', evs) ->
  ~ success resp ->
  s' = s /\ evs = [].
Proof.
  intros Hserve Hfail. pose proof (serve_effect P tick s req) as Heff.
  rewrite Hserve in Heff. cbn [fst snd] in Heff.
  destruct Heff; try (split; reflexivity);
    exfalso; apply Hfail; unfold success; simpl; lia.
Qed.

(** X2. The routes that only read (login, logout, me, the users list,
    the task list, one task) never change the store and never
    broadcast, whatever they answer. *)
Theorem X2_reading_routes_write_nothing
  (P : Platform) (tick : Tick) (s : Store) (req : Request) :
  writes (route req) = false ->
  snd (fst (serve P tick s req)) = s /\ snd (serve P tick s req) = [].
Proof.
  intros Hr. pose proof (serve_effect P tick s req) as Heff.
  destruct (serve P tick s req) as [[resp s'] evs]. cbn [fst snd] in *.
  destruct Heff as [resp _|b data H|b u data due x H|tid b u data due row x H
                   |tid u row H];
    try (split; reflexivity); rewrite H in Hr; discriminate.
Qed.

Lemma run_store_ok (P : Platform) (trace : list (Tick * Request)) :
  forall s, store_ok s -> store_ok (run P s trace).
Proof.
  induction trace as [|[tick req] rest IH]; simpl; intros s Hs; [exact Hs|].
  apply IH. apply (effect_store_ok _ _ _ _ _ _ _ (serve_effect P tick s req)).
  exact Hs.
Qed.

(** X3. The constraints the schema declares are kept by every request:
    user ids, usernames, emails and task ids stay unique, and every task
    keeps a creator and, when it has one, an assignee among the users.
    So they hold in every store reached from the empty one. *)
Theorem X3_constraints_hold_along_every_run (P : Platform) :
  (forall tick s req,
      store_ok s -> store_ok (snd (fst (serve P tick s req))))
  /\ (forall trace, store_ok (run P (mkStore [] []) trace)).
Proof.
  split.
  - intros tick s req.
    apply (effect_store_ok _ _ _ _ _ _ _ (serve_effect P tick s req)).
  - intros trace. apply run_store_ok.
    constructor; cbn [users tasks map]; try constructor; intros t [].
Qed.

(** X4. No request removes or alters a user: the users table after a
    request is the one before, or the one before with one row appended,
    and a row is appended only by a registration answered with 201,
    with the id drawn for the request and the hash of the password, not
    the password. *)
Theorem X4_users_only_grow
  (P : Platform) (tick : Tick) (s : Store) (req : Request) :
  users (snd (fst (serve P tick s req))) = users s
  \/ exists b data,
       route req = auth_route (PostRegister b)
       /\ registerSchema_parse P b = inr data
       /\ statusCode (fst (fst (serve P tick s req))) = 201
       /\ users (snd (fst (serve P tick s req)))
          = (users s
               ++ [mkUser (uuid tick) (r_username data) (r_email data)
                          (bcrypt_hash P (r_password data) (salt tick))
                          (to_null (r_displayName data)) (now tick)])%list.
Proof.
  pose proof (serve_effect P tick s req) as Heff.
  destruct (serve P tick s req) as [[resp s'] evs]. cbn [fst snd] in *.
  destruct Heff as [resp _|b data Hr Hp _| | |]; try (left; reflexivity).
  right. exists b, data. repeat split; assumption.
Qed.

(** X5. The identity of a task never changes.  Every task in the store
    after a request either was there before with the same id, creator
    and creation time, or was created by this request: then its id is
    the one drawn for the request, its creation time is the time read,
    and its creator is the user of the session, whatever the body said. *)
Theorem X5_task_identity_is_stable
  (P : Platform) (tick : Tick) (s : Store) (req : Request) (t' : Task) :
  In t' (tasks (snd (fst (serve P tick s req)))) ->
  (exists t, In t (tasks s) /\ id t' = id t /\ creatorId t' = creatorId t
             /\ createdAt t' = createdAt t)
  \/ (exists u, signed_in P tick (token req) u
                /\ id t' = uuid tick /\ creatorId t' = userId u
                /\ createdAt t' = now tick).
Proof.
  pose proof (serve_effect P tick s req) as Heff.
  destruct (serve P tick s req) as [[resp s'] evs]. cbn [fst snd] in *.
  destruct Heff
    as [resp _
       | b data _ _ _
       | b u data due x _ Hu _ _ Hrow _ _ _ _
       | tid b u data due row x _ _ _ _ _ _ _ _
       | tid u row _ _ _]; cbn [tasks]; intros Hin.
  - left. exists t'. tauto.
  - left. exists t'. tauto.
  - apply in_app_or in Hin. destruct Hin as [Hin|[<-|[]]].
    + left. exists t'. tauto.
    + right. exists u. rewrite Hrow. repeat split; assumption.
  - unfold rewritten in Hin. apply in_map_iff in Hin.
    destruct Hin as (t0 & <- & Hin). left. exists t0.
    destruct (String.eqb (id t0) tid); repeat split; assumption.
  - apply filter_In in Hin. left. exists t'. tauto.
Qed.

(** ** Registering, logging in, and the session *)

Lemma hd_filter_existsb {A : Type} (f : A -> bool) (l : list A) :
  existsb f l = true -> exists x, hd_error (filter f l) = Some x.
Proof.
  intros H. destruct (hd_error (filter f l)) as [x|] eqn:E; [now exists x|].
  apply hd_filter_None in E. congruence.
Qed.

Lemma register_run (P : Platform) (tick : Tick) (s : Store) (b : json)
      (tok : option string) (data : RegisterData) :
  registerSchema_parse P b = inr data ->
  serve P tick s (register_request b tok)
  = if email_taken s (r_email data)
    then (message_response 400 "Email already in use", s, [])
    else if username_taken s (r_username data)
    then (message_response 400 "Username already taken", s, [])
    else if negb (user_texts_ok data)
    then (message_response 400 (driver_message P InvalidByteSequence), s, [])
    else if existsb (fun u => String.eqb (u_id u) (uuid tick)) (users s)
    then (message_response 400
            (driver_message P (UniqueViolation "users_pkey")), s, [])
    else (user_response 201 (toPublicUser (registered_row P tick data))
            (session_cookie P (issued P tick (registered_row P tick data))),
          mkStore (users s ++ [registered_row P tick data]) (tasks s), []).
Proof.
  intros Hparse. unfold serve, handle, register_request. cbn [route].
  unfold try_catch, register, bind. rewrite Hparse. cbn [parse ret].
  rewrite getUserByEmail_run. cbn [db]. unfold email_taken, username_taken.
  destruct (existsb (fun u => String.eqb (u_email u) (r_email data)) (users s))
    eqn:Hmail.
  - destruct (hd_filter_existsb _ _ Hmail) as [x ->]. reflexivity.
  - apply (proj2 (hd_filter_None _ _)) in Hmail as Hm. rewrite Hm.
    rewrite getUserByUsername_run. cbn [db].
    destruct (existsb (fun u => String.eqb (u_username u) (r_username data))
                      (users s)) eqn:Hname.
    + destruct (hd_filter_existsb _ _ Hname) as [x ->]. reflexivity.
    + apply (proj2 (hd_filter_None _ _)) in Hname as Hn. rewrite Hn.
      unfold createUser, insert_user, run_stmt, violation, bind_user,
        user_texts_ok.
      cbn [db sent u_id u_username u_email u_displayName iu_username
           iu_email iu_displayName].
      rewrite text_opt_to_null.
      destruct (text_ok (r_username data) && text_ok (r_email data)
                && unset_or text_ok (r_displayName data));
        [|reflexivity].
      cbn [negb u_id u_username u_email].
      destruct (existsb (fun u => String.eqb (u_id u) (uuid tick)) (users s));
        [reflexivity|].
      rewrite Hname, Hmail. reflexivity.
Qed.

(** When a registration is answered 201. *)
Lemma register_created (P : Platform) (tick : Tick) (s : Store) (b : json)
      (tok : option string) (data : RegisterData) :
  registerSchema_parse P b = inr data ->
  (statusCode (fst (fst (serve P tick s (register_request b tok)))) = 201
   <-> user_texts_ok data = true /\ unused s (registered_row P tick data))
  /\ (user_texts_ok data = true ->
      unused s (registered_row P tick data) ->
      serve P tick s (register_request b tok)
      = (user_response 201 (toPublicUser (registered_row P tick data))
           (session_cookie P (issued P tick (registered_row P tick data))),
         mkStore (users s ++ [registered_row P tick data]) (tasks s), [])).
Proof.
  intros Hparse. rewrite (register_run P tick s b tok data Hparse).
  unfold unused, email_taken, username_taken.
  cbn [u_id u_username u_email registered_row].
  split.
  - destruct (existsb (fun u => String.eqb (u_email u) (r_email data)) (users s));
      [split; [discriminate|intros (_ & _ & _ & H); discriminate]|].
    destruct (existsb (fun u => String.eqb (u_username u) (r_username data))
                      (users s));
      [split; [discriminate|intros (_ & _ & H & _); discriminate]|].
    destruct (user_texts_ok data);
      [|split; [discriminate|intros (H & _); discriminate]].
    cbn [negb].
    destruct (existsb (fun u => String.eqb (u_id u) (uuid tick)) (users s));
      [split; [discriminate|intros (_ & H & _); discriminate]|].
    split; auto.
  - intros -> (-> & -> & ->). reflexivity.
Qed.

(** X6. Registration.  With a body the schema accepts: an email that is
    taken is answered 400 "Email already in use" (also when the username
    is taken too); otherwise a username that is taken is answered 400
    "Username already taken"; otherwise a username, email or display
    name that holds the NUL character, which the text columns do not
    take, is answered 400 with the error of the store; in all three
    cases nothing is stored.  When no text holds that character and id,
    username and email are all unused the answer is 201 with the public
    user and the session cookie (httpOnly, sameSite lax, seven days), and
    the store gains exactly the new row, whose password is the hash.  It
    is 201 only then. *)
Theorem X6_registration_outcomes
  (P : Platform) (tick : Tick) (s : Store) (b : json) (tok : option string)
  (data : RegisterData) :
  registerSchema_parse P b = inr data ->
  (email_taken s (r_email data) = true ->
   serve P tick s (register_request b tok)
   = (message_response 400 "Email already in use", s, []))
  /\ (email_taken s (r_email data) = false ->
      username_taken s (r_username data) = true ->
      serve P tick s (register_request b tok)
      = (message_response 400 "Username already taken", s, []))
  /\ (email_taken s (r_email data) = false ->
      username_taken s (r_username data) = false ->
      user_texts_ok data = false ->
      serve P tick s (register_request b tok)
      = (message_response 400 (driver_message P InvalidByteSequence), s, []))
  /\ (user_texts_ok data = true ->
      unused s (registered_row P tick data) ->
      serve P tick s (register_request b tok)
      = (mkResponse 201
           (JObj [("user",
                   json_of_UserPublic
                     (toPublicUser (registered_row P tick data)))])
           (cookie_set (issued P tick (registered_row P tick data))
                       true (production P) "lax" 604800000),
         mkStore (users s ++ [registered_row P tick data]) (tasks s), []))
  /\ (statusCode (fst (fst (serve P tick s (register_request b tok)))) = 201
      <-> user_texts_ok data = true
          /\ unused s (registered_row P tick data)).
Proof.
  intros Hparse.
  destruct (register_created P tick s b tok data Hparse) as [Hiff Hok].
  split; [|split; [|split; [|split]]].
  - rewrite (register_run P tick s b tok data Hparse). intros ->. reflexivity.
  - rewrite (register_run P tick s b tok data Hparse). intros -> ->.
    reflexivity.
  - rewrite (register_run P tick s b tok data Hparse). intros -> -> ->.
    reflexivity.
  - exact Hok.
  - exact Hiff.
Qed.

Lemma login_run (P : Platform) (tick : Tick) (s : Store) (b : json)
      (tok : option string) (data : LoginData) :
  loginSchema_parse P b = inr data ->
  serve P tick s (login_request b tok)
  = match hd_error (filter (fun u => String.eqb (u_email u) (l_email data))
                           (users s)) with
    | None => (message_response 401 "Invalid email or password", s, [])
    | Some user =>
        if bcrypt_compare P (l_password data) (u_password user)
        then (user_response 200 (toPublicUser user)
                (session_cookie P (issued P tick user)), s, [])
        else (message_response 401 "Invalid email or password", s, [])
    end.
Proof.
  intros Hparse. unfold serve, handle, login_request. cbn [route].
  unfold try_catch, login, bind. rewrite Hparse. cbn [parse ret].
  rewrite getUserByEmail_run. cbn [db].
  destruct (hd_error (filter _ (users s))) as [user|]; [|reflexivity].
  now destruct (bcrypt_compare P (l_password data) (u_password user)).
Qed.

Lemma first_match_appended {A : Type} (f : A -> bool) (l : list A) (x : A) :
  existsb f l = false -> f x = true ->
  hd_error (filter f (l ++ [x])) = Some x.
Proof.
  intros Hl Hx. rewrite filter_app.
  apply (proj2 (hd_filter_None f l)) in Hl.
  destruct (filter f l); [|discriminate]. simpl. now rewrite Hx.
Qed.

(** X7. Register, then log in.  A registration with texts the store
    takes and an unused id, username and email is answered with 201;
    after a registration answered with 201, a login with the same email
    and password is answered with 200 and the same public user, provided
    [bcrypt.compare] accepts the hash [bcrypt.hash] made of that
    password. *)
Theorem X7_register_then_login
  (P : Platform) (tick tick' : Tick) (s : Store) (b b' : json)
  (tok tok' : option string) (data : RegisterData) :
  registerSchema_parse P b = inr data ->
  loginSchema_parse P b'
  = inr (mkLoginData (r_email data) (r_password data)) ->
  bcrypt_compare P (r_password data)
                 (bcrypt_hash P (r_password data) (salt tick)) = true ->
  let registered := serve P tick s (register_request b tok) in
  let logged_in :=
    serve P tick' (snd (fst registered)) (login_request b' tok') in
  (user_texts_ok data = true ->
   unused s (registered_row P tick data) ->
   statusCode (fst (fst registered)) = 201)
  /\ (statusCode (fst (fst registered)) = 201 ->
      statusCode (fst (fst logged_in)) = 200
      /\ body (fst (fst logged_in)) = body (fst (fst registered))
      /\ snd (fst logged_in) = snd (fst registered)).
Proof.
  intros Hparse Hparse' Hbcrypt registered logged_in.
  destruct (register_created P tick s b tok data Hparse) as [Hiff Hok].
  split; [intros Htext Hunused; apply (proj2 Hiff); now split|].
  intros Hcreated.
  destruct (proj1 Hiff Hcreated) as [Htext Hunused].
  subst logged_in registered. rewrite (Hok Htext Hunused). cbn [fst snd].
  rewrite (login_run P tick' _ b' tok' _ Hparse'). cbn [l_email l_password users].
  destruct Hunused as (_ & _ & Hmail).
  cbn [u_email registered_row] in Hmail.
  rewrite (first_match_appended _ _ (registered_row P tick data) Hmail)
    by (cbn [u_email registered_row]; apply String.eqb_refl).
  cbn [u_password registered_row]. rewrite Hbcrypt.
  repeat split.
Qed.

Lemma unique_key_lookup {A : Type} (f : A -> string) (l : list A) (x : A) :
  NoDup (map f l) -> In x l ->
  hd_error (filter (fun y => String.eqb (f y) (f x)) l) = Some x.
Proof.
  induction l as [|y r IH]; simpl; intros Hnd Hin; [destruct Hin|].
  inversion Hnd as [|k ks Hnot Hr]; subst.
  destruct Hin as [->|Hin].
  - now rewrite String.eqb_refl.
  - destruct (String.eqb (f y) (f x)) eqn:E.
    + apply String.eqb_eq in E. exfalso. apply Hnot. rewrite E.
      now apply in_map.
    + now apply IH.
Qed.

Lemma serve_signed_in (P : Platform) (tick : Tick) (s : Store) (r : ApiRoute)
      (tok : option string) (u : JWTPayload) :
  signed_in P tick tok u ->
  serve P tick s (api_request r tok)
  = (let (resp, w) :=
       try_catch (api_try P tick r u) (api_default r) (mkWorld s []) in
     (resp, db w, sent w)).
Proof.
  intros Hu. unfold serve, handle, api_request. cbn [route token].
  now rewrite (authMiddleware_signed_in _ _ _ _ u Hu).
Qed.

(** X8. Log in, then ask who you are.  The cookie a successful login
    sets carries the token signed for the user found; a later GET
    /api/auth/me with that cookie is answered 200 with the same public
    user, provided [jwt.verify] accepts at that time what [jwt.sign]
    issued and user ids are unique. *)
Theorem X8_login_then_me
  (P : Platform) (tick tick' : Tick) (s : Store) (b : json)
  (tok : option string) (data : LoginData) (user : User) :
  NoDup (map u_id (users s)) ->
  loginSchema_parse P b = inr data ->
  hd_error (filter (fun u => String.eqb (u_email u) (l_email data)) (users s))
  = Some user ->
  bcrypt_compare P (l_password data) (u_password user) = true ->
  truthy (issued P tick user) = true ->
  jwt_verify P (issued P tick user) (now tick')
  = Some {| userId := u_id user; email := u_email user |} ->
  let logged_in := serve P tick s (login_request b tok) in
  statusCode (fst (fst logged_in)) = 200
  /\ cookie (fst (fst logged_in))
     = cookie_set (issued P tick user) true (production P) "lax" 604800000
  /\ serve P tick' s (api_request GetMe (Some (issued P tick user)))
     = (mkResponse 200 (body (fst (fst logged_in))) cookie_untouched, s, []).
Proof.
  intros Hids Hparse Hfound Hpw Htruthy Hverify logged_in.
  subst logged_in. rewrite (login_run P tick s b tok data Hparse).
  rewrite Hfound, Hpw. cbn [fst snd statusCode cookie body user_response].
  split; [reflexivity|]. split; [reflexivity|].
  rewrite (serve_signed_in P tick' s GetMe _
             {| userId := u_id user; email := u_email user |}).
  - unfold try_catch. cbn [api_try api_default]. rewrite me_run.
    cbn [db userId]. unfold lookup_user.
    apply hd_filter_Some in Hfound. destruct Hfound as [Hin _].
    rewrite (unique_key_lookup u_id (users s) user Hids Hin). reflexivity.
  - exists (issued P tick user). repeat split; assumption.
Qed.

(** X9. Without a session that [jwt.verify] accepts, every route behind
    [authMiddleware] is answered 401 and does nothing: "Authentication
    required" when the cookie is missing or empty, "Invalid or expired
    token" when verification fails. *)
Theorem X9_no_session_no_access
  (P : Platform) (tick : Tick) (s : Store) (r : ApiRoute) :
  serve P tick s (api_request r None)
  = (message_response 401 "Authentication required", s, [])
  /\ serve P tick s (api_request r (Some ""))
     = (message_response 401 "Authentication required", s, [])
  /\ (forall t, t <> "" -> jwt_verify P t (now tick) = None ->
        serve P tick s (api_request r (Some t))
        = (message_response 401 "Invalid or expired token", s, [])).
Proof.
  split; [reflexivity|]. split; [reflexivity|].
  intros t Ht Hv. unfold serve, handle, api_request, authMiddleware.
  cbn [route token].
  assert (E : truthy t = true).
  { unfold truthy. apply negb_true_iff. now apply String.eqb_neq. }
  rewrite E, Hv. reflexivity.
Qed.

(** ** Listing tasks *)

Lemma filter_true {A : Type} (l : list A) : filter (fun _ => true) l = l.
Proof. induction l as [|x r IH]; simpl; congruence. Qed.

Lemma insert_desc_perm (t : Task) (l : list Task) :
  Permutation (t :: l) (insert_desc t l).
Proof.
  induction l as [|x r IH]; simpl; [apply Permutation_refl|].
  destruct (createdAt x <? createdAt t); [apply Permutation_refl|].
  apply perm_trans with (x :: t :: r); [apply perm_swap|].
  now apply perm_skip.
Qed.

Lemma orderBy_perm (l : list Task) :
  Permutation l (orderBy_desc_createdAt l).
Proof.
  unfold orderBy_desc_createdAt.
  induction l as [|t r IH]; simpl; [apply perm_nil|].
  apply perm_trans with (t :: fold_right insert_desc [] r).
  - now apply perm_skip.
  - apply insert_desc_perm.
Qed.

Lemma insert_desc_sorted (t : Task) (l : list Task) :
  StronglySorted not_older l -> StronglySorted not_older (insert_desc t l).
Proof.
  induction l as [|x r IH]; simpl; intros Hs.
  - constructor; constructor.
  - inversion Hs as [|y ys Hr Hall]; subst.
    destruct (createdAt x <? createdAt t) eqn:E.
    + apply Z.ltb_lt in E. constructor; [exact Hs|].
      constructor; [unfold not_older; lia|].
      rewrite Forall_forall in *. intros y Hy.
      specialize (Hall y Hy). unfold not_older in *. lia.
    + apply Z.ltb_ge in E. constructor; [now apply IH|].
      rewrite Forall_forall in *. intros y Hy.
      apply (Permutation_in _ (Permutation_sym (insert_desc_perm t r))) in Hy.
      destruct Hy as [<-|Hy]; [exact E|now apply Hall].
Qed.

Lemma orderBy_sorted (l : list Task) :
  StronglySorted not_older (orderBy_desc_createdAt l).
Proof.
  unfold orderBy_desc_createdAt.
  induction l as [|t r IH]; simpl; [constructor|].
  now apply insert_desc_sorted.
Qed.

Lemma enriched_all_tasks (s : Store) (l : list Task)
      (xs : list TaskWithRelations) :
  enriched_all s l = Ok xs -> map task xs = l.
Proof.
  revert xs. induction l as [|t r IH]; simpl; intros xs H.
  - now injection H as <-.
  - destruct (enriched s t) as [x|] eqn:Ex; [|discriminate].
    destruct (enriched_all s r) as [ys|]; [|discriminate].
    injection H as <-. simpl.
    destruct (enriched_Ok _ _ _ Ex) as [-> _]. now rewrite (IH ys).
Qed.

Lemma enriched_all_succeeds (s : Store) (l : list Task) :
  (forall t, In t l -> has_user (creatorId t) s = true) ->
  exists xs, enriched_all s l = Ok xs.
Proof.
  induction l as [|t r IH]; simpl; intros H; [now exists []|].
  assert (Ht : has_user (creatorId t) s = true) by (apply H; now left).
  unfold enriched at 1.
  destruct (lookup_user s (creatorId t)) as [c|] eqn:Ec.
  - destruct IH as [xs ->]; [intros t0 H0; apply H; now right|].
    eexists. reflexivity.
  - apply (proj1 (lookup_user_None _ _)) in Ec. congruence.
Qed.

(** X10. The task list.  What [getAllTasks] returns is every task of
    the table, each once, enriched from the current users, newest
    first; it reads only.  It throws only when some task's creator has
    no row, so on a store that satisfies the schema's constraints GET
    /api/tasks is answered 200 with as many entries as there are
    tasks. *)
Theorem X10_task_list_is_complete_and_newest_first
  (P : Platform) (tick : Tick) (w : World) :
  (forall xs w',
      getAllTasks w = (Ok xs, w') ->
      w' = w
      /\ Permutation (map task xs) (tasks (db w))
      /\ StronglySorted not_older (map task xs)
      /\ (forall x, In x xs -> enriched (db w) (task x) = Ok x))
  /\ ((forall t, In t (tasks (db w)) -> has_user (creatorId t) (db w) = true) ->
      exists xs, getAllTasks w = (Ok xs, w))
  /\ (forall tok u,
      store_ok (db w) ->
      signed_in P tick tok u ->
      exists xs,
        serve P tick (db w) (api_request GetTasks tok)
        = (json_response 200 (JArr (map json_of_TaskWithRelations xs)),
           db w, [])
        /\ List.length xs = List.length (tasks (db w))).
Proof.
  split; [|split].
  - intros xs w'. rewrite getAllTasks_run, filter_true.
    intros H. injection H as H <-.
    pose proof (enriched_all_tasks _ _ _ H) as Hmap.
    split; [reflexivity|]. rewrite Hmap.
    split; [apply Permutation_sym, orderBy_perm|].
    split; [apply orderBy_sorted|].
    apply (enriched_all_Ok _ _ _ H).
  - intros Hc. rewrite getAllTasks_run, filter_true.
    destruct (enriched_all_succeeds (db w)
                (orderBy_desc_createdAt (tasks (db w)))) as [xs ->].
    + intros t Ht. apply Hc.
      apply (Permutation_in _ (Permutation_sym (orderBy_perm _)) Ht).
    + now exists xs.
  - intros tok u Hok Hu.
    rewrite (serve_signed_in P tick (db w) GetTasks tok u Hu).
    unfold try_catch. cbn [api_try api_default]. rewrite list_tasks_run.
    cbn [db]. rewrite filter_true.
    destruct (enriched_all_succeeds (db w)
                (orderBy_desc_createdAt (tasks (db w)))) as [xs Hxs].
    + intros t Ht. apply (creators_exist _ Hok).
      apply (Permutation_in _ (Permutation_sym (orderBy_perm _)) Ht).
    + rewrite Hxs. exists xs. split; [reflexivity|].
      rewrite <- (length_map task xs), (enriched_all_tasks _ _ _ Hxs).
      apply Permutation_length, Permutation_sym, orderBy_perm.
Qed.

Lemma listed_by (f : Task -> bool) (w w' : World)
      (xs : list TaskWithRelations) :
  all enrichTask (orderBy_desc_createdAt (filter f (tasks (db w)))) w
  = (Ok xs, w') ->
  w' = w
  /\ Permutation (map task xs) (filter f (tasks (db w)))
  /\ StronglySorted not_older (map task xs).
Proof.
  rewrite all_enrichTask_run. intros H. injection H as H <-.
  rewrite (enriched_all_tasks _ _ _ H).
  split; [reflexivity|].
  split; [apply Permutation_sym, orderBy_perm|apply orderBy_sorted].
Qed.

(** X11. [getTasksByCreator] returns exactly the tasks whose creator is
    the given user, and [getTasksByAssignee] exactly those assigned to
    the given user (a task without assignee belongs to nobody): each
    once, newest first, without writing. *)
Theorem X11_tasks_of_a_user (w : World) (uid : string) :
  (forall xs w',
      getTasksByCreator uid w = (Ok xs, w') ->
      w' = w
      /\ StronglySorted not_older (map task xs)
      /\ (forall t, In t (map task xs)
                    <-> In t (tasks (db w)) /\ creatorId t = uid)
      /\ List.length xs
         = List.length
             (filter (fun t => String.eqb (creatorId t) uid) (tasks (db w))))
  /\ (forall xs w',
      getTasksByAssignee uid w = (Ok xs, w') ->
      w' = w
      /\ StronglySorted not_older (map task xs)
      /\ (forall t, In t (map task xs)
                    <-> In t (tasks (db w)) /\ assignedToId t = Some uid)
      /\ List.length xs
         = List.length
             (filter (fun t => same_reference (assignedToId t) (Some uid))
                     (tasks (db w)))).
Proof.
  split.
  - intros xs w'. unfold getTasksByCreator, bind. rewrite select_tasks_run.
    intros H. apply listed_by in H. destruct H as (-> & Hperm & Hsorted).
    split; [reflexivity|]. split; [exact Hsorted|]. split.
    + intros t. split.
      * intros Hin. apply (Permutation_in _ Hperm) in Hin.
        apply filter_In in Hin. rewrite String.eqb_eq in Hin. exact Hin.
      * intros [Hin Hc]. apply (Permutation_in _ (Permutation_sym Hperm)).
        apply filter_In. rewrite String.eqb_eq. now split.
    + rewrite <- (length_map task xs). now apply Permutation_length.
  - intros xs w'. unfold getTasksByAssignee, bind. rewrite select_tasks_run.
    intros H. apply listed_by in H. destruct H as (-> & Hperm & Hsorted).
    split; [reflexivity|]. split; [exact Hsorted|]. split.
    + intros t. split.
      * intros Hin. apply (Permutation_in _ Hperm) in Hin.
        apply filter_In in Hin. destruct Hin as [Hin Ha]. split; [exact Hin|].
        destruct (assignedToId t) as [a|]; simpl in Ha; [|discriminate].
        apply String.eqb_eq in Ha. now subst.
      * intros [Hin Ha]. apply (Permutation_in _ (Permutation_sym Hperm)).
        apply filter_In. split; [exact Hin|]. rewrite Ha. simpl.
        apply String.eqb_refl.
    + rewrite <- (length_map task xs). now apply Permutation_length.
Qed.

(** ** Creating, patching and deleting through the routes *)

Lemma signed_in_unique (P : Platform) (tick : Tick) (tok : option string)
      (u u' : JWTPayload) :
  signed_in P tick tok u -> signed_in P tick tok u' -> u = u'.
Proof.
  intros (t & -> & _ & Hv) (t' & Ht & _ & Hv').
  injection Ht as <-. congruence.
Qed.

Lemma post_task_run (P : Platform) (tick : Tick) (s : Store) (b : json)
      (tok : option string) (u : JWTPayload) (data : InsertTask)
      (x : TaskWithRelations) (w' : World) :
  signed_in P tick tok u ->
  insertTaskSchema_parse P b = inr data ->
  createTask P tick data (userId u) (mkWorld s []) = (Ok x, w') ->
  serve P tick s (api_request (PostTask b) tok)
  = (json_response 201 (json_of_TaskWithRelations x), db w',
     [task_created (id (task x)) x]).
Proof.
  intros Hu Hparse Hcreate.
  rewrite (serve_signed_in P tick s _ tok u Hu).
  unfold try_catch. cbn [api_try api_default]. unfold post_task, bind.
  rewrite Hparse. cbn [parse ret]. rewrite Hcreate.
  destruct (createTask_Ok _ _ _ _ _ _ _ Hcreate) as (_ & _ & _ & _ & _ & _ & Hs).
  unfold emitTaskEvent. cbn [sent db]. rewrite Hs. reflexivity.
Qed.

Lemma created_due_refused (P : Platform) (data : InsertTask) :
  task_texts_ok data = false
  \/ kept_date P (date_or_null P (nullable (new_dueDate data))) = None ->
  exists m, created_due P data = Throw (Error m).
Proof.
  intros Hno.
  destruct (created_due P data) as [due|e] eqn:E.
  - apply created_due_Ok in E. destruct E as [Htext Hdate].
    destruct Hno; congruence.
  - unfold created_due in E.
    destruct (date_or_null P (nullable (new_dueDate data))) as [[ms|]|];
      cbn [date_value] in E.
    + destruct (bind_columns P _ _ _ _) as [v|due]; [|discriminate].
      injection E as <-. eauto.
    + injection E as <-. eauto.
    + destruct (bind_columns P _ _ _ _) as [v|due]; [|discriminate].
      injection E as <-. eauto.
Qed.

(** X12. Creating a task.  For a caller with a session and a body the
    schema accepts, POST /api/tasks is answered 201 exactly when no text
    of the body holds the NUL character, the due date is readable and
    the timestamp column keeps it, the id drawn is unused, the user of
    the session exists and the assignee, if any, exists.  Then exactly
    one row is appended: its creator is the user of the session, its due
    date is what the column keeps (the date itself when its year is one
    of 100 to 9999), priority and status default to medium and todo when
    the body leaves them out, and task:created is broadcast once, with
    the row that was stored.  A body with a text or a due date that the
    store does not take, a date of the year 0 for one, is answered 400,
    and nothing is stored or broadcast. *)
Theorem X12_creating_a_task
  (P : Platform) (tick : Tick) (s : Store) (b : json) (tok : option string)
  (u : JWTPayload) (data : InsertTask) :
  signed_in P tick tok u ->
  insertTaskSchema_parse P b = inr data ->
  (statusCode (fst (fst (serve P tick s (api_request (PostTask b) tok)))) = 201
   <-> task_texts_ok data = true
       /\ (exists due,
             kept_date P (date_or_null P (nullable (new_dueDate data)))
             = Some due)
       /\ lookup_task s (uuid tick) = None
       /\ has_user (userId u) s = true
       /\ references_user (nullable (new_assignedToId data)) s = true)
  /\ (statusCode (fst (fst (serve P tick s (api_request (PostTask b) tok))))
      = 201 ->
      exists x,
        serve P tick s (api_request (PostTask b) tok)
        = (json_response 201 (json_of_TaskWithRelations x),
           mkStore (users s) (tasks s ++ [task x]),
           [task_created (uuid tick) x])
        /\ id (task x) = uuid tick
        /\ creatorId (task x) = userId u
        /\ title (task x) = new_title data
        /\ priority (task x) = or_default (new_priority data) medium
        /\ status (task x) = or_default (new_status data) todo
        /\ assignedToId (task x) = nullable (new_assignedToId data)
        /\ kept_date P (date_or_null P (nullable (new_dueDate data)))
           = Some (dueDate (task x))
        /\ (forall str ms,
              new_dueDate data = defined (Some str) ->
              truthy str = true ->
              Date_parse (host_date P) str = Some ms ->
              100 <= year_of ms <= 9999 ->
              dueDate (task x) = Some ms)
        /\ enriched s (task x) = Ok x)
  /\ (task_texts_ok data = false
      \/ kept_date P (date_or_null P (nullable (new_dueDate data))) = None ->
      exists m,
        serve P tick s (api_request (PostTask b) tok)
        = (message_response 400 m, s, []))
  /\ (forall str ms,
        new_dueDate data = defined (Some str) ->
        truthy str = true ->
        Date_parse (host_date P) str = Some ms ->
        year_of ms = 0 ->
        exists m,
          serve P tick s (api_request (PostTask b) tok)
          = (message_response 400 m, s, [])).
Proof.
  intros Hu Hparse.
  assert (Hrefused :
            task_texts_ok data = false
            \/ kept_date P (date_or_null P (nullable (new_dueDate data)))
               = None ->
            exists m,
              serve P tick s (api_request (PostTask b) tok)
              = (message_response 400 m, s, [])).
  { intros Hno. destruct (created_due_refused P data Hno) as [m Hm].
    exists m. rewrite (serve_signed_in P tick s _ tok u Hu).
    unfold try_catch. cbn [api_try api_default]. unfold post_task, bind.
    rewrite Hparse. cbn [parse ret]. rewrite createTask_run, Hm.
    reflexivity. }
  assert (Hforward :
            statusCode
              (fst (fst (serve P tick s (api_request (PostTask b) tok)))) = 201 ->
            exists due x,
              created_due P data = Ok due
              /\ task x = new_row tick data (userId u) due
              /\ lookup_task s (uuid tick) = None
              /\ has_user (userId u) s = true
              /\ references_user (nullable (new_assignedToId data)) s = true
              /\ enriched s (task x) = Ok x
              /\ serve P tick s (api_request (PostTask b) tok)
                 = (json_response 201 (json_of_TaskWithRelations x),
                    mkStore (users s) (tasks s ++ [task x]),
                    [task_created (id (task x)) x])).
  { intros Hst.
    pose proof (serve_effect P tick s (api_request (PostTask b) tok)) as Heff.
    destruct (serve P tick s (api_request (PostTask b) tok))
      as [[resp s'] evs]. cbn [fst snd] in *.
    destruct Heff
      as [resp [Hno|Hw]
         | b0 data0 Hr _ _ _
         | b0 u0 data0 due x Hr Hu0 Hp0 Hdue Hrow Hpk Hc Ha Hx
         | tid b0 u0 data0 due row x Hr _ _ _ _ _ _ _
         | tid u0 row Hr _ _]; try discriminate.
    - exfalso. apply Hno. unfold success. lia.
    - cbn [route api_request] in Hr. injection Hr as <-.
      cbn [token api_request] in Hu0.
      rewrite (signed_in_unique _ _ _ _ _ Hu Hu0) in *.
      assert (data0 = data) by congruence. subst data0.
      exists due, x. repeat split; assumption. }
  split; [split|split; [|split]].
  - intros Hst. destruct (Hforward Hst) as (due & x & H1 & _ & H3 & H4 & H5 & _).
    apply created_due_Ok in H1. destruct H1 as [Htext Hdate].
    split; [exact Htext|]. split; [now exists due|]. repeat split; assumption.
  - intros (Htext & [due Hdate] & Hpk & Hc & Ha).
    assert (Hdue : created_due P data = Ok due)
      by (apply created_due_Ok; now split).
    destruct (createTask_succeeds P tick data (userId u) (mkWorld s []) due
                Hdue Hpk Ha Hc) as (x & w' & Hcreate & _).
    now rewrite (post_task_run P tick s b tok u data x w' Hu Hparse Hcreate).
  - intros Hst. destruct (Hforward Hst)
      as (due & x & Hdue & Hrow & _ & _ & _ & Hx & Hserve).
    apply created_due_Ok in Hdue. destruct Hdue as [_ Hdate].
    exists x. rewrite Hserve, Hrow. cbn [id new_row dueDate].
    split; [reflexivity|]. split; [reflexivity|]. split; [reflexivity|].
    split; [reflexivity|]. split; [reflexivity|]. split; [reflexivity|].
    split; [reflexivity|]. split; [exact Hdate|].
    split; [|now rewrite <- Hrow].
    intros str ms Hstr Htruthy Hms Hyear.
    rewrite Hstr in Hdate. cbn [nullable or_default date_or_null] in Hdate.
    rewrite Htruthy, Hms in Hdate. cbn [kept_date] in Hdate.
    rewrite (timestamp_column_kept P ms Hyear) in Hdate.
    now injection Hdate as <-.
  - exact Hrefused.
  - intros str ms Hstr Htruthy Hms Hyear. apply Hrefused. right.
    rewrite Hstr. cbn [nullable or_default date_or_null].
    rewrite Htruthy, Hms. cbn [kept_date].
    now apply timestamp_column_year_zero.
Qed.

Lemma get_task_served (P : Platform) (tick : Tick) (s : Store) (tid : string)
      (tok : option string) (u : JWTPayload) :
  signed_in P tick tok u ->
  serve P tick s (api_request (GetTaskById tid) tok)
  = (match found s tid with
     | Ok None => message_response 404 "Task not found"
     | Ok (Some x) => json_response 200 (json_of_TaskWithRelations x)
     | Throw e => handleError e "Failed to get task"
     end, s, []).
Proof.
  intros Hu. rewrite (serve_signed_in P tick s _ tok u Hu).
  unfold try_catch. cbn [api_try api_default]. rewrite get_task_run.
  cbn [db]. now destruct (found s tid) as [[x|]|e].
Qed.

(** X13. Create, then fetch.  After a POST /api/tasks answered with
    201, a GET of the new id by any caller with a session is answered
    200 with the very body the POST returned, and reads only. *)
Theorem X13_create_then_get
  (P : Platform) (tick tick' : Tick) (s : Store) (b : json)
  (tok tok' : option string) (u' : JWTPayload) :
  signed_in P tick' tok' u' ->
  let created := serve P tick s (api_request (PostTask b) tok) in
  statusCode (fst (fst created)) = 201 ->
  serve P tick' (snd (fst created)) (api_request (GetTaskById (uuid tick)) tok')
  = (json_response 200 (body (fst (fst created))), snd (fst created), []).
Proof.
  intros Hu' created Hst. subst created.
  pose proof (serve_effect P tick s (api_request (PostTask b) tok)) as Heff.
  destruct (serve P tick s (api_request (PostTask b) tok)) as [[resp s1] evs].
  cbn [fst snd] in *.
  destruct Heff
    as [resp [Hno|Hw]
       | b0 data0 Hr _ _
       | b0 u0 data0 due x Hr Hu0 Hp0 Hdue Hrow Hpk Hc Ha Hx
       | tid b0 u0 data0 due row x Hr _ _ _ _ _ _ _
       | tid u0 row Hr _ _]; try discriminate.
  - exfalso. apply Hno. unfold success. lia.
  - rewrite (get_task_served P tick' _ _ tok' u' Hu'). unfold found.
    assert (Hid : uuid tick = id (task x)) by (rewrite Hrow; reflexivity).
    rewrite Hid, lookup_task_added by (rewrite <- Hid; exact Hpk).
    rewrite (enriched_same_users _ s) by reflexivity.
    rewrite Hx. reflexivity.
Qed.

(** X14. Patch, then fetch.  After a PATCH answered with 200, a GET of
    the task by any caller with a session is answered 200 with the very
    body the PATCH returned. *)
Theorem X14_patch_then_get
  (P : Platform) (tick tick' : Tick) (s : Store) (tid : string) (b : json)
  (tok tok' : option string) (u' : JWTPayload) :
  signed_in P tick' tok' u' ->
  let patched := serve P tick s (api_request (PatchTask tid b) tok) in
  statusCode (fst (fst patched)) = 200 ->
  serve P tick' (snd (fst patched)) (api_request (GetTaskById tid) tok')
  = (json_response 200 (body (fst (fst patched))), snd (fst patched), []).
Proof.
  intros Hu' patched Hst. subst patched.
  pose proof (serve_effect P tick s (api_request (PatchTask tid b) tok))
    as Heff.
  destruct (serve P tick s (api_request (PatchTask tid b) tok))
    as [[resp s1] evs].
  cbn [fst snd] in *.
  destruct Heff
    as [resp [Hno|Hw]
       | b0 data0 Hr _ _
       | b0 u0 data0 due x Hr _ _ _ _ _ _ _ _
       | tid0 b0 u0 data0 due row x Hr Hu0 Hp0 Hrow Hdue Hfk Ht Hx
       | tid0 u0 row Hr _ _]; try discriminate.
  - exfalso. apply Hno. unfold success. lia.
  - cbn [route api_request] in Hr. injection Hr as <- <-.
    rewrite (get_task_served P tick' _ _ tok' u' Hu'). unfold found.
    unfold lookup_task. cbn [tasks]. rewrite rewritten_lookup.
    unfold lookup_task in Hrow. rewrite Hrow. cbn [option_map].
    rewrite <- Ht. rewrite (enriched_same_users _ s) by reflexivity.
    rewrite Hx. reflexivity.
Qed.

Lemma lookup_task_filtered (s : Store) (tid : string) :
  lookup_task
    (mkStore (users s) (filter (fun t => negb (task_is tid t)) (tasks s))) tid
  = None.
Proof.
  apply (proj2 (lookup_task_None _ _)). cbn [tasks].
  destruct (existsb _ _) eqn:E; [|reflexivity].
  apply existsb_exists in E. destruct E as (t & Hin & He).
  apply filter_In in Hin. destruct Hin as [_ Hn].
  unfold task_is in Hn. now rewrite He in Hn.
Qed.

(** X15. Deleting a task.  For a caller with a session, DELETE is
    answered 200 exactly when a row with the id exists and its creator
    resolves; on a store that satisfies the constraints: exactly when it
    exists.  Then task:deleted is broadcast once with that id, the rows
    with the id are gone and all others stay, and a later GET of the id
    is answered 404. *)
Theorem X15_deleting_a_task
  (P : Platform) (tick tick' : Tick) (s : Store) (tid : string)
  (tok tok' : option string) (u u' : JWTPayload) :
  signed_in P tick tok u ->
  signed_in P tick' tok' u' ->
  let deleted := serve P tick s (api_request (DeleteTaskById tid) tok) in
  (statusCode (fst (fst deleted)) = 200
   <-> exists row x, lookup_task s tid = Some row /\ enriched s row = Ok x)
  /\ (store_ok s ->
      (statusCode (fst (fst deleted)) = 200 <-> lookup_task s tid <> None))
  /\ (statusCode (fst (fst deleted)) = 200 ->
      snd deleted = [task_deleted tid]
      /\ users (snd (fst deleted)) = users s
      /\ (forall t, In t (tasks (snd (fst deleted)))
                    <-> In t (tasks s) /\ id t <> tid)
      /\ serve P tick' (snd (fst deleted)) (api_request (GetTaskById tid) tok')
         = (message_response 404 "Task not found", snd (fst deleted), [])).
Proof.
  intros Hu Hu' deleted.
  assert (Hrun : deleted
                 = match lookup_task s tid with
                   | None => (message_response 404 "Task not found", s, [])
                   | Some row =>
                       match enriched s row with
                       | Throw e =>
                           (handleError e "Failed to delete task", s, [])
                       | Ok _ =>
                           (mkResponse 200
                              (JObj [("message",
                                      JStr "Task deleted successfully")])
                              cookie_untouched,
                            mkStore (users s)
                              (filter (fun t => negb (task_is tid t))
                                      (tasks s)),
                            [task_deleted tid])
                       end
                   end).
  { subst deleted. rewrite (serve_signed_in P tick s _ tok u Hu).
    unfold try_catch. cbn [api_try api_default]. unfold delete_task, bind.
    rewrite getTask_run. unfold found. cbn [db].
    destruct (lookup_task s tid) as [row|] eqn:Hrow; [|reflexivity].
    destruct (enriched s row) as [x|e]; [|reflexivity].
    rewrite deleteTask_run. cbn [db sent tasks users].
    assert (Hthere : existsb (fun t => String.eqb (id t) tid) (tasks s) = true).
    { unfold lookup_task in Hrow. apply hd_filter_Some in Hrow.
      destruct Hrow as [Hin He]. apply existsb_exists. now exists row. }
    rewrite Hthere. reflexivity. }
  rewrite Hrun. clear Hrun deleted.
  split; [|split].
  - destruct (lookup_task s tid) as [row|]; cbn [fst snd statusCode].
    + destruct (enriched s row) as [x|e] eqn:Hx; cbn [fst snd statusCode].
      * split; [intros _; now exists row, x|reflexivity].
      * split; [intros H; now destruct (handleError_not_ok e _ H)|].
        intros (r & x & Hr & Hx'). injection Hr as <-. congruence.
    + split; [discriminate|]. intros (r & x & Hr & _). discriminate.
  - intros Hok. destruct (lookup_task s tid) as [row|] eqn:Hrow;
      cbn [fst snd statusCode].
    + assert (Hc : has_user (creatorId row) s = true).
      { apply (creators_exist _ Hok). unfold lookup_task in Hrow.
        now apply hd_filter_Some in Hrow. }
      unfold enriched.
      destruct (lookup_user s (creatorId row)) eqn:El.
      * cbn [fst snd statusCode]. split; [discriminate|reflexivity].
      * apply (proj1 (lookup_user_None _ _)) in El. congruence.
    + split; [discriminate|]. intros H. now destruct H.
  - destruct (lookup_task s tid) as [row|]; cbn [fst snd statusCode];
      [|discriminate].
    destruct (enriched s row) as [x|e]; cbn [fst snd statusCode];
      [|intros H; now destruct (handleError_not_ok e _ H)].
    intros _. split; [reflexivity|]. split; [reflexivity|]. split.
    + intros t. cbn [tasks]. rewrite filter_In. unfold task_is.
      rewrite negb_true_iff, String.eqb_neq. tauto.
    + rewrite (get_task_served P tick' _ _ tok' u' Hu'). unfold found.
      now rewrite lookup_task_filtered.
Qed.

(* ===================================================================== *)
(** * More of the handshake: which token is read *)
(* ===================================================================== *)

Lemma append_empty (s : string) : s ++ "" = s.
Proof. induction s as [|a r IH]; simpl; congruence. Qed.

Lemma append_assoc (a b c : string) : (a ++ b) ++ c = a ++ (b ++ c).
Proof. induction a as [|x r IH]; simpl; congruence. Qed.

Lemma prefix_of_append (sep rest : string) :
  String.prefix sep (sep ++ rest) = true.
Proof.
  induction sep as [|a r IH]; simpl; [now destruct rest|].
  destruct (ascii_dec a a); [exact IH|contradiction].
Qed.

Lemma split_go_skips (sep skipped cur rest : string) :
  split_go sep (String.length skipped) cur (skipped ++ rest)
  = split_go sep 0 cur rest.
Proof.
  induction skipped as [|a r IH]; simpl; [reflexivity|exact IH].
Qed.

Lemma split_go_first (c : ascii) (sep' pre rest : string) :
  forall cur,
    starts_nowhere (String c sep') pre (String c sep' ++ rest) = true ->
    split_go (String c sep') 0 cur (pre ++ String c sep' ++ rest)
    = (cur ++ pre) :: split_go (String c sep') 0 "" rest.
Proof.
  induction pre as [|a r IH]; intros cur H.
  - rewrite append_empty.
    change ("" ++ String c sep' ++ rest) with (String c (sep' ++ rest)).
    cbn [split_go].
    change (String c (sep' ++ rest)) with (String c sep' ++ rest).
    rewrite prefix_of_append. cbn [String.length Nat.pred].
    now rewrite split_go_skips.
  - cbn [starts_nowhere] in H. apply andb_true_iff in H.
    destruct H as [Hnot Hrest]. apply negb_true_iff in Hnot.
    change (String a r ++ String c sep' ++ rest)
      with (String a (r ++ String c sep' ++ rest)) in *.
    cbn [split_go]. rewrite Hnot. rewrite (IH _ Hrest).
    now rewrite append_assoc.
Qed.

Lemma split_go_none (sep s : string) :
  forall cur,
    starts_nowhere sep s "" = true ->
    split_go sep 0 cur s = [cur ++ s].
Proof.
  induction s as [|a r IH]; intros cur H.
  - now rewrite append_empty.
  - cbn [starts_nowhere] in H. apply andb_true_iff in H.
    destruct H as [Hnot Hrest]. apply negb_true_iff in Hnot.
    rewrite append_empty in Hnot. cbn [split_go]. rewrite Hnot.
    rewrite (IH _ Hrest). now rewrite append_assoc.
Qed.

Lemma split_go_carries (sep v tail : string) :
  forall cur,
    starts_nowhere sep v tail = true ->
    split_go sep 0 cur (v ++ tail) = split_go sep 0 (cur ++ v) tail.
Proof.
  induction v as [|a r IH]; intros cur H.
  - now rewrite append_empty.
  - cbn [starts_nowhere] in H. apply andb_true_iff in H.
    destruct H as [Hnot Hrest]. apply negb_true_iff in Hnot.
    change (String a r ++ tail) with (String a (r ++ tail)) in *.
    cbn [split_go]. rewrite Hnot, (IH _ Hrest). now rewrite append_assoc.
Qed.

Lemma split_go_head (sep s : string) :
  forall skip cur, exists x r, split_go sep skip cur s = (cur ++ x) :: r.
Proof.
  induction s as [|a r IH]; intros skip cur.
  - exists "", []. now rewrite append_empty.
  - cbn [split_go]. destruct skip as [|k].
    + destruct (String.prefix sep (String a r)).
      * exists "". eexists. now rewrite append_empty.
      * destruct (IH 0%nat (cur ++ String a "")) as (x & l & ->).
        exists (String a x), l. now rewrite append_assoc.
    + apply IH.
Qed.

Lemma prefix_one (c a : ascii) (s : string) :
  String.prefix (String c "") (String a s)
  = if ascii_dec c a then true else false.
Proof.
  cbn [String.prefix]. destruct (ascii_dec c a); [now destruct s|reflexivity].
Qed.

Lemma no_semicolon_any_tail (v tail tail' : string) :
  starts_nowhere ";" v tail = true -> starts_nowhere ";" v tail' = true.
Proof.
  induction v as [|a r IH]; [reflexivity|].
  cbn [starts_nowhere]. intros H. apply andb_true_iff in H.
  destruct H as [Hnot Hrest]. rewrite (IH Hrest), andb_true_r.
  change (String a r ++ tail) with (String a (r ++ tail)) in Hnot.
  change (String a r ++ tail') with (String a (r ++ tail')).
  rewrite prefix_one in *. exact Hnot.
Qed.

(** X16. Which token the handshake reads.  A non-empty explicit auth
    token wins over any cookie.  Otherwise the token is what follows the
    first "taskflow_token=" in the cookie header, up to the next ";" or
    to the end (for a value in which neither ";" nor the name occurs);
    the name is searched as a substring, so it is found also at the end
    of a longer cookie name.  A header without the name, or no header,
    gives no token, and the socket is anonymous. *)
Theorem X16_token_read_at_the_handshake (P : Platform) (t : Z) :
  (forall tok c, tok <> "" ->
      handshake_token (mkHandshake (Some tok) c) = Some tok)
  /\ (forall a pre v post,
      truthy_opt a = false ->
      starts_nowhere "taskflow_token=" pre
                     ("taskflow_token=" ++ v ++ ";" ++ post) = true ->
      starts_nowhere "taskflow_token=" v (";" ++ post) = true ->
      starts_nowhere ";" v "" = true ->
      handshake_token
        (mkHandshake a (Some (pre ++ "taskflow_token=" ++ v ++ ";" ++ post)))
      = Some v)
  /\ (forall a pre v,
      truthy_opt a = false ->
      starts_nowhere "taskflow_token=" pre ("taskflow_token=" ++ v) = true ->
      starts_nowhere "taskflow_token=" v "" = true ->
      starts_nowhere ";" v "" = true ->
      handshake_token (mkHandshake a (Some (pre ++ "taskflow_token=" ++ v)))
      = Some v)
  /\ (forall a c,
      truthy_opt a = false ->
      starts_nowhere "taskflow_token=" c "" = true ->
      handshake_token (mkHandshake a (Some c)) = None
      /\ user (fst (io_use P t (mkHandshake a (Some c)))) = None)
  /\ (forall a,
      truthy_opt a = false ->
      handshake_token (mkHandshake a None) = None
      /\ user (fst (io_use P t (mkHandshake a None))) = None).
Proof.
  split; [|split; [|split; [|split]]].
  - intros tok c Hne. unfold handshake_token, or_else.
    cbn [auth_token truthy_opt].
    assert (E : truthy tok = true).
    { unfold truthy. apply negb_true_iff. now apply String.eqb_neq. }
    now rewrite E.
  - intros a pre v post Ha Hname Hinside Hsemi.
    unfold handshake_token, or_else. cbn [auth_token cookie_header].
    rewrite Ha. unfold split.
    change (COOKIE_NAME ++ "=") with (String "t" "askflow_token=").
    change "taskflow_token=" with (String "t" "askflow_token=") in *.
    rewrite (split_go_first "t" "askflow_token=" pre _ "" Hname).
    cbn [nth_error].
    rewrite (split_go_carries _ v _ "" Hinside).
    change ("" ++ v) with v.
    change (";" ++ post) with (String ";" post).
    cbn [split_go]. 
    assert (E : String.prefix (String "t" "askflow_token=") (String ";" post)
                = false) by reflexivity.
    rewrite E.
    destruct (split_go_head (String "t" "askflow_token=") post 0%nat
                (v ++ String ";" "")) as (x & r & ->).
    rewrite append_assoc.
    change (String ";" "" ++ x) with (String ";" "" ++ x).
    rewrite (split_go_first ";" "" v x "").
    + reflexivity.
    + now apply (no_semicolon_any_tail v "").
  - intros a pre v Ha Hname Hinside Hsemi.
    unfold handshake_token, or_else. cbn [auth_token cookie_header].
    rewrite Ha. unfold split.
    change (COOKIE_NAME ++ "=") with (String "t" "askflow_token=").
    change "taskflow_token=" with (String "t" "askflow_token=") in *.
    replace (pre ++ String "t" "askflow_token=" ++ v)
      with (pre ++ String "t" "askflow_token=" ++ v) by reflexivity.
    rewrite (split_go_first "t" "askflow_token=" pre v "" Hname).
    cbn [nth_error].
    rewrite (split_go_none _ v "" Hinside). change ("" ++ v) with v.
    now rewrite (split_go_none ";" v "" Hsemi).
  - intros a c Ha Hname.
    assert (E : handshake_token (mkHandshake a (Some c)) = None).
    { unfold handshake_token, or_else. cbn [auth_token cookie_header].
      rewrite Ha. unfold split.
      change (COOKIE_NAME ++ "=") with "taskflow_token=".
      now rewrite (split_go_none "taskflow_token=" c "" Hname). }
    split; [exact E|]. unfold io_use. now rewrite E.
  - intros a Ha.
    assert (E : handshake_token (mkHandshake a None) = None).
    { unfold handshake_token, or_else. cbn [auth_token cookie_header].
      now rewrite Ha. }
    split; [exact E|]. unfold io_use. now rewrite E.
Qed.

(* ===================================================================== *)
(** * The pages: pushed events, notices, buckets *)
(* ===================================================================== *)

Section Reconciling.

Import Pages.

Variable randomUUID : nat -> string.

Lemma notify_assignment_refetches (me : optional string) (ev : PushedEvent)
      (p : Page) :
  refetches (notify_assignment randomUUID me ev p) = refetches p.
Proof.
  unfold notify_assignment. now destruct (_ && _).
Qed.

Lemma dashboard_one (me : optional string) (e : TaskEvent) (p : Page) :
  refetches (dashboard_handleTaskEvent randomUUID me (pushed e) p)
  = S (refetches p)
  /\ List.length
       (notifications (dashboard_handleTaskEvent randomUUID me (pushed e) p))
     = (List.length (notifications p)
        + (if is_update e then 1 else 0)
        + (if assigns_to me e then 1 else 0))%nat.
Proof.
  unfold dashboard_handleTaskEvent, notify_assignment.
  destruct e as [tid x|tid x|tid uid x|tid];
    cbn [pushed e_type e_userId e_data is_update assigns_to];
    try (destruct (same_optional (defined uid) me));
    simpl; rewrite ?length_app; simpl; split; lia.
Qed.

Lemma tasks_one (me : optional string) (e : TaskEvent) (p : Page) :
  refetches (tasks_handleTaskEvent randomUUID me (pushed e) p)
  = S (refetches p)
  /\ List.length
       (notifications (tasks_handleTaskEvent randomUUID me (pushed e) p))
     = (List.length (notifications p)
        + (if assigns_to me e then 1 else 0))%nat.
Proof.
  unfold tasks_handleTaskEvent, notify_assignment.
  destruct e as [tid x|tid x|tid uid x|tid];
    cbn [pushed e_type e_userId e_data is_update assigns_to];
    try (destruct (same_optional (defined uid) me));
    simpl; rewrite ?length_app; simpl; split; lia.
Qed.

(** X17. What a page does with pushes.  Each pushed event makes the
    page invalidate its task list once, whatever the event.  The
    dashboard adds one notice per task:updated and one per task:assigned
    addressed to its own user; the tasks page adds one per task:assigned
    addressed to its own user and nothing else; task:created and
    task:deleted add no notice on either. *)
Theorem X17_pushes_refetch_and_notify
  (me : optional string) (evs : list TaskEvent) (p : Page) :
  refetches (receive (dashboard_handleTaskEvent randomUUID) me evs p)
  = (refetches p + List.length evs)%nat
  /\ refetches (receive (tasks_handleTaskEvent randomUUID) me evs p)
     = (refetches p + List.length evs)%nat
  /\ List.length
       (notifications
          (receive (dashboard_handleTaskEvent randomUUID) me evs p))
     = (List.length (notifications p)
        + List.length (filter is_update evs)
        + List.length (filter (assigns_to me) evs))%nat
  /\ List.length
       (notifications (receive (tasks_handleTaskEvent randomUUID) me evs p))
     = (List.length (notifications p)
        + List.length (filter (assigns_to me) evs))%nat.
Proof.
  unfold receive. revert p.
  induction evs as [|e r IH]; intros p; cbn [fold_left filter List.length].
  - repeat split; lia.
  - destruct (IH (dashboard_handleTaskEvent randomUUID me (pushed e) p))
      as (H1 & _ & H3 & _).
    destruct (IH (tasks_handleTaskEvent randomUUID me (pushed e) p))
      as (_ & H2 & _ & H4).
    destruct (dashboard_one me e p) as [D1 D2].
    destruct (tasks_one me e p) as [T1 T2].
    rewrite H1, H2, H3, H4, D1, D2, T1, T2.
    destruct (is_update e), (assigns_to me e); cbn [List.length];
      repeat split; lia.
Qed.

(** X18. A notice that was just added is removed by dismissing its id,
    and nothing else is, when the id drawn for it is not the id of a
    notice already on screen; dismissing never touches notices with
    another id. *)
Theorem X18_dismissing_a_notice
  (type title message : string) (p : Page) :
  (forall n, In n (notifications p) -> n_id n <> randomUUID (drawn p)) ->
  notifications
    (dismissNotification (randomUUID (drawn p))
       (addNotification randomUUID type title message p))
  = notifications p
  /\ (forall nid n,
        In n (notifications (dismissNotification nid p))
        <-> In n (notifications p) /\ n_id n <> nid).
Proof.
  intros Hfresh. split.
  - unfold dismissNotification, addNotification. cbn [notifications].
    rewrite filter_app. cbn [filter n_id]. rewrite String.eqb_refl.
    cbn [negb]. rewrite app_nil_r.
    induction (notifications p) as [|n r IH]; [reflexivity|].
    cbn [filter]. 
    assert (E : String.eqb (n_id n) (randomUUID (drawn p)) = false).
    { apply String.eqb_neq. apply Hfresh. now left. }
    rewrite E. cbn [negb]. f_equal. apply IH.
    intros m Hm. apply Hfresh. now right.
  - intros nid n. unfold dismissNotification. cbn [notifications].
    rewrite filter_In, negb_true_iff, String.eqb_neq. tauto.
Qed.

End Reconciling.

(** X19. From a PATCH to the screens.  When a PATCH is answered 200,
    every dashboard that receives its broadcast shows "Task updated",
    and the dashboard of the user the patch newly assigned the task to
    shows "New task assigned" after it, quoting the title of the task;
    the tasks page of that user shows the assignment notice alone, and
    the tasks page of anyone else shows nothing. *)
Theorem X19_patch_reaches_the_pages
  (P : Platform) (tick : Tick) (s : Store) (tid : string) (b : json)
  (tok : option string) (randomUUID : nat -> string)
  (me : optional string) (p : Pages.Page) :
  let answer := serve P tick s (api_request (PatchTask tid b) tok) in
  statusCode (fst (fst answer)) = 200 ->
  exists data row x,
    updateTaskSchema_parse P b = inr data
    /\ lookup_task s tid = Some row
    /\ body (fst (fst answer)) = json_of_TaskWithRelations x
    /\ Pages.notifications
         (Pages.receive (Pages.dashboard_handleTaskEvent randomUUID) me
                        (snd answer) p)
       = (Pages.notifications p
          ++ update_notice (randomUUID (Pages.drawn p))
             :: match newly_assigned data (assignedToId row) with
                | Some a =>
                    if Pages.same_optional (defined a) me
                    then [assignment_notice (randomUUID (S (Pages.drawn p))) x]
                    else []
                | None => []
                end)%list
    /\ Pages.notifications
         (Pages.receive (Pages.tasks_handleTaskEvent randomUUID) me
                        (snd answer) p)
       = (Pages.notifications p
          ++ match newly_assigned data (assignedToId row) with
             | Some a =>
                 if Pages.same_optional (defined a) me
                 then [assignment_notice (randomUUID (Pages.drawn p)) x]
                 else []
             | None => []
             end)%list.
Proof.
  intros answer Hst. subst answer.
  pose proof (serve_effect P tick s (api_request (PatchTask tid b) tok))
    as Heff.
  destruct (serve P tick s (api_request (PatchTask tid b) tok))
    as [[resp s1] evs].
  cbn [fst snd] in *.
  destruct Heff
    as [resp [Hno|Hw]
       | b0 data0 Hr _ _
       | b0 u0 data0 due x Hr _ _ _ _ _ _ _ _
       | tid0 b0 u0 data0 due row x Hr Hu0 Hp0 Hrow Hdue Hfk Ht Hx
       | tid0 u0 row Hr _ _]; try discriminate.
  - exfalso. apply Hno. unfold success. lia.
  - cbn [route api_request] in Hr. injection Hr as <- <-.
    exists data0, row, x. split; [exact Hp0|]. split; [exact Hrow|].
    split; [reflexivity|].
    unfold patch_events, Pages.receive.
    destruct (newly_assigned data0 (assignedToId row)) as [a|];
      cbn [fold_left Pages.pushed];
      unfold Pages.dashboard_handleTaskEvent, Pages.tasks_handleTaskEvent,
        Pages.notify_assignment;
      cbn [Pages.e_type Pages.e_userId Pages.e_data String.eqb Ascii.eqb
           Bool.eqb andb];
      try (destruct (Pages.same_optional (defined a) me));
      cbn [Pages.addNotification Pages.invalidateQueries Pages.notifications
           Pages.drawn Pages.refetches];
      unfold update_notice, assignment_notice;
      rewrite <- ?app_assoc, ?app_nil_r; split; reflexivity.
Qed.

Section Buckets.

Import Pages.

Variable host : string -> Date.
Variable offset : Z -> Z.

Lemma get_set_same (k : string) (v : list json) (m : DateMap) :
  get_or_empty k (Map_set k v m) = v.
Proof.
  unfold get_or_empty, Map_get.
  induction m as [|[k' v'] r IH]; simpl.
  - now rewrite String.eqb_refl.
  - destruct (String.eqb k' k) eqn:E; simpl.
    + now rewrite String.eqb_refl.
    + rewrite E. exact IH.
Qed.

Lemma get_set_other (k k0 : string) (v : list json) (m : DateMap) :
  k0 <> k -> get_or_empty k0 (Map_set k v m) = get_or_empty k0 m.
Proof.
  intros Hne. unfold get_or_empty, Map_get.
  induction m as [|[k' v'] r IH]; simpl.
  - apply String.eqb_neq in Hne. rewrite String.eqb_sym in Hne.
    now rewrite Hne.
  - destruct (String.eqb k' k) eqn:E; simpl.
    + apply String.eqb_eq in E. subst k'.
      apply String.eqb_neq in Hne. rewrite String.eqb_sym in Hne.
      now rewrite Hne.
    + destruct (String.eqb k' k0); [reflexivity|exact IH].
Qed.

Lemma key_after_set (k k0 : string) (v : list json) (m : DateMap) :
  In k0 (map fst (Map_set k v m)) -> k0 = k \/ In k0 (map fst m).
Proof.
  induction m as [|[k' v'] r IH]; simpl.
  - intros [<-|[]]. now left.
  - destruct (String.eqb k' k) eqn:E; simpl.
    + apply String.eqb_eq in E. subst k'. tauto.
    + intros [<-|Hin]; [tauto|]. destruct (IH Hin); tauto.
Qed.

Lemma keys_after_set (k : string) (v : list json) (m : DateMap) :
  NoDup (map fst m) -> NoDup (map fst (Map_set k v m)).
Proof.
  induction m as [|[k' v'] r IH]; simpl; intros H.
  - constructor; [intros []|constructor].
  - inversion H as [|x xs Hnot Hr]; subst.
    destruct (String.eqb k' k) eqn:E; simpl.
    + apply String.eqb_eq in E. subst k'. now constructor.
    + constructor; [|now apply IH].
      intros Hin. apply key_after_set in Hin. destruct Hin as [->|Hin].
      * now rewrite String.eqb_refl in E.
      * now apply Hnot.
Qed.

Lemma values_after_set (k : string) (v : list json) (m : DateMap) :
  v <> [] ->
  (forall k0 l, In (k0, l) m -> l <> []) ->
  forall k0 l, In (k0, l) (Map_set k v m) -> l <> [].
Proof.
  intros Hv. induction m as [|[k' v'] r IH]; simpl; intros Hm k0 l Hin.
  - destruct Hin as [Hin|[]]. now injection Hin as _ <-.
  - destruct (String.eqb k' k); simpl in Hin.
    + destruct Hin as [Hin|Hin]; [now injection Hin as _ <-|].
      apply (Hm k0 l). now right.
    + destruct Hin as [Hin|Hin]; [apply (Hm k0 l); now left|].
      apply (IH (fun a c H => Hm a c (or_intror H)) k0 l Hin).
Qed.

Lemma collect_spec (ts : list json) :
  forall m m',
    collect host offset ts m = Some m' ->
    (forall k, get_or_empty k m'
               = (get_or_empty k m ++ filter (due_on_key host offset k) ts)%list)
    /\ (NoDup (map fst m) -> NoDup (map fst m'))
    /\ ((forall k l, In (k, l) m -> l <> []) ->
        forall k l, In (k, l) m' -> l <> []).
Proof.
  induction ts as [|t r IH]; intros m m'; cbn [collect filter].
  - intros H. injection H as <-. split; [|split]; auto.
    intros k. now rewrite app_nil_r.
  - unfold due_on_key at 1.
    destruct (bucket_of host offset t) as [|key|] eqn:Eb; [| |discriminate].
    + intros H. destruct (IH _ _ H) as (H1 & H2 & H3).
      split; [|split]; [|exact H2|exact H3].
      intros k. exact (H1 k).
    + intros H. destruct (IH _ _ H) as (H1 & H2 & H3).
      split; [|split].
      * intros k. rewrite H1.
        destruct (String.eqb key k) eqn:E.
        -- apply String.eqb_eq in E. subst key. rewrite get_set_same.
           now rewrite <- app_assoc.
        -- rewrite get_set_other; [reflexivity|].
           apply String.eqb_neq in E. congruence.
      * intros Hnd. apply H2. now apply keys_after_set.
      * intros Hm. apply H3. apply values_after_set; [|exact Hm].
        now destruct (get_or_empty key m).
Qed.

Lemma collect_throws (ts : list json) :
  forall m,
    collect host offset ts m = None
    <-> exists t, In t ts /\ bucket_of host offset t = unformattable.
Proof.
  induction ts as [|t r IH]; intros m; cbn [collect].
  - split; [discriminate|]. intros (t & [] & _).
  - destruct (bucket_of host offset t) as [|key|] eqn:Eb.
    + rewrite IH. split.
      * intros (t0 & Hin & H). exists t0. split; [now right|exact H].
      * intros (t0 & [<-|Hin] & H); [congruence|]. now exists t0.
    + rewrite IH. split.
      * intros (t0 & Hin & H). exists t0. split; [now right|exact H].
      * intros (t0 & [<-|Hin] & H); [congruence|]. now exists t0.
    + split; [|reflexivity]. intros _. exists t. split; [now left|exact Eb].
Qed.

(** X20. The buckets of the calendar.  When [tasksByDate] completes,
    the bucket of a day holds exactly the tasks whose due date formats
    to that day's key, in the order of the task list; tasks without due
    date are in no bucket; the keys are distinct and no bucket is empty;
    the tasks shown for the selected date are those of its key.  It
    fails exactly when some task has a due date that is no date. *)
Theorem X20_calendar_buckets (ts : list json) :
  (forall m,
      tasksByDate host offset ts = Some m ->
      (forall k, get_or_empty k m = filter (due_on_key host offset k) ts)
      /\ NoDup (map fst m)
      /\ (forall k l, In (k, l) m -> l <> [])
      /\ (forall day,
            selectedDateTasks offset (Some day) m
            = filter (due_on_key host offset
                        (format_yyyy_MM_dd (offset day) day)) ts)
      /\ selectedDateTasks offset None m = [])
  /\ (tasksByDate host offset ts = None
      <-> exists t, In t ts /\ bucket_of host offset t = unformattable).
Proof.
  split.
  - intros m H. unfold tasksByDate in H.
    destruct (collect_spec ts [] m H) as (H1 & H2 & H3).
    split; [exact H1|]. split; [apply H2; constructor|].
    split; [apply H3; intros k l []|].
    split; [|reflexivity].
    intros day. unfold selectedDateTasks. apply H1.
  - apply collect_throws.
Qed.

End Buckets.

Section Overdue.

Import Pages.

Variable host : string -> Date.

(** The browser's offset from UTC, the same at all instants involved. *)
Variable o : Z.

Lemma local_day_mono (a b : Z) :
  a <= b -> local_day (fun _ => o) a <= local_day (fun _ => o) b.
Proof.
  intros H. unfold local_day, msPerDay. apply Z.div_le_mono; lia.
Qed.

(** X21. The overdue test of the dashboard, in a browser whose offset
    from UTC does not change: a task counted as overdue has a due date
    on a calendar day before today and is not completed; conversely a
    task that is not completed and due on a day before the day of the
    first reading of the clock is counted.  A task due earlier today, a
    completed task and a task without due date never are. *)
Theorem X21_overdue_means_due_on_an_earlier_day
  (now1 now2 : Z) (t : json) :
  now1 <= now2 ->
  (overdue host (fun _ => o) now1 now2 t = true ->
   exists d ms,
     property "dueDate" t = Some (JStr d)
     /\ Date_parse host d = Some ms
     /\ local_day (fun _ => o) ms < local_day (fun _ => o) now2
     /\ property "status" t <> Some (JStr "completed"))
  /\ (forall d ms,
        property "dueDate" t = Some (JStr d) -> d <> "" ->
        Date_parse host d = Some ms ->
        property "status" t <> Some (JStr "completed") ->
        local_day (fun _ => o) ms < local_day (fun _ => o) now1 ->
        overdue host (fun _ => o) now1 now2 t = true)
  /\ (forall d ms,
        property "dueDate" t = Some (JStr d) ->
        Date_parse host d = Some ms ->
        local_day (fun _ => o) ms = local_day (fun _ => o) now2 ->
        overdue host (fun _ => o) now1 now2 t = false)
  /\ (property "status" t = Some (JStr "completed") ->
      overdue host (fun _ => o) now1 now2 t = false)
  /\ (property "dueDate" t = Some JNull \/ property "dueDate" t = None ->
      overdue host (fun _ => o) now1 now2 t = false).
Proof.
  intros Hclock. unfold overdue.
  split; [|split; [|split; [|split]]].
  - destruct (property "dueDate" t) as [[| | |d| |]|]; try discriminate.
    intros H. repeat (apply andb_true_iff in H; destruct H as [H ?]).
    destruct (Date_parse host d) as [ms|] eqn:Ed; [|discriminate].
    exists d, ms. cbn [isPast isToday] in *.
    split; [reflexivity|]. split; [exact Ed|].
    apply Z.ltb_lt in H2. apply negb_true_iff, Z.eqb_neq in H1.
    pose proof (local_day_mono ms now2 ltac:(lia)).
    split; [lia|].
    intros Hs. rewrite Hs in H0. discriminate.
  - intros d ms -> Hd -> Hs Hday. cbn [isPast isToday].
    assert (E1 : truthy d = true).
    { unfold truthy. apply negb_true_iff. now apply String.eqb_neq. }
    assert (E2 : (ms <? now1) = true).
    { apply Z.ltb_lt. destruct (Z_lt_le_dec ms now1) as [|Hge]; [assumption|].
      pose proof (local_day_mono now1 ms Hge). lia. }
    assert (E3 : (local_day (fun _ => o) ms =? local_day (fun _ => o) now2)
                 = false).
    { apply Z.eqb_neq. pose proof (local_day_mono now1 now2 Hclock). lia. }
    rewrite E1, E2, E3. cbn [andb negb].
    destruct (property "status" t) as [[| | |st| |]|]; try reflexivity.
    destruct (String.eqb st "completed") eqn:E; [|reflexivity].
    apply String.eqb_eq in E. subst st. now destruct Hs.
  - intros d ms -> -> Hday. cbn [isPast isToday].
    apply Z.eqb_eq in Hday. rewrite Hday. cbn [negb].
    now rewrite andb_false_r.
  - intros ->. destruct (property "dueDate" t) as [[| | |d| |]|];
      try reflexivity.
    cbn [String.eqb Ascii.eqb Bool.eqb negb]. now rewrite andb_false_r.
  - intros [->| ->]; reflexivity.
Qed.

End Overdue.

Section Screens.

Import App.

Variable matches : string -> string -> bool.

(** X22. Which screen a location gets.  While the session is loading
    every location shows the loading screen.  A visitor without a user
    is never shown the dashboard, the tasks, the calendar or the team:
    every location gives the login page, the register page, or a
    redirect to /login.  A signed-in user is never shown the login or
    the register page: those locations redirect to /. *)
Theorem X22_screens_by_session (location : string) :
  (forall user, Router matches user true location = LoadingScreen)
  /\ (Router matches None false location = LoginPage
      \/ Router matches None false location = RegisterPage
      \/ Router matches None false location = Redirect "/login")
  /\ protected (Router matches None false location) = false
  /\ (forall u,
        Router matches (Some u) false location <> LoginPage
        /\ Router matches (Some u) false location <> RegisterPage
        /\ Router matches (Some u) false location <> Redirect "/login"
        /\ (matches "/login" location = true
            \/ matches "/register" location = true ->
            Router matches (Some u) false location = Redirect "/")).
Proof.
  unfold Router, PublicRoute, AuthenticatedLayout, ProtectedRoute.
  split; [reflexivity|]. split; [|split].
  - destruct (matches "/login" location); [now left|].
    destruct (matches "/register" location); [right; now left|].
    right. now right.
  - destruct (matches "/login" location); [reflexivity|].
    now destruct (matches "/register" location).
  - intros u.
    destruct (matches "/login" location), (matches "/register" location),
      (matches "/" location), (matches "/tasks" location),
      (matches "/calendar" location), (matches "/team" location);
      repeat split; try discriminate; try reflexivity;
      intros [H|H]; discriminate.
Qed.

End Screens.

Section OneSocket.

Import SocketClient.

Lemma steps_cons (m : Module_) (x : Location * Step)
                 (l : list (Location * Step)) :
  steps m (x :: l) = steps (step (fst x) m (snd x)) l.
Proof. reflexivity. Qed.

Lemma steps_app (m : Module_) (l1 l2 : list (Location * Step)) :
  steps m (l1 ++ l2) = steps (steps m l1) l2.
Proof. unfold steps. apply fold_left_app. Qed.

(** Once the module holds a socket, it holds that socket for good. *)
Lemma socket_is_kept (l : list (Location * Step)) :
  forall m s,
    socket m = Some s ->
    exists s',
      socket (steps m l) = Some s'
      /\ url s' = url s /\ path s' = path s
      /\ created (steps m l) = created m
      /\ auth s' = last_token l (auth s).
Proof.
  induction l as [|[loc st] l IH]; intros m s Hs.
  - exists s. now repeat split.
  - rewrite steps_cons. cbn [fst snd].
    assert (Hstep : exists s1,
               socket (step loc m st) = Some s1
               /\ url s1 = url s /\ path s1 = path s
               /\ created (step loc m st) = created m
               /\ last_token ((loc, st) :: l) (auth s)
                  = last_token l (auth s1)).
    { destruct st as [|[|t]| |up]; cbn [step];
        unfold connectSocket, disconnectSocket, getSocket; rewrite Hs;
        cbn [snd socket created last_token].
      - exists s. now repeat split.
      - destruct (negb (connected s));
          (eexists; split; [reflexivity|]; now repeat split).
      - destruct (truthy t);
          match goal with
          | |- context [negb (connected ?x)] =>
              destruct (negb (connected x))
          end;
          (eexists; split; [reflexivity|]; now repeat split).
      - eexists; split; [reflexivity|]; now repeat split.
      - eexists; split; [reflexivity|]; now repeat split. }
    destruct Hstep as (s1 & H1 & Hu & Hp & Hc & Ht).
    destruct (IH _ _ H1) as (s' & E & Hu' & Hp' & Hc' & Ha').
    exists s'. rewrite Ht. repeat split; congruence.
Qed.

Lemma socket_is_made_once (l : list (Location * Step)) :
  forall m,
    socket m = None ->
    (socket (steps m l) = None /\ created (steps m l) = created m)
    \/ exists s loc,
         socket (steps m l) = Some s
         /\ In loc (map fst l) /\ url s = wsUrl loc /\ path s = "/ws"
         /\ created (steps m l) = S (created m)
         /\ auth s = last_token l undefined.
Proof.
  induction l as [|[loc st] l IH]; intros m Hm.
  - left. now split.
  - rewrite steps_cons. cbn [fst snd].
    assert (Hmade : forall s1,
               socket (step loc m st) = Some s1 ->
               url s1 = wsUrl loc -> path s1 = "/ws" ->
               created (step loc m st) = S (created m) ->
               last_token ((loc, st) :: l) undefined
               = last_token l (auth s1) ->
               exists s loc0,
                 socket (steps (step loc m st) l) = Some s
                 /\ In loc0 (map fst ((loc, st) :: l))
                 /\ url s = wsUrl loc0 /\ path s = "/ws"
                 /\ created (steps (step loc m st) l) = S (created m)
                 /\ auth s = last_token ((loc, st) :: l) undefined).
    { intros s1 H1 Hu Hp Hc Ht.
      destruct (socket_is_kept l _ _ H1) as (s' & E & Hu' & Hp' & Hc' & Ha').
      exists s', loc. rewrite Ht.
      repeat split; try congruence. now left. }
    assert (Hidle : step loc m st = m ->
               last_token ((loc, st) :: l) undefined
               = last_token l undefined ->
               (socket (steps (step loc m st) l) = None
                /\ created (steps (step loc m st) l) = created m)
               \/ exists s loc0,
                    socket (steps (step loc m st) l) = Some s
                    /\ In loc0 (map fst ((loc, st) :: l))
                    /\ url s = wsUrl loc0 /\ path s = "/ws"
                    /\ created (steps (step loc m st) l) = S (created m)
                    /\ auth s = last_token ((loc, st) :: l) undefined).
    { intros -> ->. destruct (IH m Hm) as [H|(s & loc0 & H & Hin & R)];
        [now left|].
      right. exists s, loc0. split; [exact H|]. split; [now right|exact R]. }
    destruct st as [|[|t]| |up].
    + right.
      eapply Hmade; cbn [step]; unfold getSocket; rewrite ?Hm;
        cbn [snd socket created url path auth]; reflexivity.
    + right.
      eapply Hmade; cbn [step]; unfold connectSocket, getSocket; rewrite ?Hm;
        cbn [snd socket created url path auth connected negb];
        reflexivity.
    + right. destruct (truthy t) eqn:Et.
      * eapply Hmade; cbn [step]; unfold connectSocket, getSocket;
          rewrite ?Hm, ?Et;
          cbn [snd socket created url path auth connected negb last_token];
          rewrite ?Et; reflexivity.
      * eapply Hmade; cbn [step]; unfold connectSocket, getSocket;
          rewrite ?Hm, ?Et;
          cbn [snd socket created url path auth connected negb last_token];
          rewrite ?Et; reflexivity.
    + apply Hidle; [|reflexivity].
      cbn [step]. unfold disconnectSocket. now rewrite Hm.
    + apply Hidle; [|reflexivity]. cbn [step]. now rewrite Hm.
Qed.

Lemma socket_is_made_by_a_call (l : list (Location * Step)) :
  forall m,
    socket m = None ->
    (socket (steps m l) = None
     <-> forall loc st,
           In (loc, st) l ->
           st = call_disconnectSocket \/ exists up, st = transport up).
Proof.
  induction l as [|[loc st] l IH]; intros m Hm.
  - split; [intros _ loc st []|intros _; exact Hm].
  - rewrite steps_cons. cbn [fst snd].
    assert (Hcall : forall s1,
               socket (step loc m st) = Some s1 ->
               ~ (st = call_disconnectSocket \/ exists up, st = transport up) ->
               socket (steps (step loc m st) l) = None
               <-> forall loc0 st0,
                     In (loc0, st0) ((loc, st) :: l) ->
                     st0 = call_disconnectSocket
                     \/ exists up, st0 = transport up).
    { intros s1 H1 Hno.
      destruct (socket_is_kept l _ _ H1) as (s' & E & _).
      rewrite E. split; [discriminate|].
      intros Hall. destruct Hno. apply (Hall loc). now left. }
    assert (Hidle : step loc m st = m ->
               st = call_disconnectSocket \/ (exists up, st = transport up) ->
               socket (steps (step loc m st) l) = None
               <-> forall loc0 st0,
                     In (loc0, st0) ((loc, st) :: l) ->
                     st0 = call_disconnectSocket
                     \/ exists up, st0 = transport up).
    { intros -> Hst. rewrite (IH m Hm). split.
      - intros Hall loc0 st0 [[= <- <-]|Hin]; [exact Hst|].
        exact (Hall loc0 st0 Hin).
      - intros Hall loc0 st0 Hin. apply (Hall loc0). now right. }
    destruct st as [|tok| |up].
    + eapply Hcall.
      * cbn [step]. unfold getSocket. rewrite Hm. reflexivity.
      * intros [H|[up H]]; discriminate.
    + eapply Hcall.
      * cbn [step]. unfold connectSocket, getSocket. rewrite Hm. reflexivity.
      * intros [H|[up H]]; discriminate.
    + apply Hidle; [|now left].
      cbn [step]. unfold disconnectSocket. now rewrite Hm.
    + apply Hidle; [|right; now exists up].
      cbn [step]. now rewrite Hm.
Qed.

(** X23. The page keeps one socket.  Whatever the pages call and
    whatever the transport does, [io] is called at most once; the
    module holds a socket exactly when it was called, that is exactly
    when [getSocket] or [connectSocket] has run ([disconnectSocket]
    before that does nothing).  From then on the socket is on path /ws,
    its address is the one computed from the location at one of the
    steps and never changes afterwards, and its auth payload is the
    last non-empty token handed to [connectSocket] (none if there was
    none: a call without token keeps the previous one). *)
Theorem X23_one_socket_per_page (l later : list (Location * Step)) :
  (created (steps initial l) <= 1)%nat
  /\ (socket (steps initial l) = None <-> created (steps initial l) = 0%nat)
  /\ (socket (steps initial l) = None
      <-> forall loc st,
            In (loc, st) l ->
            st = call_disconnectSocket \/ exists up, st = transport up)
  /\ (forall s,
        socket (steps initial l) = Some s ->
        path s = "/ws"
        /\ auth s = last_token l undefined
        /\ (exists loc, In loc (map fst l) /\ url s = wsUrl loc)
        /\ exists s',
             socket (steps initial (l ++ later)) = Some s'
             /\ url s' = url s /\ path s' = "/ws"
             /\ created (steps initial (l ++ later)) = 1%nat).
Proof.
  split; [|split; [|split]];
  [| |exact (socket_is_made_by_a_call l initial eq_refl)|];
  destruct (socket_is_made_once l initial eq_refl)
    as [[Hn Hc]|(s0 & loc & Hs & Hin & Hu & Hp & Hc & Ha)];
  rewrite ?Hn, ?Hs, ?Hc; cbn [created initial]; try lia.
  - tauto.
  - split; discriminate.
  - discriminate.
  - intros s [= <-]. split; [exact Hp|]. split; [exact Ha|].
    split; [now exists loc|].
    rewrite steps_app.
    destruct (socket_is_kept later _ _ Hs) as (s' & E & Hu' & Hp' & Hc' & _).
    cbn [created initial] in Hc.
    exists s'. repeat split; congruence.
Qed.

End OneSocket.

(* ===================================================================== *)
(** * The further properties at work on the small platform *)
(* ===================================================================== *)

Lemma demo_store_ok : store_ok Demo.store.
Proof.
  constructor; cbn [Demo.store users tasks map].
  - repeat (apply NoDup_cons; [cbn [In]; intuition discriminate|]);
      apply NoDup_nil.
  - repeat (apply NoDup_cons; [cbn [In]; intuition discriminate|]);
      apply NoDup_nil.
  - repeat (apply NoDup_cons; [cbn [In]; intuition discriminate|]);
      apply NoDup_nil.
  - repeat (apply NoDup_cons; [cbn [In]; intuition discriminate|]);
      apply NoDup_nil.
  - intros t [<-|[]]. reflexivity.
  - intros t [<-|[]]. reflexivity.
Qed.

Lemma X1_witness :
  snd (fst (serve Demo.platform (Demo.at_ 6000 "t2") Demo.store
                  (Demo.request (DeleteTaskById "t9"))))
  = Demo.store
  /\ snd (serve Demo.platform (Demo.at_ 6000 "t2") Demo.store
                (Demo.request (DeleteTaskById "t9")))
     = [].
Proof.
  destruct (serve Demo.platform (Demo.at_ 6000 "t2") Demo.store
                  (Demo.request (DeleteTaskById "t9")))
    as [[resp s'] evs] eqn:Hserve.
  assert (Hcode : statusCode resp = 404).
  { change resp with (fst (fst (resp, s', evs))). rewrite <- Hserve.
    reflexivity. }
  apply (X1_failed_request_leaves_no_trace
           Demo.platform (Demo.at_ 6000 "t2") Demo.store
           (Demo.request (DeleteTaskById "t9")) resp s' evs Hserve).
  unfold success. rewrite Hcode. lia.
Defined.

Lemma X2_witness :
  snd (fst (serve Demo.platform (Demo.at_ 6000 "t2") Demo.store
                  (Demo.request GetTasks)))
  = Demo.store
  /\ snd (serve Demo.platform (Demo.at_ 6000 "t2") Demo.store
                (Demo.request GetTasks))
     = [].
Proof.
  apply (X2_reading_routes_write_nothing
           Demo.platform (Demo.at_ 6000 "t2") Demo.store
           (Demo.request GetTasks)).
  reflexivity.
Defined.

Lemma X3_witness :
  store_ok Demo.store
  /\ store_ok (snd (fst (serve Demo.platform (Demo.at_ 6000 "t2") Demo.store
                               (Demo.request (PostTask Demo.rent_body))))).
Proof.
  split; [exact demo_store_ok|].
  destruct (X3_constraints_hold_along_every_run Demo.platform) as [Hstep _].
  apply Hstep. exact demo_store_ok.
Defined.

Lemma X5_witness :
  exists t',
    In t' (tasks (snd (fst (serve Demo.platform (Demo.at_ 6000 "t2")
                                  Demo.store
                                  (Demo.request
                                     (PatchTask "t1" Demo.assign_bob))))))
    /\ assignedToId t' = Some "u2"
    /\ ((exists t, In t (tasks Demo.store) /\ id t' = id t
                   /\ creatorId t' = creatorId t
                   /\ createdAt t' = createdAt t)
        \/ (exists u, signed_in Demo.platform (Demo.at_ 6000 "t2")
                                Demo.session u
                      /\ id t' = "t2" /\ creatorId t' = userId u
                      /\ createdAt t' = 6000)).
Proof.
  exists (mkTask "t1" "Write report" None None medium todo "u1" (Some "u2")
                 5000 6000).
  assert (Hin : In (mkTask "t1" "Write report" None None medium todo "u1"
                           (Some "u2") 5000 6000)
                   (tasks (snd (fst (serve Demo.platform (Demo.at_ 6000 "t2")
                                           Demo.store
                                           (Demo.request
                                              (PatchTask "t1"
                                                         Demo.assign_bob))))))).
  { left. reflexivity. }
  split; [exact Hin|]. split; [reflexivity|].
  exact (X5_task_identity_is_stable
           Demo.platform (Demo.at_ 6000 "t2") Demo.store
           (Demo.request (PatchTask "t1" Demo.assign_bob)) _ Hin).
Defined.

Lemma X6_witness :
  user_texts_ok Demo.carol = true
  /\ unused Demo.store
            (registered_row Demo.platform (Demo.at_ 6000 "u3") Demo.carol)
  /\ statusCode
       (fst (fst (serve Demo.platform (Demo.at_ 6000 "u3") Demo.store
                        (register_request Demo.carol_body None))))
     = 201
  /\ serve Demo.platform (Demo.at_ 6000 "u3") Demo.store
           (register_request Demo.nul_body None)
     = (message_response 400 "invalid byte sequence for encoding UTF8: 0x00",
        Demo.store, []).
Proof.
  assert (Hfree : unused Demo.store
                    (registered_row Demo.platform (Demo.at_ 6000 "u3")
                                    Demo.carol)).
  { repeat split; reflexivity. }
  split; [reflexivity|]. split; [exact Hfree|].
  destruct (X6_registration_outcomes
              Demo.platform (Demo.at_ 6000 "u3") Demo.store Demo.carol_body
              None Demo.carol eq_refl)
    as (_ & _ & _ & _ & Hiff).
  split; [apply (proj2 Hiff); split; [reflexivity|exact Hfree]|].
  destruct (X6_registration_outcomes
              Demo.platform (Demo.at_ 6000 "u3") Demo.store Demo.nul_body
              None Demo.nul eq_refl)
    as (_ & _ & Hrefused & _).
  apply Hrefused; reflexivity.
Defined.

Lemma X7_witness :
  statusCode
    (fst (fst (serve Demo.platform (Demo.at_ 6000 "u3") Demo.store
                     (register_request Demo.carol_body None))))
  = 201
  /\ statusCode
       (fst (fst (serve Demo.platform (Demo.at_ 7000 "u4")
                        (snd (fst (serve Demo.platform (Demo.at_ 6000 "u3")
                                         Demo.store
                                         (register_request Demo.carol_body
                                                           None))))
                        (login_request Demo.carol_login None))))
     = 200.
Proof.
  destruct (X7_register_then_login
              Demo.platform (Demo.at_ 6000 "u3") (Demo.at_ 7000 "u4")
              Demo.store Demo.carol_body Demo.carol_login None None
              Demo.carol)
    as (Hcreated & Hthen);
    [reflexivity | reflexivity | reflexivity |].
  assert (H201 : statusCode
                   (fst (fst (serve Demo.platform (Demo.at_ 6000 "u3")
                                    Demo.store
                                    (register_request Demo.carol_body
                                                      None))))
                 = 201).
  { apply Hcreated; [reflexivity|]. repeat split; reflexivity. }
  split; [exact H201|].
  destruct (Hthen H201) as (Hlogin & _). exact Hlogin.
Defined.

Lemma X8_witness :
  exists me,
    serve Demo.platform (Demo.at_ 7000 "u4") Demo.store
          (api_request GetMe
             (Some (issued Demo.platform (Demo.at_ 6000 "u3") Demo.ada)))
    = (mkResponse 200 me cookie_untouched, Demo.store, [])
    /\ me = body (fst (fst (serve Demo.platform (Demo.at_ 6000 "u3")
                                  Demo.store
                                  (login_request Demo.ada_login None)))).
Proof.
  destruct (X8_login_then_me
              Demo.platform (Demo.at_ 6000 "u3") (Demo.at_ 7000 "u4")
              Demo.store Demo.ada_login None
              (mkLoginData "ada@example.org" "analytical") Demo.ada)
    as (_ & _ & Hme);
    [ exact (user_ids_unique _ demo_store_ok)
    | reflexivity | reflexivity | reflexivity | reflexivity | reflexivity |].
  eexists. split; [exact Hme|reflexivity].
Defined.

Lemma X9_witness :
  jwt_verify Demo.platform "forged" 6000 = None
  /\ serve Demo.platform (Demo.at_ 6000 "t2") Demo.store
           (api_request (DeleteTaskById "t1") (Some "forged"))
     = (message_response 401 "Invalid or expired token", Demo.store, []).
Proof.
  assert (Hv : jwt_verify Demo.platform "forged" 6000 = None) by reflexivity.
  split; [exact Hv|].
  destruct (X9_no_session_no_access
              Demo.platform (Demo.at_ 6000 "t2") Demo.store
              (DeleteTaskById "t1"))
    as (_ & _ & Hbad).
  apply Hbad; [discriminate|exact Hv].
Defined.

Lemma X10_witness :
  (exists xs,
     getAllTasks Demo.world = (Ok xs, Demo.world)
     /\ Permutation (map task xs) [Demo.chore])
  /\ exists ys,
       serve Demo.platform (Demo.at_ 6000 "t2") Demo.store
             (api_request GetTasks Demo.session)
       = (json_response 200 (JArr (map json_of_TaskWithRelations ys)),
          Demo.store, [])
       /\ List.length ys = 1%nat.
Proof.
  destruct (X10_task_list_is_complete_and_newest_first
              Demo.platform (Demo.at_ 6000 "t2") Demo.world)
    as (Hall & Hsome & Hserved).
  split.
  - destruct Hsome as (xs & Hxs).
    { apply (creators_exist _ demo_store_ok). }
    exists xs. split; [exact Hxs|].
    destruct (Hall xs Demo.world Hxs) as (_ & Hperm & _).
    exact Hperm.
  - exact (Hserved Demo.session Demo.ada_session demo_store_ok
                   (ada_signed_in 6000 "t2" ltac:(lia))).
Defined.

Lemma X11_witness :
  exists xs,
    getTasksByAssignee "u2" Demo.world = (Ok xs, Demo.world)
    /\ List.length xs = 0%nat
    /\ exists ys,
         getTasksByCreator "u1" Demo.world = (Ok ys, Demo.world)
         /\ List.length ys = 1%nat.
Proof.
  destruct (X11_tasks_of_a_user Demo.world "u2") as [_ Hassignee].
  destruct (X11_tasks_of_a_user Demo.world "u1") as [Hcreator _].
  destruct (getTasksByAssignee "u2" Demo.world) as [[xs|e] w'] eqn:Ea;
    [|discriminate Ea].
  destruct (getTasksByCreator "u1" Demo.world) as [[ys|e] w''] eqn:Ec;
    [|discriminate Ec].
  destruct (Hassignee xs w' eq_refl) as (-> & _ & _ & Hla).
  destruct (Hcreator ys w'' eq_refl) as (-> & _ & _ & Hlc).
  exists xs. split; [reflexivity|]. split; [exact Hla|].
  exists ys. split; [reflexivity|exact Hlc].
Defined.

Lemma X12_witness :
  insertTaskSchema_parse Demo.platform Demo.rent_body = inr Demo.rent
  /\ statusCode
       (fst (fst (serve Demo.platform (Demo.at_ 6000 "t2") Demo.store
                        (api_request (PostTask Demo.rent_body)
                                     Demo.session))))
     = 201
  /\ (exists m,
        serve Demo.platform (Demo.at_ 6000 "t2") Demo.store
              (api_request (PostTask Demo.year_zero_body) Demo.session)
        = (message_response 400 m, Demo.store, []))
  /\ (exists m,
        serve Demo.platform (Demo.at_ 6000 "t2") Demo.store
              (api_request (PostTask Demo.nul_title_body) Demo.session)
        = (message_response 400 m, Demo.store, [])).
Proof.
  split; [reflexivity|]. split; [|split].
  - destruct (X12_creating_a_task
                Demo.platform (Demo.at_ 6000 "t2") Demo.store Demo.rent_body
                Demo.session Demo.ada_session Demo.rent
                (ada_signed_in 6000 "t2" ltac:(lia)) eq_refl)
      as [Hiff _].
    apply (proj2 Hiff).
    split; [reflexivity|]. split; [eexists; reflexivity|].
    repeat split; reflexivity.
  - destruct (X12_creating_a_task
                Demo.platform (Demo.at_ 6000 "t2") Demo.store
                Demo.year_zero_body Demo.session Demo.ada_session
                Demo.year_zero
                (ada_signed_in 6000 "t2" ltac:(lia)) eq_refl)
      as (_ & _ & Hrefused & _).
    apply Hrefused. right. reflexivity.
  - destruct (X12_creating_a_task
                Demo.platform (Demo.at_ 6000 "t2") Demo.store
                Demo.nul_title_body Demo.session Demo.ada_session
                Demo.nul_title
                (ada_signed_in 6000 "t2" ltac:(lia)) eq_refl)
      as (_ & _ & Hrefused & _).
    apply Hrefused. left. reflexivity.
Defined.

Lemma X13_witness :
  serve Demo.platform (Demo.at_ 7000 "t3")
        (snd (fst (serve Demo.platform (Demo.at_ 6000 "t2") Demo.store
                         (api_request (PostTask Demo.rent_body)
                                      Demo.session))))
        (api_request (GetTaskById "t2") Demo.session)
  = (json_response 200
       (body (fst (fst (serve Demo.platform (Demo.at_ 6000 "t2") Demo.store
                              (api_request (PostTask Demo.rent_body)
                                           Demo.session))))),
     snd (fst (serve Demo.platform (Demo.at_ 6000 "t2") Demo.store
                     (api_request (PostTask Demo.rent_body) Demo.session))),
     []).
Proof.
  apply (X13_create_then_get
           Demo.platform (Demo.at_ 6000 "t2") (Demo.at_ 7000 "t3") Demo.store
           Demo.rent_body Demo.session Demo.session Demo.ada_session
           (ada_signed_in 7000 "t3" ltac:(lia))).
  reflexivity.
Defined.

Lemma X14_witness :
  serve Demo.platform (Demo.at_ 7000 "t3")
        (snd (fst (serve Demo.platform (Demo.at_ 6000 "t2") Demo.store
                         (api_request (PatchTask "t1" Demo.assign_bob)
                                      Demo.session))))
        (api_request (GetTaskById "t1") Demo.session)
  = (json_response 200
       (body (fst (fst (serve Demo.platform (Demo.at_ 6000 "t2") Demo.store
                              (api_request (PatchTask "t1" Demo.assign_bob)
                                           Demo.session))))),
     snd (fst (serve Demo.platform (Demo.at_ 6000 "t2") Demo.store
                     (api_request (PatchTask "t1" Demo.assign_bob)
                                  Demo.session))),
     []).
Proof.
  apply (X14_patch_then_get
           Demo.platform (Demo.at_ 6000 "t2") (Demo.at_ 7000 "t3") Demo.store
           "t1" Demo.assign_bob Demo.session Demo.session Demo.ada_session
           (ada_signed_in 7000 "t3" ltac:(lia))).
  reflexivity.
Defined.

Lemma X15_witness :
  lookup_task Demo.store "t1" <> None
  /\ snd (serve Demo.platform (Demo.at_ 6000 "t2") Demo.store
                (api_request (DeleteTaskById "t1") Demo.session))
     = [task_deleted "t1"]
  /\ serve Demo.platform (Demo.at_ 7000 "t3")
           (snd (fst (serve Demo.platform (Demo.at_ 6000 "t2") Demo.store
                            (api_request (DeleteTaskById "t1")
                                         Demo.session))))
           (api_request (GetTaskById "t1") Demo.session)
     = (message_response 404 "Task not found",
        snd (fst (serve Demo.platform (Demo.at_ 6000 "t2") Demo.store
                        (api_request (DeleteTaskById "t1") Demo.session))),
        []).
Proof.
  assert (Hrow : lookup_task Demo.store "t1" <> None) by discriminate.
  split; [exact Hrow|].
  destruct (X15_deleting_a_task
              Demo.platform (Demo.at_ 6000 "t2") (Demo.at_ 7000 "t3")
              Demo.store "t1" Demo.session Demo.session
              Demo.ada_session Demo.ada_session
              (ada_signed_in 6000 "t2" ltac:(lia))
              (ada_signed_in 7000 "t3" ltac:(lia)))
    as (_ & Hiff & Hdone).
  destruct (Hdone (proj2 (Hiff demo_store_ok) Hrow)) as (Hevs & _ & _ & Hget).
  split; [exact Hevs|exact Hget].
Defined.

Lemma X16_witness :
  handshake_token Demo.stale_handshake = Some "u1|ada@example.org|10".
Proof.
  destruct (X16_token_read_at_the_handshake Demo.platform 6000)
    as (_ & Hcookie & _).
  apply (Hcookie None "theme=dark; " "u1|ada@example.org|10" " lang=en");
    reflexivity.
Defined.

Lemma X18_witness :
  Pages.notifications
    (Pages.dismissNotification "1"
       (Pages.addNotification Demo.draw "success" "Task updated" "again"
          (Pages.addNotification Demo.draw "info" "New task assigned" "first"
                                 Pages.blank)))
  = [Pages.mkNotification "0" "info" "New task assigned" "first"].
Proof.
  destruct (X18_dismissing_a_notice
              Demo.draw "success" "Task updated" "again"
              (Pages.addNotification Demo.draw "info" "New task assigned"
                                     "first" Pages.blank))
    as [Hback _].
  - intros n [<-|[]]. discriminate.
  - exact Hback.
Defined.

Lemma X19_witness :
  exists x,
    Pages.notifications
      (Pages.receive (Pages.dashboard_handleTaskEvent Demo.draw)
         (defined "u2")
         (snd (serve Demo.platform (Demo.at_ 6000 "t2") Demo.store
                     (api_request (PatchTask "t1" Demo.assign_bob)
                                  Demo.session)))
         Pages.blank)
    = [update_notice "0"; assignment_notice "1" x]
    /\ Pages.notifications
         (Pages.receive (Pages.tasks_handleTaskEvent Demo.draw)
            (defined "u1")
            (snd (serve Demo.platform (Demo.at_ 6000 "t2") Demo.store
                        (api_request (PatchTask "t1" Demo.assign_bob)
                                     Demo.session)))
            Pages.blank)
       = [].
Proof.
  destruct (X19_patch_reaches_the_pages
              Demo.platform (Demo.at_ 6000 "t2") Demo.store "t1"
              Demo.assign_bob Demo.session Demo.draw (defined "u2")
              Pages.blank eq_refl)
    as (data & row & x & Hparse & Hrow & _ & Hdash & _).
  destruct (X19_patch_reaches_the_pages
              Demo.platform (Demo.at_ 6000 "t2") Demo.store "t1"
              Demo.assign_bob Demo.session Demo.draw (defined "u1")
              Pages.blank eq_refl)
    as (data' & row' & x' & Hparse' & Hrow' & _ & _ & Htasks).
  assert (Ed : updateTaskSchema_parse Demo.platform Demo.assign_bob
               = inr (mkUpdateTask undefined undefined undefined undefined
                                   undefined (defined (Some "u2"))))
    by reflexivity.
  assert (Er : lookup_task Demo.store "t1" = Some Demo.chore) by reflexivity.
  rewrite Ed in Hparse, Hparse'. rewrite Er in Hrow, Hrow'.
  injection Hparse as <-. injection Hparse' as <-.
  injection Hrow as <-. injection Hrow' as <-.
  exists x. split; [exact Hdash|exact Htasks].
Defined.

Lemma X20_witness :
  exists m,
    Pages.tasksByDate (fun _ => None) (fun _ => 0)
                      [Demo.due_in_march; Demo.some_day]
    = Some m
    /\ Pages.get_or_empty "2025-03-01" m = [Demo.due_in_march]
    /\ Pages.get_or_empty "2025-03-02" m = [].
Proof.
  destruct (X20_calendar_buckets
              (fun _ => None) (fun _ => 0)
              [Demo.due_in_march; Demo.some_day])
    as [Hsome _].
  destruct (Pages.tasksByDate (fun _ => None) (fun _ => 0)
                              [Demo.due_in_march; Demo.some_day])
    as [m|] eqn:E; [|discriminate E].
  exists m. split; [reflexivity|].
  destruct (Hsome m eq_refl) as (Hkey & _).
  split; rewrite Hkey; reflexivity.
Defined.

Lemma X21_witness :
  Pages.overdue (fun _ => None) (fun _ => -60)
                Demo.third_of_march (Demo.third_of_march + 5)
                Demo.due_in_march
  = true.
Proof.
  destruct (X21_overdue_means_due_on_an_earlier_day
              (fun _ => None) (-60)
              Demo.third_of_march (Demo.third_of_march + 5)
              Demo.due_in_march)
    as (_ & Hdue & _).
  - unfold Demo.third_of_march. lia.
  - apply (Hdue "2025-03-01T00:00:00.000Z" 1740787200000).
    + reflexivity.
    + discriminate.
    + reflexivity.
    + discriminate.
    + reflexivity.
Defined.

Lemma X22_witness :
  App.Router String.eqb (Some (toPublicUser Demo.ada)) false "/login"
  = App.Redirect "/".
Proof.
  destruct (X22_screens_by_session String.eqb "/login")
    as (_ & _ & _ & Huser).
  destruct (Huser (toPublicUser Demo.ada)) as (_ & _ & _ & Hhome).
  apply Hhome. left. reflexivity.
Defined.

Lemma X23_witness :
  exists s,
    SocketClient.socket (SocketClient.steps SocketClient.initial Scene.evening)
    = Some s
    /\ SocketClient.path s = "/ws"
    /\ SocketClient.auth s = defined "tok1".
Proof.
  destruct (X23_one_socket_per_page Scene.evening [])
    as (_ & _ & _ & Hsocket).
  destruct (SocketClient.socket
              (SocketClient.steps SocketClient.initial Scene.evening))
    as [s|] eqn:E; [|discriminate E].
  exists s. split; [reflexivity|].
  destruct (Hsocket s eq_refl) as (Hpath & Hauth & _).
  split; [exact Hpath|exact Hauth].
Defined.
